(** * Credit-card fraud notebook: the transformation chain, embedded and verified

    The notebook [credit_card_fraud_analysis.ipynb] is a chain of PySpark
    dataframe calls.  This development embeds the chain cell by cell:

    - a data frame is a schema together with a list of rows, a row being an
      ordered list of named values, as PySpark's [Row];
    - a column expression has an analysis side (its type against a schema,
      which may be rejected) and an execution side (its value on a row);
    - [withColumn] and [drop] act on the schema and on every row;
    - the two cells that only look at the final frame are a [select]
      followed by [show] or [toPandas]: what [show] prints is embedded as
      the rows it prints, not as their text, and the chart drawn from the
      local table is outside the embedding;
    - the engine functions the notebook calls ([from_json], [split], [cast],
      [from_utc_timestamp], [to_timestamp], [sha2]) follow the behaviour of
      Spark SQL under the setting of [spark.sql.ansi.enabled] the session
      has; the notebook sets none, and the default is off in Spark 3 and
      on in Spark 4.  With the flag off a value that cannot be computed is
      null; with it on the expression raises;
    - execution is lazy: an expression that raises is a cell that holds the
      error, and the error is raised by the action whose job computes the
      cell.

    Column names are resolved without regard to case, as the analyzer does
    by default: a name that resolves to two columns is rejected, and
    [withColumn] gives the column it replaces the spelling of the call.
    The analyzer's implicit casts are left out: an operand of a type other
    than the ones a function lists is rejected.  Longs and instants are
    integers of [Z] within 64 bits: the conversion of a double to a long
    saturates at the bounds as the engine's does, and an instant moved by a
    zone offset past them is an arithmetic overflow.

    Text grammars and tables that live outside the notebook (the JSON
    tokenizer, the grammar of floating-point and timestamp literals, the
    time-zone rules) are gathered in the class [Engine]; every general
    theorem holds for an arbitrary engine, and [reference_engine] is a
    concrete one on which the notebook can be run. *)

From Stdlib Require Import ZArith List String Ascii Bool Lia.
From Stdlib Require Import Floats.SpecFloat.
Import ListNotations.

Set Warnings "-register-all".

Local Open Scope string_scope.
Local Open Scope list_scope.

(** ** Analysis results *)

(** A dataframe call either returns, or the analyzer rejects it. *)
Inductive Result (A : Type) : Type :=
| Ok (a : A)
| AnalysisException (message : string).

Arguments Ok {A} a.
Arguments AnalysisException {A} message.

Definition bind {A B : Type} (r : Result A) (k : A -> Result B) : Result B :=
  match r with
  | Ok a => k a
  | AnalysisException m => AnalysisException m
  end.

Notation "x <- r ;; k" := (bind r (fun x => k))
  (at level 61, r at next level, right associativity).

(** ** Types and values *)

Inductive DataType : Type :=
| StringType
| IntegerType
| LongType
| DoubleType
| BooleanType
| TimestampType
| ArrayType (elementType : DataType)
| StructType (fields : list (string * DataType)).

(** The errors an expression of the notebook can raise while a job runs. *)
Inductive SparkError : Type :=
| INVALID_ARRAY_INDEX
| CAST_INVALID_INPUT
| CAST_OVERFLOW
| DIVIDE_BY_ZERO
| ARITHMETIC_OVERFLOW.

(** A double is an IEEE-754 binary64 value; a timestamp is a number of
    microseconds since the epoch and carries no zone.

    The engine is lazy: [withColumn] only extends the plan, and a cell is
    computed when an action asks for it.  [Raise e] stands in a cell whose
    expression raises [e] when it is computed; it is what the action then
    raises, and no column function takes it for a value. *)
Inductive Value : Type :=
| Null
| Str (s : string)
| Int (n : Z)
| Long (n : Z)
| Double (d : spec_float)
| Bool (b : bool)
| Timestamp (micros : Z)
| Array (items : list Value)
| Struct (fields : list (string * Value))
| Raise (error : SparkError).

Definition Schema : Type := list (string * DataType).
Definition Row : Type := list (string * Value).

Definition StructField (name : string) (t : DataType) : string * DataType :=
  (name, t).

(** ** Names

    The analyzer resolves the name of a column, or of a field of a struct,
    without regard to the case of its letters: [spark.sql.caseSensitive] is
    off unless a session sets it, and the notebook does not.  Names are byte
    strings here, and the letters folded are the ASCII ones. *)

Definition fold_letter (c : ascii) : ascii :=
  let n := N_of_ascii c in
  if ((65 <=? n) && (n <=? 90))%N then ascii_of_N (n + 32) else c.

Fixpoint fold_case (s : string) : string :=
  match s with
  | EmptyString => EmptyString
  | String c rest => String (fold_letter c) (fold_case rest)
  end.

Definition name_eqb (a b : string) : bool :=
  String.eqb (fold_case a) (fold_case b).

(** ** Named fields *)

Section Fields.
Context {A : Type}.

Definition fieldNames (fs : list (string * A)) : list string := map fst fs.

(** The first field a name resolves to. *)
Fixpoint lookup (name : string) (fs : list (string * A)) : option A :=
  match fs with
  | [] => None
  | (n, x) :: rest => if name_eqb n name then Some x else lookup name rest
  end.

(** The number of fields a name resolves to: a reference to a name that
    resolves to more than one is ambiguous. *)
Definition matches (name : string) (fs : list (string * A)) : nat :=
  List.length (filter (fun f => name_eqb (fst f) name) fs).

Definition hasField (name : string) (fs : list (string * A)) : bool :=
  existsb (fun f => name_eqb (fst f) name) fs.

(** [withColumn]'s effect on one list of fields: every field the name
    resolves to is replaced in place and takes the name as it is written in
    the call, and the field is appended when there is none. *)
Definition with_field (name : string) (x : A) (fs : list (string * A))
  : list (string * A) :=
  if hasField name fs
  then map (fun f => if name_eqb (fst f) name then (name, x) else f) fs
  else fs ++ [(name, x)].

(** [drop]'s effect: the fields the given names resolve to are removed; a
    name that resolves to none is ignored. *)
Definition without (names : list string) (fs : list (string * A))
  : list (string * A) :=
  filter (fun f => negb (existsb (name_eqb (fst f)) names)) fs.

(** The member of a JSON object under a key: keys are compared as they are
    written. *)
Fixpoint member (key : string) (ms : list (string * A)) : option A :=
  match ms with
  | [] => None
  | (k, x) :: rest => if String.eqb k key then Some x else member key rest
  end.
End Fields.

(** ** Data frames and column expressions *)

Record DataFrame : Type := {
  schema : Schema;
  rows : list Row
}.

Definition columns (df : DataFrame) : list string := fieldNames (schema df).
Definition count (df : DataFrame) : nat := List.length (rows df).

Record Column : Type := {
  dataType : Schema -> Result DataType;
  eval : Row -> Value
}.

Definition withColumn (colName : string) (c : Column) (df : DataFrame)
  : Result DataFrame :=
  t <- dataType c (schema df) ;;
  Ok {| schema := with_field colName t (schema df);
        rows := map (fun r => with_field colName (eval c r) r) (rows df) |}.

Definition drop (cols : list string) (df : DataFrame) : DataFrame :=
  {| schema := without cols (schema df);
     rows := map (without cols) (rows df) |}.

(** *** [col]: a column, or a field of a struct column through a dotted path *)

Fixpoint split_on (delim : ascii -> bool) (s : string) : list string :=
  match s with
  | EmptyString => [EmptyString]
  | String c rest =>
      if delim c then EmptyString :: split_on delim rest
      else match split_on delim rest with
           | [] => [String c EmptyString]
           | piece :: pieces => String c piece :: pieces
           end
  end.

Fixpoint field_type (path : list string) (t : DataType) : option DataType :=
  match path with
  | [] => Some t
  | f :: rest =>
      match t with
      | StructType fs =>
          match lookup f fs with
          | Some t' => field_type rest t'
          | None => None
          end
      | _ => None
      end
  end.

Fixpoint field_value (path : list string) (v : Value) : Value :=
  match path with
  | [] => v
  | f :: rest =>
      match v with
      | Struct fs =>
          match lookup f fs with
          | Some v' => field_value rest v'
          | None => Null
          end
      | Raise e => Raise e
      | _ => Null
      end
  end.

(** A name that resolves to no column, or to more than one, is rejected. *)
Definition col (name : string) : Column :=
  match split_on (Ascii.eqb ".") name with
  | [] => {| dataType := fun _ => AnalysisException name; eval := fun _ => Null |}
  | top :: path =>
      {| dataType := fun sch =>
           match lookup top sch with
           | Some t =>
               if (1 <? matches top sch)%nat then AnalysisException name
               else match field_type path t with
                    | Some t' => Ok t'
                    | None => AnalysisException name
                    end
           | None => AnalysisException name
           end;
         eval := fun r =>
           match lookup top r with
           | Some v => field_value path v
           | None => Null
           end |}
  end.

(** ** SHA-256 (FIPS 180-4), on 32-bit words held in [Z] *)

Module Sha256.
Local Open Scope Z_scope.

Definition word (x : Z) : Z := x mod 2 ^ 32.
Definition add (x y : Z) : Z := word (x + y).
Definition rotr (n x : Z) : Z :=
  Z.lor (Z.shiftr x n) (word (Z.shiftl x (32 - n))).
Definition shr (n x : Z) : Z := Z.shiftr x n.
Definition xor3 (x y z : Z) : Z := Z.lxor (Z.lxor x y) z.

Definition Ch (x y z : Z) : Z :=
  Z.lxor (Z.land x y) (Z.land (Z.lxor x 0xffffffff) z).
Definition Maj (x y z : Z) : Z :=
  xor3 (Z.land x y) (Z.land x z) (Z.land y z).
Definition Sigma0 (x : Z) : Z := xor3 (rotr 2 x) (rotr 13 x) (rotr 22 x).
Definition Sigma1 (x : Z) : Z := xor3 (rotr 6 x) (rotr 11 x) (rotr 25 x).
Definition sigma0 (x : Z) : Z := xor3 (rotr 7 x) (rotr 18 x) (shr 3 x).
Definition sigma1 (x : Z) : Z := xor3 (rotr 17 x) (rotr 19 x) (shr 10 x).

(** The constants of the standard are fractional parts of roots of the
    first primes: the first 32 bits of the cube roots of the first 64 primes
    for the round constants, of the square roots of the first 8 primes for
    the initial hash value. *)

Definition is_prime (n : nat) : bool :=
  forallb (fun d => negb (Nat.eqb (Nat.modulo n d) 0)) (seq 2 (n - 2)).

Definition primes (count : nat) : list Z :=
  map Z.of_nat (firstn count (filter is_prime (seq 2 400))).

(** The largest [r] below [2 ^ bits] with [r ^ 3 <= n]. *)
Fixpoint cube_root (bits : nat) (n r : Z) : Z :=
  match bits with
  | O => r
  | S bits' =>
      let r' := r + 2 ^ Z.of_nat bits' in
      cube_root bits' n (if r' * r' * r' <=? n then r' else r)
  end.

Definition K : list Z :=
  Eval vm_compute in
    map (fun p => word (cube_root 40 (p * 2 ^ 96) 0)) (primes 64).

Definition H0 : list Z :=
  Eval vm_compute in map (fun p => word (Z.sqrt (p * 2 ^ 64))) (primes 8).

(** The eight working variables, and the hash value between blocks. *)
Record State : Type := mkState {
  va : Z; vb : Z; vc : Z; vd : Z; ve : Z; vf : Z; vg : Z; vh : Z
}.

Definition initial : State :=
  mkState (nth 0 H0 0) (nth 1 H0 0) (nth 2 H0 0) (nth 3 H0 0)
          (nth 4 H0 0) (nth 5 H0 0) (nth 6 H0 0) (nth 7 H0 0).

Definition round (s : State) (kw : Z * Z) : State :=
  let t1 := add (add (add (vh s) (Sigma1 (ve s)))
                     (add (Ch (ve s) (vf s) (vg s)) (fst kw))) (snd kw) in
  let t2 := add (Sigma0 (va s)) (Maj (va s) (vb s) (vc s)) in
  mkState (add t1 t2) (va s) (vb s) (vc s) (add (vd s) t1) (ve s) (vf s) (vg s).

(** The message schedule, most recent word first. *)
Fixpoint extend (n : nat) (w : list Z) : list Z :=
  match n with
  | O => w
  | S n' =>
      extend n'
        (add (add (sigma1 (nth 1 w 0)) (nth 6 w 0))
             (add (sigma0 (nth 14 w 0)) (nth 15 w 0)) :: w)
  end.

Definition schedule (block : list Z) : list Z := rev (extend 48 (rev block)).

Definition compress (h : State) (block : list Z) : State :=
  let s := fold_left round (combine K (schedule block)) h in
  mkState (add (va h) (va s)) (add (vb h) (vb s)) (add (vc h) (vc s))
          (add (vd h) (vd s)) (add (ve h) (ve s)) (add (vf h) (vf s))
          (add (vg h) (vg s)) (add (vh h) (vh s)).

Definition byte_of (c : ascii) : Z := Z.of_N (N_of_ascii c).

Fixpoint bytes_of (s : string) : list Z :=
  match s with
  | EmptyString => []
  | String c rest => byte_of c :: bytes_of rest
  end.

Definition be64 (n : Z) : list Z :=
  map (fun i => Z.shiftr n (8 * i) mod 256) [7; 6; 5; 4; 3; 2; 1; 0].

Definition pad (msg : list Z) : list Z :=
  let len := Z.of_nat (List.length msg) in
  msg ++ [0x80] ++ repeat 0 (Z.to_nat ((55 - len) mod 64)) ++ be64 (8 * len).

Fixpoint words (bs : list Z) : list Z :=
  match bs with
  | b0 :: b1 :: b2 :: b3 :: rest =>
      (b0 * 2 ^ 24 + b1 * 2 ^ 16 + b2 * 2 ^ 8 + b3) :: words rest
  | _ => []
  end.

Fixpoint blocks (fuel : nat) (ws : list Z) : list (list Z) :=
  match fuel, ws with
  | S fuel', _ :: _ => firstn 16 ws :: blocks fuel' (skipn 16 ws)
  | _, _ => []
  end.

Definition digest (msg : string) : State :=
  let ws := words (pad (bytes_of msg)) in
  fold_left compress (blocks (List.length ws) ws) initial.

Definition hex_digit (n : Z) : ascii :=
  nth (Z.to_nat (n mod 16))
      (list_ascii_of_string "0123456789abcdef") "0"%char.

Definition hex_word (w : Z) : string :=
  string_of_list_ascii
    (map (fun i => hex_digit (Z.shiftr w (4 * i))) [7; 6; 5; 4; 3; 2; 1; 0]).

Definition hex (s : State) : string :=
  hex_word (va s) ++ hex_word (vb s) ++ hex_word (vc s) ++ hex_word (vd s) ++
  hex_word (ve s) ++ hex_word (vf s) ++ hex_word (vg s) ++ hex_word (vh s).

Definition sha256_hex (msg : string) : string := hex (digest msg).

Definition lower_hex (c : ascii) : bool :=
  existsb (Ascii.eqb c) (list_ascii_of_string "0123456789abcdef").
End Sha256.

(** ** Numbers and instants *)

Module Numeric.
Local Open Scope Z_scope.

(** *** Strings to 32-bit integers

    A cast from string to [int] trims the white space and the control
    characters at both ends (the bytes up to the space, and DEL), reads an
    optional sign and decimal digits, accepts a decimal point followed by
    digits (which are dropped), and gives no value when anything else is
    met or the 32-bit range is left. *)

Definition is_space (c : ascii) : bool :=
  ((N_of_ascii c <=? 32) || (N_of_ascii c =? 127))%N.

Fixpoint trim_left (s : string) : string :=
  match s with
  | String c rest => if is_space c then trim_left rest else s
  | EmptyString => s
  end.

Fixpoint rev_string (acc s : string) : string :=
  match s with
  | EmptyString => acc
  | String c rest => rev_string (String c acc) rest
  end.

Definition trim (s : string) : string :=
  rev_string "" (trim_left (rev_string "" (trim_left s))).

Definition digit_of (c : ascii) : option Z :=
  let n := N_of_ascii c in
  if ((48 <=? n) && (n <=? 57))%N then Some (Z.of_N n - 48) else None.

Fixpoint all_digits (s : string) : bool :=
  match s with
  | EmptyString => true
  | String c rest =>
      match digit_of c with
      | Some _ => all_digits rest
      | None => false
      end
  end.

(** The digits before the decimal point, as a magnitude, and the text
    after the point. *)
Fixpoint integral_part (acc : Z) (s : string) : option (Z * string) :=
  match s with
  | EmptyString => Some (acc, EmptyString)
  | String c rest =>
      if Ascii.eqb c "." then Some (acc, rest)
      else match digit_of c with
           | Some d =>
               if 2 ^ 31 <? 10 * acc + d then None
               else integral_part (10 * acc + d) rest
           | None => None
           end
  end.

Definition string_to_int (s : string) : option Z :=
  match trim s with
  | EmptyString => None
  | String c rest =>
      let negative := Ascii.eqb c "-" in
      let signed := negative || Ascii.eqb c "+" in
      match (if signed then rest else String c rest) with
      | EmptyString => None
      | body =>
          match integral_part 0 body with
          | Some (m, fraction) =>
              if all_digits fraction then
                if negative then Some (- m)
                else if m <? 2 ^ 31 then Some m else None
              else None
          | None => None
          end
      end
  end.

(** The cast under ANSI rules reads the same literals, except that it
    takes no decimal point. *)
Definition has_point (s : string) : bool :=
  existsb (Ascii.eqb ".") (list_ascii_of_string s).

Definition string_to_int_exact (s : string) : option Z :=
  if has_point s then None else string_to_int s.

(** *** Doubles (binary64) *)

Definition double_of_Z (n : Z) : spec_float := binary_normalize 53 1024 n 0 false.
Definition double_div : spec_float -> spec_float -> spec_float := SFdiv 53 1024.
Definition double_mul : spec_float -> spec_float -> spec_float := SFmul 53 1024.

Definition Long_MIN_VALUE : Z := - 2 ^ 63.
Definition Long_MAX_VALUE : Z := 2 ^ 63 - 1.

(** The JVM's conversion of a double to a long: towards zero, saturating,
    and zero for a NaN. *)
Definition double_to_long (d : spec_float) : Z :=
  match d with
  | S754_zero _ | S754_nan => 0
  | S754_infinity s => if s then Long_MIN_VALUE else Long_MAX_VALUE
  | S754_finite s m e =>
      let magnitude := Z.shiftl (Zpos m) e in
      Z.max Long_MIN_VALUE
            (Z.min Long_MAX_VALUE (if s then - magnitude else magnitude))
  end.

Definition fits_long (n : Z) : bool :=
  (Long_MIN_VALUE <=? n) && (n <=? Long_MAX_VALUE).

(** The check of the exact conversion: the double is compared with the
    two bounds as doubles, so that [2 ^ 63] itself passes (and saturates).
    A NaN fails it. *)
Definition double_in_long_range (d : spec_float) : bool :=
  match d with
  | S754_zero _ => true
  | S754_nan | S754_infinity _ => false
  | S754_finite s m e =>
      (* its integer part, towards zero *)
      Z.shiftl (Zpos m) e <=? 2 ^ 63
  end.

(** *** Instants *)

Definition MICROS_PER_SECOND : Z := 1000000.

Definition epoch_second (micros : Z) : Z := micros / MICROS_PER_SECOND.

(** The fields a timestamp shows on a UTC clock. *)
Record LocalDateTime : Type := mkLocalDateTime {
  year : Z; month : Z; day : Z;
  hour : Z; minute : Z; second : Z; micro : Z
}.

(** Proleptic Gregorian date of a day number counted from 1970-01-01. *)
Definition civil_from_days (days : Z) : Z * Z * Z :=
  let z := days + 719468 in
  let era := z / 146097 in
  let doe := z - era * 146097 in
  let yoe := (doe - doe / 1460 + doe / 36524 - doe / 146096) / 365 in
  let doy := doe - (365 * yoe + yoe / 4 - yoe / 100) in
  let mp := (5 * doy + 2) / 153 in
  let d := doy - (153 * mp + 2) / 5 + 1 in
  let m := if mp <? 10 then mp + 3 else mp - 9 in
  let y := yoe + era * 400 in
  (if m <=? 2 then y + 1 else y, m, d).

Definition wall_clock (micros : Z) : LocalDateTime :=
  let secs := epoch_second micros in
  let '(y, m, d) := civil_from_days (secs / 86400) in
  let sod := secs mod 86400 in
  mkLocalDateTime y m d (sod / 3600) (sod mod 3600 / 60) (sod mod 60)
                  (micros mod MICROS_PER_SECOND).
End Numeric.

(** ** The engine's readers and tables *)

(** What the JSON tokenizer makes of a text read against a schema of string
    fields: nothing at all when the text holds no token, a failure, or the
    members of an object in the order of the text, each value rendered as a
    string ([None] for the JSON null). *)
Inductive JsonReading : Type :=
| NoToken
| BadRecord
| JsonObject (members : list (string * option string)).

(** The session's configuration, as far as the notebook's functions read
    it, and the engine's readers.  The notebook creates its session without
    setting [spark.sql.ansi.enabled], so that the flag is the default of the
    engine it runs on: off up to Spark 3.5, on from Spark 4.0. *)
Class Engine : Type := {
  (** [spark.sql.ansi.enabled] *)
  ansi_enabled : bool;
  (** the JSON tokenizer *)
  read_json : string -> JsonReading;
  (** the grammar of double literals *)
  string_to_double : string -> option spec_float;
  (** the grammar of timestamp literals, read in the session's zone *)
  string_to_timestamp : string -> option Z;
  (** the zone rules: a zone identifier to its offset from UTC, in seconds,
      at an epoch second *)
  zone_rules : string -> option (Z -> Z)
}.

(** ** The functions of [pyspark.sql.functions] the notebook calls *)

Section Functions.
Context {E : Engine}.

Definition all_null (fields : Schema) : Value :=
  Struct (map (fun f => (fst f, Null)) fields).

Definition string_field (members : list (string * option string))
           (f : string * DataType) : string * Value :=
  (fst f, match member (fst f) (rev members) with
          | Some (Some s) => Str s
          | _ => Null
          end).

(** What an expression gives where it has no value to give: null, or the
    error when the session is under ANSI rules. *)
Definition missing (e : SparkError) : Value :=
  if ansi_enabled then Raise e else Null.

Definition is_string (t : DataType) : bool :=
  match t with StringType => true | _ => false end.

(** [from_json] with a struct schema, in the default PERMISSIVE mode: a
    null stays null, a text without any token gives null, a text the
    tokenizer fails on gives a struct of nulls, and an object gives its
    members under the schema's names (the last one when a name repeats).
    Schemas of string fields are the ones covered. *)
Definition from_json (c : Column) (fields : Schema) : Column :=
  {| dataType := fun sch =>
       t <- dataType c sch ;;
       if is_string t && forallb (fun f => is_string (snd f)) fields
       then Ok (StructType fields)
       else AnalysisException "from_json";
     eval := fun r =>
       match eval c r with
       | Str s =>
           match read_json s with
           | NoToken => Null
           | BadRecord => all_null fields
           | JsonObject members => Struct (map (string_field members) fields)
           end
       | Raise e => Raise e
       | _ => Null
       end |}.

(** A bracket expression of literal characters, as ["[,@/]"]. *)
Definition char_class (pattern : string) : option (list ascii) :=
  match list_ascii_of_string pattern with
  | "["%char :: body =>
      match rev body with
      | "]"%char :: chars =>
          if existsb (fun c => existsb (Ascii.eqb c)
                                 (list_ascii_of_string "[]^-\&")) chars
          then None
          else Some (rev chars)
      | _ => None
      end
  | _ => None
  end.

(** [split] on a regular expression, without a limit: every piece is
    kept, the empty ones too. *)
Definition split (c : Column) (pattern : string) : Column :=
  {| dataType := fun sch =>
       t <- dataType c sch ;;
       match t, char_class pattern with
       | StringType, Some _ => Ok (ArrayType StringType)
       | _, _ => AnalysisException "split"
       end;
     eval := fun r =>
       match eval c r, char_class pattern with
       | Str s, Some cls =>
           Array (map Str (split_on (fun ch => existsb (Ascii.eqb ch) cls) s))
       | Raise e, _ => Raise e
       | _, _ => Null
       end |}.

(** The element of an array at a position counted from zero; outside the
    array there is none. *)
Definition item (i : Z) (items : list Value) : Value :=
  if (i <? 0)%Z then missing INVALID_ARRAY_INDEX
  else match nth_error items (Z.to_nat i) with
       | Some v => v
       | None => missing INVALID_ARRAY_INDEX
       end.

(** [column[i]] on an array; a null array gives null. *)
Definition getItem (c : Column) (i : Z) : Column :=
  {| dataType := fun sch =>
       t <- dataType c sch ;;
       match t with
       | ArrayType elementType => Ok elementType
       | _ => AnalysisException "getItem"
       end;
     eval := fun r =>
       match eval c r with
       | Array items => item i items
       | Raise e => Raise e
       | _ => Null
       end |}.

Definition type_of_name (name : string) : option DataType :=
  if String.eqb name "double" then Some DoubleType
  else if String.eqb name "int" then Some IntegerType
  else if String.eqb name "timestamp" then Some TimestampType
  else None.

Definition string_to_double_value (s : string) : Value :=
  match string_to_double s with
  | Some d => Double d
  | None => missing CAST_INVALID_INPUT
  end.

(** The reader of [int] literals: under ANSI rules, the exact one. *)
Definition read_int (s : string) : option Z :=
  if ansi_enabled then Numeric.string_to_int_exact s
  else Numeric.string_to_int s.

Definition string_to_int_value (s : string) : Value :=
  match read_int s with
  | Some n => Int n
  | None => missing CAST_INVALID_INPUT
  end.

(** A double of seconds to a timestamp: microseconds, towards zero.  A NaN
    or an infinity has no timestamp; a product that leaves the 64-bit range
    saturates, and is an overflow under ANSI rules. *)
Definition double_to_timestamp (d : spec_float) : Value :=
  match d with
  | S754_nan | S754_infinity _ => missing CAST_INVALID_INPUT
  | _ =>
      let micros :=
        Numeric.double_mul d (Numeric.double_of_Z Numeric.MICROS_PER_SECOND) in
      if ansi_enabled && negb (Numeric.double_in_long_range micros)
      then Raise CAST_OVERFLOW
      else Timestamp (Numeric.double_to_long micros)
  end.

(** [cast], for the three casts of the notebook: string to double, string
    to int, double to timestamp.  A null is cast to null; a value that
    cannot be cast is null, or an error under ANSI rules. *)
Definition cast (c : Column) (typeName : string) : Column :=
  {| dataType := fun sch =>
       t <- dataType c sch ;;
       match t, type_of_name typeName with
       | StringType, Some DoubleType => Ok DoubleType
       | StringType, Some IntegerType => Ok IntegerType
       | DoubleType, Some TimestampType => Ok TimestampType
       | _, _ => AnalysisException "cast"
       end;
     eval := fun r =>
       match eval c r, type_of_name typeName with
       | Str s, Some DoubleType => string_to_double_value s
       | Str s, Some IntegerType => string_to_int_value s
       | Double d, Some TimestampType => double_to_timestamp d
       | Raise e, _ => Raise e
       | _, _ => Null
       end |}.

Definition to_double (v : Value) : option spec_float :=
  match v with
  | Int n | Long n => Some (Numeric.double_of_Z n)
  | Double d => Some d
  | _ => None
  end.

(** [column / n]: both sides as doubles; null for a null; a zero divisor
    gives null, or an error under ANSI rules. *)
Definition divide (c : Column) (n : Z) : Column :=
  {| dataType := fun sch =>
       t <- dataType c sch ;;
       match t with
       | IntegerType | LongType | DoubleType => Ok DoubleType
       | _ => AnalysisException "divide"
       end;
     eval := fun r =>
       match eval c r with
       | Raise e => Raise e
       | v =>
           match to_double v with
           | Some d =>
               if (n =? 0)%Z then missing DIVIDE_BY_ZERO
               else Double (Numeric.double_div d (Numeric.double_of_Z n))
           | None => Null
           end
       end |}.

(** An instant moved by an offset in seconds: the sum is computed in 64
    bits and its overflow is an error, under ANSI rules or not. *)
Definition shift (micros offset : Z) : Value :=
  let shifted := (micros + offset * Numeric.MICROS_PER_SECOND)%Z in
  if Numeric.fits_long shifted then Timestamp shifted
  else Raise ARITHMETIC_OVERFLOW.

(** [from_utc_timestamp]: the instant is read as UTC and rendered in the
    zone, that is, moved by the zone's offset at that instant. *)
Definition from_utc_timestamp (c : Column) (tz : string) : Column :=
  {| dataType := fun sch =>
       t <- dataType c sch ;;
       match t, zone_rules tz with
       | TimestampType, Some _ => Ok TimestampType
       | _, _ => AnalysisException "from_utc_timestamp"
       end;
     eval := fun r =>
       match eval c r, zone_rules tz with
       | Timestamp micros, Some offset =>
           shift micros (offset (Numeric.epoch_second micros))
       | Raise e, _ => Raise e
       | _, _ => Null
       end |}.

(** A string read as a timestamp literal; a literal whose instant leaves
    the 64-bit range is not read. *)
Definition string_to_timestamp_value (s : string) : Value :=
  match string_to_timestamp s with
  | Some micros =>
      if Numeric.fits_long micros then Timestamp micros
      else missing CAST_INVALID_INPUT
  | None => missing CAST_INVALID_INPUT
  end.

(** [to_timestamp] without a format: the cast of a string to a timestamp. *)
Definition to_timestamp (c : Column) : Column :=
  {| dataType := fun sch =>
       t <- dataType c sch ;;
       match t with
       | StringType => Ok TimestampType
       | _ => AnalysisException "to_timestamp"
       end;
     eval := fun r =>
       match eval c r with
       | Str s => string_to_timestamp_value s
       | Raise e => Raise e
       | _ => Null
       end |}.

(** [sha2] of a string column: the digest of the string's bytes in
    lowercase hexadecimal, null for a null.  The 256-bit member of the
    family (also selected by 0) is the one covered. *)
Definition sha2 (c : Column) (numBits : Z) : Column :=
  {| dataType := fun sch =>
       t <- dataType c sch ;;
       match t with
       | StringType =>
           if ((numBits =? 256) || (numBits =? 0))%Z then Ok StringType
           else AnalysisException "sha2"
       | _ => AnalysisException "sha2"
       end;
     eval := fun r =>
       match eval c r with
       | Str s =>
           if ((numBits =? 256) || (numBits =? 0))%Z
           then Str (Sha256.sha256_hex s)
           else Null
       | Raise e => Raise e
       | _ => Null
       end |}.
End Functions.

(** ** Method chains

    A cell of the notebook is a chain of [withColumn] and [drop] calls on
    the frame of the cell before. *)

Inductive Call : Type :=
| WithColumn (colName : string) (c : Column)
| Drop (cols : list string).

Definition call (m : Call) (df : DataFrame) : Result DataFrame :=
  match m with
  | WithColumn colName c => withColumn colName c df
  | Drop cols => Ok (drop cols df)
  end.

Fixpoint chain (calls : list Call) (df : DataFrame) : Result DataFrame :=
  match calls with
  | [] => Ok df
  | m :: rest => df' <- call m df ;; chain rest df'
  end.

(** ** The notebook, cell by cell *)

Section Notebook.
Context {E : Engine}.

(** Cell [personal-detail-schema]. *)
Definition personal_schema : Schema :=
  [ StructField "person_name" StringType;
    StructField "gender" StringType;
    StructField "address" StringType;
    StructField "lat" StringType;
    StructField "long" StringType;
    StructField "city_pop" StringType;
    StructField "job" StringType;
    StructField "dob" StringType ].

Definition personal_detail_cell : list Call :=
  [ WithColumn "personal_detail_json"
      (from_json (col "personal_detail") personal_schema);
    Drop ["personal_detail"] ].

(** Cell [address-schema]. *)
Definition address_schema : Schema :=
  [ StructField "street" StringType;
    StructField "city" StringType;
    StructField "state" StringType;
    StructField "zip" StringType ].

Definition address_cell : list Call :=
  [ WithColumn "address_json"
      (from_json (col "personal_detail_json.address") address_schema) ].

(** Cell [flatten-fields]. *)
Definition flatten_cell : list Call :=
  [ WithColumn "first"
      (getItem (split (col "personal_detail_json.person_name") "[,@/]") 0);
    WithColumn "last"
      (getItem (split (col "personal_detail_json.person_name") "[,@/]") 1);
    WithColumn "gender" (col "personal_detail_json.gender");
    WithColumn "dob" (col "personal_detail_json.dob");
    WithColumn "street" (col "address_json.street");
    WithColumn "city" (col "address_json.city");
    WithColumn "state" (col "address_json.state");
    WithColumn "zip" (col "address_json.zip");
    WithColumn "lat" (cast (col "personal_detail_json.lat") "double");
    WithColumn "long" (cast (col "personal_detail_json.long") "double");
    WithColumn "city_pop" (cast (col "personal_detail_json.city_pop") "int");
    WithColumn "job" (col "personal_detail_json.job");
    Drop ["personal_detail_json"; "address_json"] ].

(** Cell [timestamp-convert]. *)
Definition convert_epoch_microseconds (colname : string) : Column :=
  from_utc_timestamp (cast (divide (col colname) 1000000) "timestamp")
                     "Asia/Kuala_Lumpur".

Definition timestamp_cell : list Call :=
  [ WithColumn "trans_date_trans_time"
      (to_timestamp (col "trans_date_trans_time"));
    WithColumn "merch_last_update_time"
      (convert_epoch_microseconds "merch_last_update_time");
    WithColumn "merch_eff_time"
      (convert_epoch_microseconds "merch_eff_time") ].

(** Cell [mask-cc]. *)
Definition mask_cell : list Call :=
  [ WithColumn "cc_num_masked" (sha2 (col "cc_num") 256) ].

Definition parse_personal_detail : DataFrame -> Result DataFrame :=
  chain personal_detail_cell.
Definition parse_address : DataFrame -> Result DataFrame := chain address_cell.
Definition flatten_fields : DataFrame -> Result DataFrame := chain flatten_cell.
Definition timestamp_convert : DataFrame -> Result DataFrame :=
  chain timestamp_cell.
Definition mask_cc : DataFrame -> Result DataFrame := chain mask_cell.

(** The cells in the order of the notebook, from [df_raw] to the final
    [df]. *)
Definition pipeline (df_raw : DataFrame) : Result DataFrame :=
  df <- parse_personal_detail df_raw ;;
  df <- parse_address df ;;
  df <- flatten_fields df ;;
  df <- timestamp_convert df ;;
  mask_cc df.
End Notebook.

(** ** A reference engine

    A concrete engine on which the notebook runs: a JSON reader for flat
    objects, decimal literals for doubles, [yyyy-MM-dd HH:mm:ss] literals
    for timestamps in a UTC session, and the rules of the zone the notebook
    names. *)

Module Reference.
Local Open Scope Z_scope.

Definition code (c : ascii) : Z := Z.of_N (N_of_ascii c).
Definition char (n : Z) : ascii := ascii_of_N (Z.to_N n).

Definition quote : ascii := char 34.
Definition backslash : ascii := char 92.

(** Texts are written with an apostrophe where the JSON text has a double
    quote. *)
Fixpoint dq (s : string) : string :=
  match s with
  | EmptyString => EmptyString
  | String c rest => String (if Ascii.eqb c "'" then quote else c) (dq rest)
  end.

(** *** JSON *)

Definition is_ws (c : ascii) : bool :=
  existsb (Z.eqb (code c)) [32; 9; 10; 13].

Fixpoint skip_ws (s : string) : string :=
  match s with
  | String c rest => if is_ws c then skip_ws rest else s
  | EmptyString => s
  end.

Definition hex_value (c : ascii) : option Z :=
  let n := code c in
  if (48 <=? n) && (n <=? 57) then Some (n - 48)
  else if (97 <=? n) && (n <=? 102) then Some (n - 87)
  else if (65 <=? n) && (n <=? 70) then Some (n - 55)
  else None.

(** UTF-8 of a code point of the basic plane that is not a surrogate. *)
Definition utf8 (cp : Z) (tail : string) : option string :=
  if cp <? 128 then Some (String (char cp) tail)
  else if cp <? 2048 then
    Some (String (char (192 + cp / 64)) (String (char (128 + cp mod 64)) tail))
  else if (55296 <=? cp) && (cp <=? 57343) then None
  else
    Some (String (char (224 + cp / 4096))
           (String (char (128 + cp / 64 mod 64))
             (String (char (128 + cp mod 64)) tail))).

Definition simple_escape (c : ascii) : option ascii :=
  if Ascii.eqb c quote then Some quote
  else if Ascii.eqb c backslash then Some backslash
  else if Ascii.eqb c "/" then Some "/"%char
  else if Ascii.eqb c "b" then Some (char 8)
  else if Ascii.eqb c "f" then Some (char 12)
  else if Ascii.eqb c "n" then Some (char 10)
  else if Ascii.eqb c "r" then Some (char 13)
  else if Ascii.eqb c "t" then Some (char 9)
  else None.

(** The text after an opening quote: the string it holds, unescaped, and
    what follows the closing quote. *)
Fixpoint read_string (s : string) : option (string * string) :=
  match s with
  | EmptyString => None
  | String c rest =>
      if Ascii.eqb c quote then Some (EmptyString, rest)
      else if Ascii.eqb c backslash then
        match rest with
        | String "u" (String h1 (String h2 (String h3 (String h4 rest')))) =>
            match hex_value h1, hex_value h2, hex_value h3, hex_value h4,
                  read_string rest' with
            | Some a, Some b, Some c', Some d, Some (t, r) =>
                match utf8 (4096 * a + 256 * b + 16 * c' + d) t with
                | Some t' => Some (t', r)
                | None => None
                end
            | _, _, _, _, _ => None
            end
        | String e rest' =>
            match simple_escape e, read_string rest' with
            | Some ch, Some (t, r) => Some (String ch t, r)
            | _, _ => None
            end
        | EmptyString => None
        end
      else if code c <? 32 then None
      else match read_string rest with
           | Some (t, r) => Some (String c t, r)
           | None => None
           end
  end.

Definition literal_char (c : ascii) : bool :=
  let n := code c in
  ((48 <=? n) && (n <=? 57)) || ((97 <=? n) && (n <=? 122)) || (n =? 45).

Fixpoint read_literal (s : string) : string * string :=
  match s with
  | String c rest =>
      if literal_char c
      then let '(t, r) := read_literal rest in (String c t, r)
      else (EmptyString, s)
  | EmptyString => (EmptyString, EmptyString)
  end.

Definition integer_literal (t : string) : bool :=
  match t with
  | String "-" (String "0" EmptyString) => true
  | String "0" EmptyString => true
  | String "-" (String d rest) | String d rest =>
      negb (Ascii.eqb d "0") && Numeric.all_digits (String d rest)
  | EmptyString => false
  end.

(** A value: a string, or one of the literals [null], [true], [false] and
    the integers, which keep their text. *)
Definition read_value (s : string) : option (option string * string) :=
  match s with
  | String c rest =>
      if Ascii.eqb c quote then
        match read_string rest with
        | Some (t, r) => Some (Some t, r)
        | None => None
        end
      else
        let '(t, r) := read_literal s in
        if String.eqb t "null" then Some (None, r)
        else if String.eqb t "true" || String.eqb t "false" || integer_literal t
        then Some (Some t, r)
        else None
  | EmptyString => None
  end.

(** The members after an opening brace or a comma. *)
Fixpoint read_members (fuel : nat) (acc : list (string * option string))
         (s : string) : JsonReading :=
  match fuel with
  | O => BadRecord
  | S fuel' =>
      match skip_ws s with
      | String c rest =>
          if Ascii.eqb c quote then
            match read_string rest with
            | Some (name, r) =>
                match skip_ws r with
                | String ":" r' =>
                    match read_value (skip_ws r') with
                    | Some (v, r'') =>
                        match skip_ws r'' with
                        | String "," more =>
                            read_members fuel' ((name, v) :: acc) more
                        | String "}" _ => JsonObject (rev ((name, v) :: acc))
                        | _ => BadRecord
                        end
                    | None => BadRecord
                    end
                | _ => BadRecord
                end
            | None => BadRecord
            end
          else BadRecord
      | EmptyString => BadRecord
      end
  end.

Definition read_json (s : string) : JsonReading :=
  match skip_ws s with
  | EmptyString => NoToken
  | String "{" rest =>
      match skip_ws rest with
      | String "}" _ => JsonObject []
      | _ => read_members (String.length rest) [] rest
      end
  | _ => BadRecord
  end.

(** *** Decimal literals for doubles

    The reader of doubles trims the characters up to the space, not DEL. *)

Definition is_blank (c : ascii) : bool := code c <=? 32.

Fixpoint strip_left (s : string) : string :=
  match s with
  | String c rest => if is_blank c then strip_left rest else s
  | EmptyString => s
  end.

Definition strip (s : string) : string :=
  Numeric.rev_string "" (strip_left (Numeric.rev_string "" (strip_left s))).

Fixpoint read_digits (acc count : Z) (s : string) : Z * Z * string :=
  match s with
  | String c rest =>
      match Numeric.digit_of c with
      | Some d => read_digits (10 * acc + d) (count + 1) rest
      | None => (acc, count, s)
      end
  | EmptyString => (acc, count, s)
  end.

(** The double nearest to [m * 10 ^ e10], ties to even. *)
Definition decimal (negative : bool) (m e10 : Z) : spec_float :=
  if m =? 0 then S754_zero negative
  else if 0 <=? e10 then
    binary_normalize 53 1024 ((if negative then - m else m) * 10 ^ e10) 0 false
  else
    let '(q, e, l) := SFdiv_core_binary 53 1024 m 0 (10 ^ (- e10)) 0 in
    binary_round_aux 53 1024 negative q e l.

Definition read_sign (s : string) : bool * string :=
  match s with
  | String "-" rest => (true, rest)
  | String "+" rest => (false, rest)
  | _ => (false, s)
  end.

Definition read_exponent (s : string) : option Z :=
  match s with
  | EmptyString => Some 0
  | String c rest =>
      if Ascii.eqb c "e" || Ascii.eqb c "E" then
        let '(negative, digits) := read_sign rest in
        match read_digits 0 0 digits with
        | (n, count, EmptyString) =>
            if 0 <? count then Some (if negative then - n else n) else None
        | _ => None
        end
      else None
  end.

Definition string_to_double (s : string) : option spec_float :=
  let '(negative, body) := read_sign (strip s) in
  let '(whole, whole_count, after_whole) := read_digits 0 0 body in
  let '(m, fraction_count, after_fraction) :=
    match after_whole with
    | String "." rest => read_digits whole 0 rest
    | _ => (whole, 0, after_whole)
    end in
  if 0 <? whole_count + fraction_count then
    match read_exponent after_fraction with
    | Some e => Some (decimal negative m (e - fraction_count))
    | None => None
    end
  else None.

(** *** Timestamp literals, [yyyy-MM-dd HH:mm:ss], in a UTC session *)

Definition days_from_civil (y m d : Z) : Z :=
  let y' := if m <=? 2 then y - 1 else y in
  let era := y' / 400 in
  let yoe := y' - era * 400 in
  let doy := (153 * (if 2 <? m then m - 3 else m + 9) + 2) / 5 + d - 1 in
  let doe := yoe * 365 + yoe / 4 - yoe / 100 + doy in
  era * 146097 + doe - 719468.

Definition fixed_digits (cs : list ascii) : option Z :=
  fold_left (fun acc c =>
               match acc, Numeric.digit_of c with
               | Some n, Some d => Some (10 * n + d)
               | _, _ => None
               end) cs (Some 0).

Definition string_to_timestamp (s : string) : option Z :=
  match list_ascii_of_string (Numeric.trim s) with
  | [y1; y2; y3; y4; "-"%char; m1; m2; "-"%char; d1; d2; " "%char;
     h1; h2; ":"%char; n1; n2; ":"%char; s1; s2] =>
      match fixed_digits [y1; y2; y3; y4], fixed_digits [m1; m2],
            fixed_digits [d1; d2], fixed_digits [h1; h2],
            fixed_digits [n1; n2], fixed_digits [s1; s2] with
      | Some y, Some m, Some d, Some h, Some n, Some sec =>
          let days := days_from_civil y m d in
          if (h <? 24) && (n <? 60) && (sec <? 60)
             && match Numeric.civil_from_days days with
                | (y', m', d') => (y' =? y) && (m' =? m) && (d' =? d)
                end
          then Some ((days * 86400 + h * 3600 + n * 60 + sec)
                     * Numeric.MICROS_PER_SECOND)
          else None
      | _, _, _, _, _, _ => None
      end
  | _ => None
  end.

(** *** Zone rules, after the IANA time-zone database *)

Definition kuala_lumpur (epoch_second : Z) : Z :=
  if 378662400 <=? epoch_second then 28800
  else if -767005200 <=? epoch_second then 27000
  else if -879665400 <=? epoch_second then 32400
  else if -894180000 <=? epoch_second then 27000
  else if -1167634800 <=? epoch_second then 26400
  else if -2038200925 <=? epoch_second then 25200
  else 24925.

Definition zone_rules (tz : string) : option (Z -> Z) :=
  if String.eqb tz "Asia/Kuala_Lumpur" then Some kuala_lumpur
  else if String.eqb tz "UTC" then Some (fun _ => 0)
  else None.
End Reference.

#[export] Instance reference_engine : Engine := {|
  ansi_enabled := false;
  read_json := Reference.read_json;
  string_to_double := Reference.string_to_double;
  string_to_timestamp := Reference.string_to_timestamp;
  zone_rules := Reference.zone_rules
|}.

(** The same engine with [spark.sql.ansi.enabled] on, as a session of
    Spark 4 has it unless it is told otherwise. *)
Definition ansi_engine : Engine := {|
  ansi_enabled := true;
  read_json := Reference.read_json;
  string_to_double := Reference.string_to_double;
  string_to_timestamp := Reference.string_to_timestamp;
  zone_rules := Reference.zone_rules
|}.

(** Two sessions that agree on what the notebook's functions read of a
    session: the ANSI flag, the three readers, and the rules of the one zone
    the notebook names. *)
Definition same_zone (z1 z2 : option (Z -> Z)) : Prop :=
  match z1, z2 with
  | Some offset1, Some offset2 => forall t, offset1 t = offset2 t
  | None, None => True
  | _, _ => False
  end.

Definition same_session (E1 E2 : Engine) : Prop :=
  @ansi_enabled E1 = @ansi_enabled E2
  /\ (forall s, @read_json E1 s = @read_json E2 s)
  /\ (forall s, @string_to_double E1 s = @string_to_double E2 s)
  /\ (forall s, @string_to_timestamp E1 s = @string_to_timestamp E2 s)
  /\ same_zone (@zone_rules E1 "Asia/Kuala_Lumpur")
               (@zone_rules E2 "Asia/Kuala_Lumpur").

(** Two column expressions that the analyzer and the executor cannot tell
    apart, and two calls of such expressions. *)
Definition same_column (c1 c2 : Column) : Prop :=
  (forall sch, dataType c1 sch = dataType c2 sch)
  /\ (forall r, eval c1 r = eval c2 r).

Definition same_call (m1 m2 : Call) : Prop :=
  match m1, m2 with
  | WithColumn n1 c1, WithColumn n2 c2 => n1 = n2 /\ same_column c1 c2
  | Drop cols1, Drop cols2 => cols1 = cols2
  | _, _ => False
  end.

(** ** Chains, row by row *)

Definition call_row (m : Call) (r : Row) : Row :=
  match m with
  | WithColumn colName c => with_field colName (eval c r) r
  | Drop cols => without cols r
  end.

Definition chain_row (calls : list Call) (r : Row) : Row :=
  fold_left (fun r' m => call_row m r') calls r.

Definition call_schema (m : Call) (sch : Schema) : Result Schema :=
  match m with
  | WithColumn colName c => t <- dataType c sch ;; Ok (with_field colName t sch)
  | Drop cols => Ok (without cols sch)
  end.

Fixpoint chain_schema (calls : list Call) (sch : Schema) : Result Schema :=
  match calls with
  | [] => Ok sch
  | m :: rest => sch' <- call_schema m sch ;; chain_schema rest sch'
  end.

(** The names a chain writes or removes. *)
Definition touched (calls : list Call) : list string :=
  flat_map (fun m => match m with
                     | WithColumn colName _ => [colName]
                     | Drop cols => cols
                     end) calls.

Definition mentions (names : list string) (name : string) : bool :=
  existsb (name_eqb name) names.

(** Whether the analyzer accepts a chain on a schema. *)
Definition accepts (calls : list Call) (sch : Schema) : bool :=
  match chain_schema calls sch with
  | Ok _ => true
  | AnalysisException _ => false
  end.

(** The character class of the name delimiters, [,], [@] and [/]. *)
Definition name_delimiter (c : ascii) : bool :=
  existsb (Ascii.eqb c) [","; "@"; "/"]%char.

(** The characters of the literals the engine reads as a double: the
    characters up to the space, digits, signs, the point, and the letters of
    exponents, hexadecimal literals, type suffixes, [NaN] and [Infinity], in
    either case. *)
Definition double_char (c : ascii) : bool :=
  (N_of_ascii c <=? 32)%N
  || match Numeric.digit_of c with Some _ => true | None => false end
  || existsb (Ascii.eqb (fold_letter c))
             (list_ascii_of_string "+-.abcdefinptxy").

(** The characters a string read as an [int] is made of: blanks, digits,
    signs and the decimal point. *)
Definition int_char (c : ascii) : bool :=
  Numeric.is_space c
  || match Numeric.digit_of c with Some _ => true | None => false end
  || existsb (Ascii.eqb c) ["+"; "-"; "."]%char.

Section NotebookCalls.
Context {E : Engine}.

Definition notebook_calls : list Call :=
  personal_detail_cell ++ address_cell ++ flatten_cell
                       ++ timestamp_cell ++ mask_cell.
End NotebookCalls.

(** What a chain does to a column name: [None] when no call names it,
    otherwise whether the last call that names it writes it ([true]) or
    removes it ([false]). *)
Definition fate_step (name : string) (fate : option bool) (m : Call) : option bool :=
  match m with
  | WithColumn colName _ => if name_eqb name colName then Some true else fate
  | Drop cols => if mentions cols name then Some false else fate
  end.

Definition fate (calls : list Call) (name : string) : option bool :=
  fold_left (fate_step name) calls None.

Definition written (calls : list Call) (name : string) : bool :=
  match fate calls name with Some true => true | _ => false end.

Definition removed (calls : list Call) (name : string) : bool :=
  match fate calls name with Some false => true | _ => false end.

(** The columns of the final frame the notebook writes, and the ones it
    removes. *)
Definition derived_columns : list string :=
  [ "first"; "last"; "gender"; "dob"; "street"; "city"; "state"; "zip";
    "lat"; "long"; "city_pop"; "job"; "cc_num_masked" ].

Definition normalized_columns : list string :=
  [ "trans_date_trans_time"; "merch_last_update_time"; "merch_eff_time" ].

Definition dropped_columns : list string :=
  [ "personal_detail"; "personal_detail_json"; "address_json" ].

(** What a fate says of a schema, against the schema the chain started
    from. *)
Definition fate_holds (n : string) (sch0 sch : Schema) (f : option bool) : Prop :=
  match f with
  | Some true => lookup n sch <> None
  | Some false => lookup n sch = None
  | None => lookup n sch = lookup n sch0
            /\ (In n (fieldNames sch) <-> In n (fieldNames sch0))
  end.

(** The two cells that decode a JSON text. *)
Inductive JsonStage : Type := PersonalDetailStage | AddressStage.

(** The three columns the flattener casts to a number. *)
Inductive NumericColumn : Type := LatColumn | LongColumn | CityPopColumn.

Section Stages.
Context {E : Engine}.

Definition stage_cell (p : JsonStage) : list Call :=
  match p with
  | PersonalDetailStage => personal_detail_cell
  | AddressStage => address_cell
  end.

Definition stage_run (p : JsonStage) : DataFrame -> Result DataFrame :=
  match p with
  | PersonalDetailStage => parse_personal_detail
  | AddressStage => parse_address
  end.

Definition stage_source (p : JsonStage) : string :=
  match p with
  | PersonalDetailStage => "personal_detail"
  | AddressStage => "personal_detail_json.address"
  end.

Definition stage_target (p : JsonStage) : string :=
  match p with
  | PersonalDetailStage => "personal_detail_json"
  | AddressStage => "address_json"
  end.

Definition stage_schema (p : JsonStage) : Schema :=
  match p with
  | PersonalDetailStage => personal_schema
  | AddressStage => address_schema
  end.

Definition cast_source (f : NumericColumn) : string :=
  match f with
  | LatColumn => "personal_detail_json.lat"
  | LongColumn => "personal_detail_json.long"
  | CityPopColumn => "personal_detail_json.city_pop"
  end.

Definition cast_target (f : NumericColumn) : string :=
  match f with
  | LatColumn => "lat"
  | LongColumn => "long"
  | CityPopColumn => "city_pop"
  end.

(** Whether an object gives a string to none of the fields of a schema. *)
Definition no_field_read (members : list (string * option string))
           (fields : Schema) : bool :=
  forallb (fun f => match member (fst f) (rev members) with
                    | Some (Some _) => false
                    | _ => true
                    end) fields.

(** A text from which the engine reads no record of a schema: a text that
    is not a JSON object, or an object without a value for any field. *)
Definition unreadable (fields : Schema) (s : string) : Prop :=
  match read_json s with
  | JsonObject members => no_field_read members fields = true
  | _ => True
  end.

(** Whether the engine reads a string as a number of the column's type. *)
Definition numeric (f : NumericColumn) (s : string) : bool :=
  match f with
  | LatColumn | LongColumn =>
      match string_to_double s with Some _ => true | None => false end
  | CityPopColumn =>
      match read_int s with Some _ => true | None => false end
  end.

(** The characters of the literals of a numeric column's type. *)
Definition numeric_char (f : NumericColumn) (c : ascii) : bool :=
  match f with
  | LatColumn | LongColumn => double_char c
  | CityPopColumn => int_char c
  end.

(** An engine whose reader of doubles takes no string with a character
    outside the alphabet of double literals, as the JVM's reader does. *)
Definition reads_double_literals : Prop :=
  forall s c, In c (list_ascii_of_string s) -> double_char c = false ->
              string_to_double s = None.
End Stages.

(** A nested record that reads null in every field: a record of nulls, or
    a record that is null itself. *)
Definition null_record (v : Value) : Prop :=
  forall f, field_value [f] v = Null.

(** A column that is neither in the schema nor in any row. *)
Definition absent (name : string) (df : DataFrame) : Prop :=
  ~ In name (columns df)
  /\ Forall (fun r => ~ In name (fieldNames r)) (rows df).

(** The columns the notebook reads from the raw frame, with the types the
    JSON loader infers for them: strings for the texts, longs for the epoch
    values; and no name the notebook reads is the name, up to case, of two
    columns. *)
Definition raw_typed (sch : Schema) : Prop :=
  lookup "personal_detail" sch = Some StringType
  /\ lookup "trans_date_trans_time" sch = Some StringType
  /\ lookup "merch_last_update_time" sch = Some LongType
  /\ lookup "merch_eff_time" sch = Some LongType
  /\ lookup "cc_num" sch = Some StringType
  /\ Forall (fun n => matches n sch <= 1)
            ["personal_detail"; "trans_date_trans_time";
             "merch_last_update_time"; "merch_eff_time"; "cc_num";
             "personal_detail_json"; "address_json"].

(** ** A sample frame

    Four raw records: the record of the end-to-end scenario; one with a
    single-word name, texts in the numeric fields, an address that is not
    JSON and no card number; one whose personal detail is broken JSON; one
    whose personal detail is blank. *)

Module Sample.
Definition personal_detail (name address lat long city_pop : string) : string :=
  Reference.dq
    ("{'person_name':'" ++ name ++ "','gender':'M','address':'" ++ address
       ++ "','lat':'" ++ lat ++ "','long':'" ++ long
       ++ "','city_pop':'" ++ city_pop
       ++ "','job':'Engineer','dob':'1990-01-01'}").

Definition raw_schema : Schema :=
  [ ("amt", DoubleType); ("category", StringType); ("cc_num", StringType);
    ("is_fraud", LongType); ("merch_eff_time", LongType);
    ("merch_last_update_time", LongType); ("personal_detail", StringType);
    ("trans_date_trans_time", StringType) ].

Definition record (cc_num : Value) (detail : string) : Row :=
  [ ("amt", Double (Numeric.double_of_Z 50)); ("category", Str "grocery");
    ("cc_num", cc_num); ("is_fraud", Long 0);
    ("merch_eff_time", Long 1609459200000000);
    ("merch_last_update_time", Long 1609459200000000);
    ("personal_detail", Str detail);
    ("trans_date_trans_time", Str "2021-01-01 10:00:00") ].

Definition row0 : Row :=
  record (Str "4111111111111111")
    (personal_detail "Doe,John"
       "{\'street\':\'1 Main St\',\'city\':\'KL\',\'state\':\'WP\',\'zip\':\'50000\'}"
       "3.1" "101.6" "10000").

Definition row1 : Row :=
  record Null
    (personal_detail "OnlyOneName" "12 High St" "north" "east" "not_a_number").

Definition row2 : Row :=
  record (Str "4111111111111111") (Reference.dq "{'person_name' 'Doe,John'}").

Definition row3 : Row := record (Str "5500000000000004") "  ".

Definition df_raw : DataFrame :=
  {| schema := raw_schema; rows := [row0; row1; row2; row3] |}.

Definition force (r : Result DataFrame) : DataFrame :=
  match r with
  | Ok df => df
  | AnalysisException _ => {| schema := []; rows := [] |}
  end.

(** The frames between the cells, on the reference engine. *)
Definition df_personal : DataFrame :=
  Eval vm_compute in force (parse_personal_detail df_raw).
Definition df_address : DataFrame :=
  Eval vm_compute in force (parse_address df_personal).
Definition df_flat : DataFrame :=
  Eval vm_compute in force (flatten_fields df_address).
Definition df_time : DataFrame :=
  Eval vm_compute in force (timestamp_convert df_flat).
Definition df_final : DataFrame :=
  Eval vm_compute in force (mask_cc df_time).
End Sample.

(** ** The cells that only look at the frame

    Cell [show-sample] selects six columns and prints five rows; cell
    [visualize] selects three columns and brings them to the driver, where
    the chart is drawn from them. *)

(** The name a selected column gets: the last component of a dotted path. *)
Definition column_name (name : string) : string :=
  last (split_on (Ascii.eqb ".") name) name.

Fixpoint select_schema (cols : list string) (sch : Schema) : Result Schema :=
  match cols with
  | [] => Ok []
  | name :: rest =>
      t <- dataType (col name) sch ;;
      sch' <- select_schema rest sch ;;
      Ok ((column_name name, t) :: sch')
  end.

Definition select_row (cols : list string) (r : Row) : Row :=
  map (fun name => (column_name name, eval (col name) r)) cols.

(** [select] of columns by name: the frame of these columns, in the order
    given; a name that does not resolve is rejected. *)
Definition select (cols : list string) (df : DataFrame) : Result DataFrame :=
  sch <- select_schema cols (schema df) ;;
  Ok {| schema := sch; rows := map (select_row cols) (rows df) |}.

(** *** Actions

    An action runs the job that computes the cells it needs, and only
    those: the columns a [select] leaves out are not computed.  The job
    raises the error of a cell that raises. *)

Inductive Job (A : Type) : Type :=
| Returned (a : A)
| SparkException (error : SparkError).

Arguments Returned {A} a.
Arguments SparkException {A} error.

Definition raised (v : Value) : option SparkError :=
  match v with
  | Raise e => Some e
  | _ => None
  end.

(** The first error among the cells of rows, taken row by row and in a row
    column by column. *)
Fixpoint first_error (cells : list Value) : option SparkError :=
  match cells with
  | [] => None
  | v :: rest =>
      match raised v with
      | Some e => Some e
      | None => first_error rest
      end
  end.

Definition cells (rs : list Row) : list Value :=
  flat_map (fun r => map snd r) rs.

(** A row of data at rest, as a frame read from files holds them: no cell
    of it is an expression that raises. *)
Definition at_rest (r : Row) : Prop := first_error (map snd r) = None.

(** [show n]: the rows it prints, before they are rendered as text.  It
    takes one row more than it prints, to tell whether there are more. *)
Definition show (n : nat) (df : DataFrame) : Job (list Row) :=
  match first_error (cells (firstn (S n) (rows df))) with
  | Some e => SparkException e
  | None => Returned (firstn n (rows df))
  end.

(** [toPandas]: the same columns and rows, all computed and held by the
    driver. *)
Definition toPandas (df : DataFrame) : Job DataFrame :=
  match first_error (cells (rows df)) with
  | Some e => SparkException e
  | None => Returned {| schema := schema df; rows := rows df |}
  end.

(** Cell [show-sample]: the rows printed for the final frame. *)
Definition show_sample (df : DataFrame) : Result (Job (list Row)) :=
  sample <- select ["first"; "last"; "gender"; "amt"; "category"; "is_fraud"] df ;;
  Ok (show 5 sample).

(** Cell [visualize]: the local table the chart is drawn from. *)
Definition visualize_table (df : DataFrame) : Result (Job DataFrame) :=
  selected <- select ["category"; "amt"; "is_fraud"] df ;;
  Ok (toPandas selected).

(** ** Values against types *)

(** A cell of a type: a null is of every type; an [int] is within 32 bits,
    a long and the microseconds of a timestamp within 64; a struct has a
    value of the right type for every field of its type.  A cell whose
    expression raises holds no value, and is of every type as well. *)
Inductive has_type : DataType -> Value -> Prop :=
| type_null (t : DataType) : has_type t Null
| type_raise (t : DataType) (e : SparkError) : has_type t (Raise e)
| type_string (s : string) : has_type StringType (Str s)
| type_int (n : Z) : (- 2 ^ 31 <= n < 2 ^ 31)%Z -> has_type IntegerType (Int n)
| type_long (n : Z) : (- 2 ^ 63 <= n < 2 ^ 63)%Z -> has_type LongType (Long n)
| type_double (d : spec_float) : has_type DoubleType (Double d)
| type_bool (b : bool) : has_type BooleanType (Bool b)
| type_timestamp (micros : Z) :
    (- 2 ^ 63 <= micros < 2 ^ 63)%Z -> has_type TimestampType (Timestamp micros)
| type_array (e : DataType) (items : list Value) :
    Forall (has_type e) items -> has_type (ArrayType e) (Array items)
| type_struct (fields : Schema) (values : Row) :
    (forall n t, lookup n fields = Some t ->
                 exists v, lookup n values = Some v /\ has_type t v) ->
    has_type (StructType fields) (Struct values).

(** A row against a schema: every column of the schema has a value of its
    type in the row. *)
Definition row_typed (sch : Schema) (r : Row) : Prop :=
  forall n t, lookup n sch = Some t ->
              exists v, lookup n r = Some v /\ has_type t v.

Definition frame_typed (df : DataFrame) : Prop :=
  Forall (row_typed (schema df)) (rows df).

(** A column expression whose value is of the type the analyzer gives it. *)
Definition sound (c : Column) : Prop :=
  forall sch t r, dataType c sch = Ok t -> row_typed sch r -> has_type t (eval c r).

Definition call_sound (m : Call) : Prop :=
  match m with
  | WithColumn _ c => sound c
  | Drop _ => True
  end.

(** ** Chains, name by name *)

(** A name as a call spells it, when the call names it up to case. *)
Definition respell (colName n : string) : string :=
  if name_eqb n colName then colName else n.

(** A name as the first of a list that equals it up to case spells it. *)
Definition spelled (names : list string) (n : string) : string :=
  match find (name_eqb n) names with
  | Some m => m
  | None => n
  end.

Definition call_names (m : Call) (names : list string) : list string :=
  match m with
  | WithColumn colName _ =>
      if mentions names colName then map (respell colName) names
      else names ++ [colName]
  | Drop cols => filter (fun n => negb (mentions cols n)) names
  end.

Definition chain_names (calls : list Call) (names : list string) : list string :=
  fold_left (fun names' m => call_names m names') calls names.

(** The columns the notebook reads from the raw frame. *)
Definition raw_columns : list string :=
  [ "personal_detail"; "trans_date_trans_time"; "merch_last_update_time";
    "merch_eff_time"; "cc_num" ].

(** The columns the flattener fills from the nested records. *)
Definition flattened_columns : list string :=
  [ "first"; "last"; "gender"; "dob"; "street"; "city"; "state"; "zip";
    "lat"; "long"; "city_pop"; "job" ].

(** The types of the columns the notebook writes. *)
Definition written_schema : Schema :=
  [ ("first", StringType); ("last", StringType); ("gender", StringType);
    ("dob", StringType); ("street", StringType); ("city", StringType);
    ("state", StringType); ("zip", StringType); ("lat", DoubleType);
    ("long", DoubleType); ("city_pop", IntegerType); ("job", StringType);
    ("cc_num_masked", StringType);
    ("trans_date_trans_time", TimestampType);
    ("merch_last_update_time", TimestampType);
    ("merch_eff_time", TimestampType) ].

(** The string a JSON object gives a field: the value of the last member of
    that name, null when there is none or it is the JSON null. *)
Definition member_value (members : list (string * option string))
           (field : string) : Value :=
  match member field (rev members) with
  | Some (Some s) => Str s
  | _ => Null
  end.

(** The number of characters of a string that are delimiters. *)
Fixpoint delimiters (delim : ascii -> bool) (s : string) : nat :=
  match s with
  | EmptyString => 0
  | String c rest => (if delim c then 1 else 0) + delimiters delim rest
  end.

(** ** The nested records of a raw row

    What the two parser cells store for a row of the raw frame, and the row
    of these two columns alone: the flattener reads nothing else. *)

Section Nested.
Context {E : Engine}.

Definition nested_personal (r : Row) : Value :=
  eval (from_json (col "personal_detail") personal_schema) r.

Definition nested_address (r : Row) : Value :=
  eval (from_json (col "personal_detail_json.address") address_schema)
       [("personal_detail_json", nested_personal r)].

Definition nested_row (r : Row) : Row :=
  [ ("personal_detail_json", nested_personal r);
    ("address_json", nested_address r) ].
End Nested.

(** The member of the personal detail a flat column is filled from. *)
Definition member_of (column : string) : string :=
  if mentions ["first"; "last"] column then "person_name"
  else if mentions ["street"; "city"; "state"; "zip"] column then "address"
  else column.

(** * Properties *)

(** ** The engine's functions on examples *)

Example sha256_constants :
  Sha256.primes 8 = [2; 3; 5; 7; 11; 13; 17; 19]%Z
  /\ nth 0 Sha256.K 0%Z = 0x428a2f98%Z
  /\ nth 63 Sha256.K 0%Z = 0xc67178f2%Z
  /\ List.length Sha256.K = 64%nat
  /\ Sha256.va Sha256.initial = 0x6a09e667%Z
  /\ Sha256.vh Sha256.initial = 0x5be0cd19%Z.
Proof. repeat split; vm_compute; reflexivity. Qed.

Example sha256_abc :
  Sha256.sha256_hex "abc"
  = "ba7816bf8f01cfea414140de5dae2223b00361a396177a9cb410ff61f20015ad".
Proof. vm_compute. reflexivity. Qed.

Example sha256_empty :
  Sha256.sha256_hex ""
  = "e3b0c44298fc1c149afbf4c8996fb92427ae41e4649b934ca495991b7852b855".
Proof. vm_compute. reflexivity. Qed.

Example sha256_two_blocks :
  Sha256.sha256_hex "abcdbcdecdefdefgefghfghighijhijkijkljklmklmnlmnomnopnopq"
  = "248d6a61d20638b8e5c026930c3e6039a33ce45964ff2167f6ecedd419db06c1".
Proof. vm_compute. reflexivity. Qed.

Example string_to_int_plain : Numeric.string_to_int " 10000 " = Some 10000%Z.
Proof. reflexivity. Qed.

Example string_to_int_fraction : Numeric.string_to_int "-12.75" = Some (-12)%Z.
Proof. reflexivity. Qed.

Example string_to_int_range :
  Numeric.string_to_int "2147483647" = Some 2147483647%Z
  /\ Numeric.string_to_int "2147483648" = None
  /\ Numeric.string_to_int "-2147483648" = Some (-2147483648)%Z.
Proof. repeat split; reflexivity. Qed.

(** DEL is trimmed as the controls below the space are; under ANSI rules a
    decimal point is not read. *)
Example string_to_int_del :
  Numeric.string_to_int (String (ascii_of_nat 127) "12") = Some 12%Z
  /\ Numeric.string_to_int_exact (String (ascii_of_nat 127) "12") = Some 12%Z
  /\ Numeric.string_to_int_exact "-12.75" = None.
Proof. repeat split; vm_compute; reflexivity. Qed.

Example string_to_int_text : Numeric.string_to_int "not_a_number" = None.
Proof. reflexivity. Qed.

Example wall_clock_epoch :
  Numeric.wall_clock 0
  = Numeric.mkLocalDateTime 1970 1 1 0 0 0 0.
Proof. reflexivity. Qed.

Example wall_clock_2021 :
  Numeric.wall_clock 1609459200000000
  = Numeric.mkLocalDateTime 2021 1 1 0 0 0 0.
Proof. reflexivity. Qed.

Example wall_clock_leap_day :
  Numeric.wall_clock 951825599999999
  = Numeric.mkLocalDateTime 2000 2 29 11 59 59 999999.
Proof. reflexivity. Qed.

Example read_json_object :
  Reference.read_json (Reference.dq "{'a':'x,y', 'b': null, 'n': 12, 'c':'q\'r'}")
  = JsonObject [("a", Some "x,y"); ("b", None); ("n", Some "12");
                ("c", Some (Reference.dq "q'r"))].
Proof. reflexivity. Qed.

Example read_json_blank : Reference.read_json "   " = NoToken.
Proof. reflexivity. Qed.

Example read_json_broken :
  Reference.read_json (Reference.dq "{'a' 1}") = BadRecord
  /\ Reference.read_json "not json" = BadRecord
  /\ Reference.read_json (Reference.dq "{'a':'x'") = BadRecord.
Proof. repeat split; reflexivity. Qed.

Example string_to_double_decimals :
  Reference.string_to_double "3.1" = Some (S754_finite false 6980579422424269 (-51))
  /\ Reference.string_to_double "101.6" = Some (S754_finite false 7149464408450662 (-46))
  /\ Reference.string_to_double "-2.5e-3" = Some (S754_finite true 5764607523034235 (-61))
  /\ Reference.string_to_double "1e23" = Some (S754_finite false 5960464477539062 24)
  /\ Reference.string_to_double "123456789012345678901234567890"
     = Some (S754_finite false 7017705969039166 44)
  /\ Reference.string_to_double "1609459200.000001"
     = Some (S754_finite false 6750561160396804 (-22)).
Proof. repeat split; vm_compute; reflexivity. Qed.

Example string_to_double_limits :
  Reference.string_to_double "4.9e-324" = Some (S754_finite false 1 (-1074))
  /\ Reference.string_to_double "2.4703282292062328e-324" = Some (S754_finite false 1 (-1074))
  /\ Reference.string_to_double "1e-320" = Some (S754_finite false 2024 (-1074))
  /\ Reference.string_to_double "2.2250738585072014e-308"
     = Some (S754_finite false 4503599627370496 (-1074))
  /\ Reference.string_to_double "1.7976931348623157e308"
     = Some (S754_finite false 9007199254740991 971)
  /\ Reference.string_to_double "1e400" = Some (S754_infinity false)
  /\ Reference.string_to_double "0.0" = Some (S754_zero false).
Proof. repeat split; vm_compute; reflexivity. Qed.

Example string_to_double_text :
  Reference.string_to_double "not_a_number" = None
  /\ Reference.string_to_double "" = None
  /\ Reference.string_to_double "." = None
  /\ Reference.string_to_double "1e" = None.
Proof. repeat split; reflexivity. Qed.

Example string_to_timestamp_literal :
  Reference.string_to_timestamp "2021-01-01 10:00:00" = Some 1609495200000000%Z
  /\ Reference.string_to_timestamp "2021-02-30 10:00:00" = None
  /\ Reference.string_to_timestamp "yesterday" = None.
Proof. repeat split; vm_compute; reflexivity. Qed.

(** ** Names *)

Lemma name_eqb_true (a b : string) :
  name_eqb a b = true <-> fold_case a = fold_case b.
Proof. unfold name_eqb. apply String.eqb_eq. Qed.

Lemma name_eqb_refl (a : string) : name_eqb a a = true.
Proof. apply String.eqb_refl. Qed.

Lemma name_eqb_sym (a b : string) : name_eqb a b = name_eqb b a.
Proof. apply String.eqb_sym. Qed.

(** Two names that resolve to each other resolve to the same names. *)
Lemma name_eqb_trans (a b c : string) :
  name_eqb a b = true -> name_eqb a c = name_eqb b c.
Proof. unfold name_eqb. intros H. apply String.eqb_eq in H. now rewrite H. Qed.

Lemma name_eqb_eq (a b : string) : a = b -> name_eqb a b = true.
Proof. intros ->. apply name_eqb_refl. Qed.

(** ** Named fields *)

Section FieldFacts.
Context {A : Type}.
Implicit Types (fs : list (string * A)) (n m : string) (x : A).

Lemma hasField_lookup n fs : hasField n fs = false <-> lookup n fs = None.
Proof.
  induction fs as [|[k v] fs IH]; simpl; [tauto|].
  destruct (name_eqb k n); simpl; [split; discriminate | exact IH].
Qed.

Lemma lookup_app_last n x fs :
  lookup n fs = None -> lookup n (fs ++ [(n, x)]) = Some x.
Proof.
  induction fs as [|[k v] fs IH]; simpl.
  - now rewrite name_eqb_refl.
  - destruct (name_eqb k n); [discriminate | exact IH].
Qed.

Lemma lookup_with_field_same n x fs : lookup n (with_field n x fs) = Some x.
Proof.
  unfold with_field. destruct (hasField n fs) eqn:H.
  - induction fs as [|[k v] fs IH]; simpl in *; [discriminate|].
    destruct (name_eqb k n) eqn:Hk; simpl.
    + now rewrite name_eqb_refl.
    + rewrite Hk. auto.
  - apply lookup_app_last. now apply hasField_lookup.
Qed.

Lemma lookup_with_field_other n m x fs :
  name_eqb n m = false -> lookup m (with_field n x fs) = lookup m fs.
Proof.
  intros Hnm. unfold with_field. destruct (hasField n fs).
  - induction fs as [|[k v] fs IH]; simpl; [reflexivity|].
    destruct (name_eqb k n) eqn:Hk; simpl.
    + rewrite Hnm, (name_eqb_trans k n m Hk), Hnm. exact IH.
    + destruct (name_eqb k m); [reflexivity | exact IH].
  - induction fs as [|[k v] fs IH]; simpl.
    + now rewrite Hnm.
    + destruct (name_eqb k m); [reflexivity | exact IH].
Qed.

Lemma lookup_resolved n m fs :
  name_eqb n m = true -> lookup n fs = lookup m fs.
Proof.
  intros H. induction fs as [|[k v] fs IH]; simpl; [reflexivity|].
  rewrite (name_eqb_sym k n), (name_eqb_trans n m k H), (name_eqb_sym m k).
  now rewrite IH.
Qed.

Lemma mentions_resolved (names : list string) n m :
  name_eqb n m = true -> mentions names n = mentions names m.
Proof.
  intros H. unfold mentions. induction names as [|k names IH]; [reflexivity|].
  cbn [existsb]. now rewrite IH, (name_eqb_trans n m k H).
Qed.

Lemma lookup_without_kept names m fs :
  mentions names m = false -> lookup m (without names fs) = lookup m fs.
Proof.
  intros Hm. induction fs as [|[k v] fs IH]; simpl; [reflexivity|].
  destruct (existsb (name_eqb k) names) eqn:Hk; simpl.
  - destruct (name_eqb k m) eqn:Hkm; [|exact IH].
    change (mentions names k = true) in Hk.
    rewrite (mentions_resolved names k m Hkm) in Hk. congruence.
  - destruct (name_eqb k m); [reflexivity | exact IH].
Qed.

Lemma lookup_without_dropped names m fs :
  mentions names m = true -> lookup m (without names fs) = None.
Proof.
  intros Hm. induction fs as [|[k v] fs IH]; simpl; [reflexivity|].
  destruct (existsb (name_eqb k) names) eqn:Hk; simpl; [exact IH|].
  destruct (name_eqb k m) eqn:Hkm; [|exact IH].
  change (mentions names k = false) in Hk.
  rewrite (mentions_resolved names k m Hkm) in Hk. congruence.
Qed.

(** A name resolves to no field exactly when no field name matches it. *)
Lemma lookup_mentions n fs :
  lookup n fs = None <-> mentions (fieldNames fs) n = false.
Proof.
  unfold mentions. induction fs as [|[k v] fs IH]; simpl; [tauto|].
  rewrite (name_eqb_sym n k). destruct (name_eqb k n); simpl;
    [split; discriminate | exact IH].
Qed.

Lemma mentions_In (names : list string) n : In n names -> mentions names n = true.
Proof.
  intros H. unfold mentions. apply existsb_exists. exists n.
  split; [exact H | apply name_eqb_refl].
Qed.

Lemma lookup_None_fieldNames n fs : lookup n fs = None -> ~ In n (fieldNames fs).
Proof.
  intros H Hin. apply lookup_mentions in H.
  now rewrite (mentions_In _ _ Hin) in H.
Qed.

Lemma fieldNames_lookup n fs : In n (fieldNames fs) -> exists x, lookup n fs = Some x.
Proof.
  intros H. destruct (lookup n fs) eqn:Hl; [eauto|].
  now apply lookup_None_fieldNames in Hl.
Qed.

(** What [withColumn] writes is in the frame under the name of the call. *)
Lemma with_field_In n x fs : In n (fieldNames (with_field n x fs)).
Proof.
  unfold with_field. destruct (hasField n fs) eqn:H.
  - unfold hasField in H. apply existsb_exists in H as ([k v] & Hin & Hk).
    unfold fieldNames. rewrite map_map. apply in_map_iff.
    exists (k, v). split; [|exact Hin]. cbn [fst] in *. now rewrite Hk.
  - unfold fieldNames. rewrite map_app. apply in_or_app. right. now left.
Qed.

(** The number of fields a name resolves to. *)
Lemma matches_with_field_other n m x fs :
  name_eqb n m = false -> matches m (with_field n x fs) = matches m fs.
Proof.
  intros Hnm. unfold matches, with_field. destruct (hasField n fs).
  - induction fs as [|[k v] fs IH]; [reflexivity|].
    cbn [map filter fst]. destruct (name_eqb k n) eqn:Hk; cbn [fst].
    + rewrite Hnm, (name_eqb_trans k n m Hk), Hnm. exact IH.
    + destruct (name_eqb k m); cbn [List.length]; now rewrite IH.
  - rewrite filter_app, length_app. cbn [filter fst]. rewrite Hnm.
    cbn [List.length]. apply Nat.add_0_r.
Qed.

Lemma matches_hasField n fs :
  (hasField n fs = true -> 1 <= matches n fs)
  /\ (hasField n fs = false -> matches n fs = 0).
Proof.
  unfold hasField, matches. induction fs as [|[k v] fs IH]; [split; [discriminate|reflexivity]|].
  cbn [existsb filter fst]. destruct (name_eqb k n); cbn [orb List.length].
  - split; [lia | discriminate].
  - exact IH.
Qed.

Lemma matches_with_field_same n x fs :
  matches n (with_field n x fs) = Nat.max 1 (matches n fs).
Proof.
  destruct (matches_hasField n fs) as [Hsome Hnone].
  unfold with_field. destruct (hasField n fs).
  - specialize (Hsome eq_refl).
    assert (Hsame : matches n (map (fun f => if name_eqb (fst f) n
                                             then (n, x) else f) fs)
                    = matches n fs).
    { clear Hsome Hnone. unfold matches.
      induction fs as [|[k v] fs IH]; [reflexivity|].
      cbn [map filter fst]. destruct (name_eqb k n) eqn:Hk; cbn [fst].
      - rewrite name_eqb_refl. cbn [List.length]. now rewrite IH.
      - rewrite Hk. exact IH. }
    rewrite Hsame. lia.
  - rewrite (Hnone eq_refl). unfold matches in *.
    rewrite filter_app, length_app, (Hnone eq_refl). cbn [filter fst].
    now rewrite name_eqb_refl.
Qed.

Lemma matches_without_kept names m fs :
  mentions names m = false -> matches m (without names fs) = matches m fs.
Proof.
  intros Hm. unfold matches, without.
  induction fs as [|[k v] fs IH]; [reflexivity|].
  cbn [filter fst]. destruct (existsb (name_eqb k) names) eqn:Hk; cbn [negb].
  - destruct (name_eqb k m) eqn:Hkm; [|exact IH].
    change (mentions names k = true) in Hk.
    rewrite (mentions_resolved names k m Hkm) in Hk. congruence.
  - cbn [filter fst]. destruct (name_eqb k m); cbn [List.length]; now rewrite IH.
Qed.
End FieldFacts.

(** ** Chains *)

Lemma bind_Ok {A B : Type} (r : Result A) (k : A -> Result B) (b : B) :
  bind r k = Ok b -> exists a, r = Ok a /\ k a = Ok b.
Proof. destruct r as [a|]; simpl; [eauto | discriminate]. Qed.

Section ChainFacts.
Implicit Types (calls : list Call) (df out : DataFrame) (r : Row) (n : string).

Lemma chain_spec calls df :
  chain calls df
  = (sch <- chain_schema calls (schema df) ;;
     Ok {| schema := sch; rows := map (chain_row calls) (rows df) |}).
Proof.
  revert df. induction calls as [|m calls IH]; intros [sch rs]; simpl.
  - unfold chain_row. simpl. now rewrite map_id.
  - destruct m as [colName c | cols]; simpl.
    + unfold withColumn. simpl. destruct (dataType c sch) as [t|]; simpl; [|reflexivity].
      rewrite IH. simpl. now rewrite map_map.
    + rewrite IH. simpl. now rewrite map_map.
Qed.

Lemma chain_rows calls df out :
  chain calls df = Ok out -> rows out = map (chain_row calls) (rows df).
Proof.
  rewrite chain_spec. intros H. apply bind_Ok in H as (sch & _ & H).
  now inversion H.
Qed.

Lemma chain_schema_of calls df out :
  chain calls df = Ok out -> chain_schema calls (schema df) = Ok (schema out).
Proof.
  rewrite chain_spec. intros H. apply bind_Ok in H as (sch & Hs & H).
  inversion H. exact Hs.
Qed.

Lemma chain_count calls df out : chain calls df = Ok out -> count out = count df.
Proof.
  intros H. unfold count. rewrite (chain_rows _ _ _ H). apply length_map.
Qed.

Lemma chain_nth calls df out i r :
  chain calls df = Ok out ->
  nth_error (rows df) i = Some r ->
  nth_error (rows out) i = Some (chain_row calls r).
Proof.
  intros H Hr. rewrite (chain_rows _ _ _ H). now apply map_nth_error.
Qed.

(** Whether a chain is accepted is decided by the schema alone. *)
Lemma chain_accepts calls df sch :
  chain_schema calls (schema df) = Ok sch ->
  chain calls df = Ok {| schema := sch; rows := map (chain_row calls) (rows df) |}.
Proof. intros H. rewrite chain_spec, H. reflexivity. Qed.

Lemma chain_app calls calls' df :
  chain (calls ++ calls') df = (df' <- chain calls df ;; chain calls' df').
Proof.
  revert df. induction calls as [|m calls IH]; intros df; simpl; [reflexivity|].
  destruct (call m df); simpl; [apply IH | reflexivity].
Qed.

Lemma chain_row_app calls calls' r :
  chain_row (calls ++ calls') r = chain_row calls' (chain_row calls r).
Proof. apply fold_left_app. Qed.

Lemma chain_schema_app calls calls' sch :
  chain_schema (calls ++ calls') sch
  = (sch' <- chain_schema calls sch ;; chain_schema calls' sch').
Proof.
  revert sch. induction calls as [|m calls IH]; intros sch; simpl; [reflexivity|].
  destruct (call_schema m sch); simpl; [apply IH | reflexivity].
Qed.

Lemma mentions_app names names' n :
  mentions (names ++ names') n = mentions names n || mentions names' n.
Proof. apply existsb_app. Qed.

(** A column a chain neither writes nor removes keeps its value... *)
Lemma chain_row_frame calls n r :
  mentions (touched calls) n = false -> lookup n (chain_row calls r) = lookup n r.
Proof.
  revert r. induction calls as [|m calls IH]; intros r H; [reflexivity|].
  simpl in H. rewrite mentions_app in H. apply orb_false_iff in H as [Hm H].
  change (chain_row (m :: calls) r) with (chain_row calls (call_row m r)).
  rewrite (IH _ H). destruct m as [colName c | cols]; simpl in *.
  - apply lookup_with_field_other. rewrite orb_false_r in Hm.
    now rewrite name_eqb_sym.
  - now apply lookup_without_kept.
Qed.

(** ... and its type. *)
Lemma chain_schema_frame calls n sch sch' :
  chain_schema calls sch = Ok sch' ->
  mentions (touched calls) n = false -> lookup n sch' = lookup n sch.
Proof.
  revert sch. induction calls as [|m calls IH]; intros sch Hs H; simpl in *.
  - now inversion Hs.
  - rewrite mentions_app in H. apply orb_false_iff in H as [Hm H].
    apply bind_Ok in Hs as (sch1 & H1 & Hs). rewrite (IH _ Hs H).
    destruct m as [colName c | cols]; simpl in *.
    + apply bind_Ok in H1 as (t & _ & H1). inversion H1.
      apply lookup_with_field_other. rewrite orb_false_r in Hm.
      now rewrite name_eqb_sym.
    + inversion H1. now apply lookup_without_kept.
Qed.
End ChainFacts.

Section ChainValues.
Implicit Types (calls : list Call) (df out : DataFrame) (r : Row) (n : string).

Lemma chain_total calls df :
  accepts calls (schema df) = true ->
  exists out, chain calls df = Ok out
              /\ rows out = map (chain_row calls) (rows df).
Proof.
  unfold accepts. destruct (chain_schema calls (schema df)) as [sch|] eqn:H;
    [intros _ | discriminate].
  eexists. split; [apply (chain_accepts _ _ _ H) | reflexivity].
Qed.

Lemma chain_accepted calls df out :
  chain calls df = Ok out -> accepts calls (schema df) = true.
Proof. intros H. unfold accepts. now rewrite (chain_schema_of _ _ _ H). Qed.

Lemma firstn_skipn_calls k calls m :
  nth_error calls k = Some m -> calls = firstn k calls ++ m :: skipn (S k) calls.
Proof.
  revert calls. induction k as [|k IH]; intros [|m' calls] H; simpl in *;
    try discriminate.
  - now inversion H.
  - f_equal. now apply IH.
Qed.

(** The value of a column after a chain: the value its last writer gave
    it, computed on the row as the calls before had left it. *)
Lemma chain_row_written calls k n c r :
  nth_error calls k = Some (WithColumn n c) ->
  mentions (touched (skipn (S k) calls)) n = false ->
  lookup n (chain_row calls r) = Some (eval c (chain_row (firstn k calls) r)).
Proof.
  intros Hk Hpost. rewrite (firstn_skipn_calls _ _ _ Hk) at 1.
  rewrite chain_row_app.
  change (chain_row (WithColumn n c :: ?post) ?r0)
    with (chain_row post (call_row (WithColumn n c) r0)).
  rewrite (chain_row_frame _ _ _ Hpost). simpl.
  apply lookup_with_field_same.
Qed.

(** A column removed by a chain and not written afterwards is absent. *)
Lemma chain_row_removed calls k cols n r :
  nth_error calls k = Some (Drop cols) ->
  mentions cols n = true ->
  mentions (touched (skipn (S k) calls)) n = false ->
  lookup n (chain_row calls r) = None.
Proof.
  intros Hk Hn Hpost. rewrite (firstn_skipn_calls _ _ _ Hk).
  rewrite chain_row_app.
  change (chain_row (Drop cols :: ?post) ?r0)
    with (chain_row post (call_row (Drop cols) r0)).
  rewrite (chain_row_frame _ _ _ Hpost). simpl.
  now apply lookup_without_dropped.
Qed.

Lemma chain_schema_removed calls k cols n sch sch' :
  chain_schema calls sch = Ok sch' ->
  nth_error calls k = Some (Drop cols) ->
  mentions cols n = true ->
  mentions (touched (skipn (S k) calls)) n = false ->
  lookup n sch' = None.
Proof.
  intros Hs Hk Hn Hpost. rewrite (firstn_skipn_calls _ _ _ Hk) in Hs.
  rewrite chain_schema_app in Hs. apply bind_Ok in Hs as (sch1 & _ & Hs).
  simpl in Hs. rewrite (chain_schema_frame _ _ _ _ Hs Hpost).
  now apply lookup_without_dropped.
Qed.

Lemma chain_schema_written calls k n c sch sch' :
  chain_schema calls sch = Ok sch' ->
  nth_error calls k = Some (WithColumn n c) ->
  mentions (touched (skipn (S k) calls)) n = false ->
  exists t, lookup n sch' = Some t.
Proof.
  intros Hs Hk Hpost. rewrite (firstn_skipn_calls _ _ _ Hk) in Hs.
  rewrite chain_schema_app in Hs. apply bind_Ok in Hs as (sch1 & _ & Hs).
  simpl in Hs. apply bind_Ok in Hs as (sch2 & H2 & Hs).
  apply bind_Ok in H2 as (t & _ & H2). inversion H2. subst sch2.
  exists t. rewrite (chain_schema_frame _ _ _ _ Hs Hpost).
  apply lookup_with_field_same.
Qed.

(** A column reads its row through the top-level column it names. *)
Lemma eval_col_lookup name r r' :
  lookup (hd name (split_on (Ascii.eqb ".") name)) r'
  = lookup (hd name (split_on (Ascii.eqb ".") name)) r ->
  eval (col name) r' = eval (col name) r.
Proof.
  unfold col. destruct (split_on (Ascii.eqb ".") name) as [|top path]; simpl;
    [reflexivity|].
  intros ->. reflexivity.
Qed.

Lemma eval_col_chain name calls r :
  mentions (touched calls) (hd name (split_on (Ascii.eqb ".") name)) = false ->
  eval (col name) (chain_row calls r) = eval (col name) r.
Proof. intros H. apply eval_col_lookup. now apply chain_row_frame. Qed.
End ChainValues.

Lemma split_on_no_delimiter (delim : ascii -> bool) (s : string) :
  forallb (fun c => negb (delim c)) (list_ascii_of_string s) = true ->
  split_on delim s = [s].
Proof.
  induction s as [|c s IH]; simpl; [reflexivity|].
  intros H. apply andb_true_iff in H as [Hc Hs].
  apply negb_true_iff in Hc. rewrite Hc, (IH Hs). reflexivity.
Qed.

Lemma split_on_nonempty (delim : ascii -> bool) (s : string) :
  split_on delim s <> [].
Proof.
  destruct s as [|c s]; simpl; [discriminate|].
  destruct (delim c); [discriminate|].
  destruct (split_on delim s); discriminate.
Qed.

Section FlattenFacts.
Context {E : Engine}.

Lemma eval_name_piece (c : Column) (k : Z) (r : Row) (name : string) :
  eval c r = Str name ->
  eval (getItem (split c "[,@/]") k) r
  = item k (map Str (split_on name_delimiter name)).
Proof.
  intros Hc. unfold getItem, split. cbn [eval]. rewrite Hc.
  change (char_class "[,@/]") with (Some [","; "@"; "/"]%char).
  reflexivity.
Qed.

(** The item at a position of the pieces of a name: the piece when there is
    one; otherwise the index is outside the array, which is null, or the
    error under ANSI rules. *)
Lemma item_piece (k : nat) (pieces : list string) :
  item (Z.of_nat k) (map Str pieces)
  = match nth_error pieces k with
    | Some p => Str p
    | None => missing INVALID_ARRAY_INDEX
    end.
Proof.
  unfold item. destruct (Z.of_nat k <? 0)%Z eqn:Hneg;
    [apply Z.ltb_lt in Hneg; lia|].
  rewrite Nat2Z.id, nth_error_map. now destruct (nth_error pieces k).
Qed.

Lemma flatten_row_of (df : DataFrame) (i : nat) (r : Row) :
  accepts flatten_cell (schema df) = true ->
  nth_error (rows df) i = Some r ->
  exists out, flatten_fields df = Ok out
              /\ count out = count df
              /\ nth_error (rows out) i = Some (chain_row flatten_cell r).
Proof.
  intros Ha Hr. destruct (chain_total _ _ Ha) as (out & Hout & Hrows).
  exists out. split; [exact Hout|]. split; [apply (chain_count _ _ _ Hout)|].
  apply (chain_nth _ _ _ _ _ Hout Hr).
Qed.

(** The two name columns of the flattener, on a row whose [person_name] is
    a string. *)
Lemma flatten_name_columns (r : Row) (name : string) :
  eval (col "personal_detail_json.person_name") r = Str name ->
  lookup "first" (chain_row flatten_cell r)
  = Some (item 0 (map Str (split_on name_delimiter name)))
  /\ lookup "last" (chain_row flatten_cell r)
     = Some (item 1 (map Str (split_on name_delimiter name))).
Proof.
  intros Hname. split.
  - rewrite (chain_row_written flatten_cell 0 "first" _ r eq_refl eq_refl).
    f_equal. apply (eval_name_piece _ 0 _ _ Hname).
  - rewrite (chain_row_written flatten_cell 1 "last" _ r eq_refl eq_refl).
    f_equal. apply (eval_name_piece _ 1).
    rewrite eval_col_chain; [exact Hname | reflexivity].
Qed.
End FlattenFacts.

(** C3.  The flattener gives [first] and [last] the pieces at positions 0
    and 1 of [person_name] split on the class of [,], [@] and [/], and the
    row stays: ["Doe,John"] gives ["Doe"] and ["John"].  There is always a
    piece at position 0.  Where there is none at position 1, as for a name
    without a delimiter, [first] is the whole name and [last] is null with
    nothing raised when [spark.sql.ansi.enabled] is off; when it is on, the
    cell of [last] raises INVALID_ARRAY_INDEX as soon as a job computes
    it. *)
Theorem flatten_splits_person_name {E : Engine}
        (df : DataFrame) (i : nat) (r : Row) (name : string) :
  accepts flatten_cell (schema df) = true ->
  nth_error (rows df) i = Some r ->
  eval (col "personal_detail_json.person_name") r = Str name ->
  exists out r',
    flatten_fields df = Ok out
    /\ nth_error (rows out) i = Some r'
    /\ lookup "first" r'
       = Some (Str (nth 0 (split_on name_delimiter name) EmptyString))
    /\ (forall p, nth_error (split_on name_delimiter name) 1 = Some p ->
          lookup "last" r' = Some (Str p))
    /\ (nth_error (split_on name_delimiter name) 1 = None ->
          lookup "last" r'
          = Some (if ansi_enabled then Raise INVALID_ARRAY_INDEX else Null))
    /\ (name = "Doe,John" ->
        lookup "first" r' = Some (Str "Doe") /\ lookup "last" r' = Some (Str "John"))
    /\ (forallb (fun c => negb (name_delimiter c)) (list_ascii_of_string name) = true ->
        lookup "first" r' = Some (Str name)
        /\ lookup "last" r'
           = Some (if ansi_enabled then Raise INVALID_ARRAY_INDEX else Null)).
Proof.
  intros Ha Hr Hname.
  destruct (flatten_row_of df i r Ha Hr) as (out & Hout & _ & Hnth).
  destruct (flatten_name_columns r name Hname) as [Hfirst Hlast].
  change 0%Z with (Z.of_nat 0) in Hfirst. change 1%Z with (Z.of_nat 1) in Hlast.
  rewrite item_piece in Hfirst, Hlast.
  exists out, (chain_row flatten_cell r).
  split; [exact Hout|]. split; [exact Hnth|].
  split; [|split; [|split; [|split]]].
  - rewrite Hfirst. pose proof (split_on_nonempty name_delimiter name) as Hne.
    destruct (split_on name_delimiter name); [contradiction | reflexivity].
  - intros p Hp. now rewrite Hlast, Hp.
  - intros Hnone. now rewrite Hlast, Hnone.
  - intros ->. split; [exact Hfirst | exact Hlast].
  - intros Hfree. rewrite Hfirst, Hlast, (split_on_no_delimiter _ _ Hfree).
    split; reflexivity.
Qed.

Section StageFacts.
Context {E : Engine}.

Lemma pipeline_chain (df : DataFrame) : pipeline df = chain notebook_calls df.
Proof.
  unfold pipeline, notebook_calls, parse_personal_detail, parse_address,
    flatten_fields, timestamp_convert, mask_cc.
  rewrite chain_app. destruct (chain personal_detail_cell df) as [df1|]; cbn [bind]; [|reflexivity].
  rewrite chain_app. destruct (chain address_cell df1) as [df2|]; cbn [bind]; [|reflexivity].
  rewrite chain_app. destruct (chain flatten_cell df2) as [df3|]; cbn [bind]; [|reflexivity].
  rewrite chain_app. destruct (chain timestamp_cell df3) as [df4|]; reflexivity.
Qed.

Lemma chain_row_of (calls : list Call) (df : DataFrame) (i : nat) (r : Row) :
  accepts calls (schema df) = true ->
  nth_error (rows df) i = Some r ->
  exists out, chain calls df = Ok out
              /\ count out = count df
              /\ nth_error (rows out) i = Some (chain_row calls r).
Proof.
  intros Ha Hr. destruct (chain_total _ _ Ha) as (out & Hout & Hrows).
  exists out. split; [exact Hout|]. split; [apply (chain_count _ _ _ Hout)|].
  apply (chain_nth _ _ _ _ _ Hout Hr).
Qed.

Lemma field_value_all_null (fields : Schema) (f : string) :
  field_value [f] (all_null fields) = Null.
Proof.
  unfold all_null. simpl.
  induction fields as [|[k t] fields IH]; simpl; [reflexivity|].
  destruct (name_eqb k f); [reflexivity | exact IH].
Qed.
Lemma string_fields_null (members : list (string * option string))
      (fields : Schema) :
  no_field_read members fields = true ->
  Struct (map (string_field members) fields) = all_null fields.
Proof.
  unfold all_null, no_field_read. intros H. f_equal.
  induction fields as [|f fields IH]; [reflexivity|].
  cbn [forallb] in H. apply andb_true_iff in H as [Hf H].
  cbn [map]. rewrite (IH H). f_equal. unfold string_field.
  destruct (member (fst f) (rev members)) as [[v|]|];
    [discriminate | reflexivity | reflexivity].
Qed.
End StageFacts.


(** ** The grammar of [int] literals *)

Section IntGrammar.
Implicit Types (s acc : string) (c : ascii).

Lemma trim_left_keeps c s :
  In c (list_ascii_of_string s) -> Numeric.is_space c = false ->
  In c (list_ascii_of_string (Numeric.trim_left s)).
Proof.
  intros Hin Hc. induction s as [|a s IH]; simpl in *; [contradiction|].
  destruct (Numeric.is_space a) eqn:Ha; [|exact Hin].
  destruct Hin as [-> | Hin]; [congruence | auto].
Qed.

Lemma rev_string_chars c acc s :
  In c (list_ascii_of_string (Numeric.rev_string acc s))
  <-> In c (list_ascii_of_string acc) \/ In c (list_ascii_of_string s).
Proof.
  revert acc. induction s as [|a s IH]; intros acc; simpl; [tauto|].
  rewrite IH. simpl. tauto.
Qed.

Lemma trim_keeps c s :
  In c (list_ascii_of_string s) -> Numeric.is_space c = false ->
  In c (list_ascii_of_string (Numeric.trim s)).
Proof.
  intros Hin Hc. unfold Numeric.trim.
  apply rev_string_chars. right. apply trim_left_keeps; [|exact Hc].
  apply rev_string_chars. right. now apply trim_left_keeps.
Qed.

Lemma all_digits_chars c s :
  Numeric.all_digits s = true -> In c (list_ascii_of_string s) ->
  Numeric.digit_of c <> None.
Proof.
  induction s as [|a s IH]; simpl; [contradiction|].
  destruct (Numeric.digit_of a) eqn:Ha; [|discriminate].
  intros Hs [-> | Hin]; [congruence | auto].
Qed.

Lemma integral_part_chars c s (acc m : Z) (fraction : string) :
  Numeric.integral_part acc s = Some (m, fraction) ->
  In c (list_ascii_of_string s) ->
  Numeric.digit_of c = None -> Ascii.eqb c "." = false ->
  In c (list_ascii_of_string fraction).
Proof.
  revert acc. induction s as [|a s IH]; intros acc H Hin Hd Hp;
    cbn [list_ascii_of_string In] in Hin; [contradiction|].
  cbn [Numeric.integral_part] in H.
  destruct (Ascii.eqb a ".") eqn:Ha.
  - inversion H. subst. destruct Hin as [-> | Hin]; [congruence | exact Hin].
  - destruct (Numeric.digit_of a) eqn:Hda; [|discriminate].
    destruct (2 ^ 31 <? 10 * acc + z)%Z; [discriminate|].
    destruct Hin as [-> | Hin]; [congruence | eauto].
Qed.

(** A string with a character that is not a blank, a digit, a sign or the
    decimal point is not read as an [int]. *)
Lemma string_to_int_chars c s :
  In c (list_ascii_of_string s) -> int_char c = false ->
  Numeric.string_to_int s = None.
Proof.
  intros Hin Hc. unfold int_char in Hc.
  apply orb_false_iff in Hc as [Hc Hsign]. apply orb_false_iff in Hc as [Hsp Hd].
  assert (Hdig : Numeric.digit_of c = None)
    by (destruct (Numeric.digit_of c); [discriminate | reflexivity]).
  simpl in Hsign. rewrite orb_false_r in Hsign.
  apply orb_false_iff in Hsign as [Hplus Hsign].
  apply orb_false_iff in Hsign as [Hminus Hpoint].
  pose proof (trim_keeps _ _ Hin Hsp) as Ht.
  unfold Numeric.string_to_int. destruct (Numeric.trim s) as [|a rest]; [reflexivity|].
  assert (Hbody : forall b body',
             In c (list_ascii_of_string (String b body')) ->
             match Numeric.integral_part 0 (String b body') with
             | Some (m, fraction) =>
                 if Numeric.all_digits fraction
                 then if Ascii.eqb a "-" then Some (- m)%Z
                      else if (m <? 2 ^ 31)%Z then Some m else None
                 else None
             | None => None
             end = None).
  { intros b body' Hb.
    destruct (Numeric.integral_part 0 (String b body')) as [[m fraction]|] eqn:Hi;
      [|reflexivity].
    pose proof (integral_part_chars _ _ _ _ _ Hi Hb Hdig Hpoint) as Hf.
    destruct (Numeric.all_digits fraction) eqn:Hall; [|reflexivity].
    destruct (all_digits_chars _ _ Hall Hf Hdig). }
  cbn [list_ascii_of_string In] in Ht.
  destruct (Ascii.eqb a "-" || Ascii.eqb a "+") eqn:Hs; cbv zeta.
  - destruct Ht as [-> | Ht]; [rewrite Hminus, Hplus in Hs; discriminate|].
    destruct rest as [|b rest']; [reflexivity|]. now apply Hbody.
  - apply Hbody. exact Ht.
Qed.
End IntGrammar.

Section CastFacts.
Context {E : Engine}.

Lemma read_int_chars (c : ascii) (s : string) :
  In c (list_ascii_of_string s) -> int_char c = false -> read_int s = None.
Proof.
  intros Hin Hc. unfold read_int, Numeric.string_to_int_exact.
  rewrite (string_to_int_chars _ _ Hin Hc).
  now destruct ansi_enabled, (Numeric.has_point s).
Qed.

(** A string with a character that no literal of the column's type has is
    not a number of that type. *)
Lemma numeric_chars (f : NumericColumn) (c : ascii) (s : string) :
  reads_double_literals ->
  In c (list_ascii_of_string s) -> numeric_char f c = false ->
  numeric f s = false.
Proof.
  intros Hlaw Hin Hc. destruct f; cbn [numeric numeric_char] in *.
  - now rewrite (Hlaw _ _ Hin Hc).
  - now rewrite (Hlaw _ _ Hin Hc).
  - now rewrite (read_int_chars _ _ Hin Hc).
Qed.

(** The flattener's cast of a string that is not a number. *)
Lemma flatten_cast_column (f : NumericColumn) (r : Row) (s : string) :
  eval (col (cast_source f)) r = Str s ->
  numeric f s = false ->
  lookup (cast_target f) (chain_row flatten_cell r)
  = Some (if ansi_enabled then Raise CAST_INVALID_INPUT else Null).
Proof.
  intros Hs Hnum.
  destruct f; cbn [cast_target]; cbn [cast_source] in Hs; cbn [numeric] in Hnum.
  - rewrite (chain_row_written flatten_cell 8 "lat" _ r eq_refl eq_refl).
    f_equal. unfold cast. cbn [eval].
    rewrite eval_col_chain by reflexivity. rewrite Hs.
    change (type_of_name "double") with (Some DoubleType). cbn iota.
    unfold string_to_double_value.
    destruct (string_to_double s); [discriminate Hnum | reflexivity].
  - rewrite (chain_row_written flatten_cell 9 "long" _ r eq_refl eq_refl).
    f_equal. unfold cast. cbn [eval].
    rewrite eval_col_chain by reflexivity. rewrite Hs.
    change (type_of_name "double") with (Some DoubleType). cbn iota.
    unfold string_to_double_value.
    destruct (string_to_double s); [discriminate Hnum | reflexivity].
  - rewrite (chain_row_written flatten_cell 10 "city_pop" _ r eq_refl eq_refl).
    f_equal. unfold cast. cbn [eval].
    rewrite eval_col_chain by reflexivity. rewrite Hs.
    change (type_of_name "int") with (Some IntegerType). cbn iota.
    unfold string_to_int_value.
    destruct (read_int s); [discriminate Hnum | reflexivity].
Qed.
End CastFacts.

(** ** The reference reader of doubles *)

Section ReferenceDoubles.

Lemma strip_left_chars (s : string) (c : ascii) :
  In c (list_ascii_of_string s) ->
  Reference.is_blank c = true
  \/ In c (list_ascii_of_string (Reference.strip_left s)).
Proof.
  induction s as [|a s IH]; simpl; [tauto|].
  destruct (Reference.is_blank a) eqn:Ha.
  - intros [<- | H]; [now left | now apply IH].
  - intros H. right. exact H.
Qed.

Lemma strip_chars (s : string) (c : ascii) :
  In c (list_ascii_of_string s) ->
  Reference.is_blank c = true \/ In c (list_ascii_of_string (Reference.strip s)).
Proof.
  intros H. unfold Reference.strip.
  destruct (strip_left_chars _ _ H) as [Hb | H1]; [now left|].
  assert (H2 : In c (list_ascii_of_string
                       (Numeric.rev_string "" (Reference.strip_left s))))
    by (apply rev_string_chars; now right).
  destruct (strip_left_chars _ _ H2) as [Hb | H3]; [now left|].
  right. apply rev_string_chars. now right.
Qed.

Lemma read_digits_chars (s : string) (acc count : Z) (c : ascii) :
  In c (list_ascii_of_string s) ->
  Numeric.digit_of c <> None
  \/ In c (list_ascii_of_string (snd (Reference.read_digits acc count s))).
Proof.
  revert acc count. induction s as [|a s IH]; intros acc count; simpl; [tauto|].
  destruct (Numeric.digit_of a) as [d|] eqn:Ha.
  - intros [<- | H]; [left; congruence | now apply IH].
  - intros H. right. exact H.
Qed.

Lemma read_sign_chars (s : string) (c : ascii) :
  In c (list_ascii_of_string s) ->
  c = "-"%char \/ c = "+"%char
  \/ In c (list_ascii_of_string (snd (Reference.read_sign s))).
Proof.
  unfold Reference.read_sign. destruct s as [|a s]; [simpl; tauto|].
  destruct (Ascii.eqb a "-") eqn:Hm.
  - apply Ascii.eqb_eq in Hm. subst a. simpl. intros [<- | H]; tauto.
  - destruct (Ascii.eqb a "+") eqn:Hp.
    + apply Ascii.eqb_eq in Hp. subst a. simpl. intros [<- | H]; tauto.
    + intros H. right. right.
      destruct a as [[] [] [] [] [] [] [] []]; try exact H; discriminate.
Qed.

Lemma read_digits_all (s : string) (acc count : Z) (c : ascii) :
  snd (Reference.read_digits acc count s) = EmptyString ->
  In c (list_ascii_of_string s) -> Numeric.digit_of c <> None.
Proof.
  intros Hend Hin. destruct (read_digits_chars s acc count c Hin) as [H | H];
    [exact H|].
  rewrite Hend in H. contradiction.
Qed.

Lemma blank_double_char (c : ascii) :
  Reference.is_blank c = true -> double_char c = true.
Proof.
  unfold Reference.is_blank, Reference.code, double_char. intros H.
  apply Z.leb_le in H.
  assert (Hn : (N_of_ascii c <=? 32)%N = true) by (apply N.leb_le; lia).
  now rewrite Hn.
Qed.

Lemma digit_double_char (c : ascii) :
  Numeric.digit_of c <> None -> double_char c = true.
Proof.
  unfold double_char. destruct (Numeric.digit_of c); [intros _|congruence].
  now rewrite orb_true_r.
Qed.

Lemma read_exponent_chars (s : string) (e : Z) (c : ascii) :
  Reference.read_exponent s = Some e ->
  In c (list_ascii_of_string s) -> double_char c = true.
Proof.
  unfold Reference.read_exponent. destruct s as [|a s]; [intros _ []|].
  destruct (Ascii.eqb a "e" || Ascii.eqb a "E") eqn:Ha; [|discriminate].
  destruct (Reference.read_sign s) as [negative digits] eqn:Hsign.
  destruct (Reference.read_digits 0 0 digits) as [[n count] rest] eqn:Hdigits.
  destruct rest; [|discriminate]. intros _ [<- | Hin].
  - apply orb_true_iff in Ha as [Ha | Ha]; apply Ascii.eqb_eq in Ha; now subst a.
  - destruct (read_sign_chars s c Hin) as [-> | [-> | Hbody]]; try reflexivity.
    rewrite Hsign in Hbody. cbn [snd] in Hbody.
    apply digit_double_char.
    apply (read_digits_all digits 0 0 c); [now rewrite Hdigits | exact Hbody].
Qed.

(** The reference reader of doubles takes no string with a character
    outside the alphabet of double literals. *)
Lemma reference_reads_double_literals : @reads_double_literals reference_engine.
Proof.
  intros s c Hin Hc.
  change (@string_to_double reference_engine s) with (Reference.string_to_double s).
  destruct (Reference.string_to_double s) as [d|] eqn:Hd; [|reflexivity].
  exfalso. revert Hc. apply not_false_iff_true.
  destruct (strip_chars s c Hin) as [Hb | Hstrip]; [now apply blank_double_char|].
  unfold Reference.string_to_double in Hd.
  destruct (read_sign_chars _ c Hstrip) as [-> | [-> | Hbody]]; try reflexivity.
  destruct (Reference.read_sign (Reference.strip s)) as [negative body].
  cbn [snd] in Hbody.
  destruct (read_digits_chars body 0 0 c Hbody) as [Hdigit | Hafter];
    [now apply digit_double_char|].
  destruct (Reference.read_digits 0 0 body) as [[whole whole_count] after_whole].
  cbn [snd] in Hafter.
  assert (Hcases :
    (exists rest, after_whole = String "." rest)
    \/ (match after_whole with
         | String "." rest => Reference.read_digits whole 0 rest
         | _ => (whole, 0%Z, after_whole)
         end = (whole, 0%Z, after_whole))).
  { destruct after_whole as [|a rest]; [now right|].
    destruct a as [[] [] [] [] [] [] [] []]; try (now right). left. eauto. }
  destruct Hcases as [(rest & ->) | Hsame].
  - destruct Hafter as [<- | Hrest]; [reflexivity|].
    destruct (read_digits_chars rest whole 0 c Hrest) as [Hdigit | Hfraction];
      [now apply digit_double_char|].
    destruct (Reference.read_digits whole 0 rest) as [[m fraction_count] after_fraction].
    cbn [snd] in Hfraction.
    destruct (0 <? whole_count + fraction_count)%Z; [|discriminate].
    destruct (Reference.read_exponent after_fraction) as [e|] eqn:He; [|discriminate].
    apply (read_exponent_chars _ _ _ He Hfraction).
  - rewrite Hsame in Hd.
    destruct (0 <? whole_count + 0)%Z; [|discriminate].
    destruct (Reference.read_exponent after_whole) as [e|] eqn:He; [|discriminate].
    apply (read_exponent_chars _ _ _ He Hafter).
Qed.
End ReferenceDoubles.


(** ** The digest in hexadecimal *)

Lemma lower_hex_hex_digit (n : Z) : Sha256.lower_hex (Sha256.hex_digit n) = true.
Proof.
  unfold Sha256.hex_digit, Sha256.lower_hex.
  apply existsb_exists. eexists. split; [|apply Ascii.eqb_refl].
  apply nth_In.
  assert (0 <= n mod 16 < 16)%Z by (apply Z.mod_pos_bound; lia).
  change (List.length (list_ascii_of_string "0123456789abcdef")) with 16%nat. lia.
Qed.

Lemma sha256_hex_length (msg : string) :
  String.length (Sha256.sha256_hex msg) = 64%nat.
Proof. reflexivity. Qed.

Lemma sha256_hex_lower (msg : string) :
  forallb Sha256.lower_hex (list_ascii_of_string (Sha256.sha256_hex msg)) = true.
Proof.
  unfold Sha256.sha256_hex. generalize (Sha256.digest msg). intros s.
  cbv [Sha256.hex Sha256.hex_word append string_of_list_ascii map
       list_ascii_of_string forallb].
  rewrite !lower_hex_hex_digit. reflexivity.
Qed.

Lemma eval_col_top (name : string) (v : Value) (r : Row) :
  split_on (Ascii.eqb ".") name = [name] ->
  lookup name r = Some v ->
  eval (col name) r = v.
Proof. intros Hn Hr. unfold col. rewrite Hn. simpl. now rewrite Hr. Qed.

(** A frame whose [cc_num] is a column of numbers is rejected by the
    masking cell: [sha2] takes a string, and the notebook casts nothing. *)
Lemma mask_rejects_numbers (df : DataFrame) (t : DataType) :
  lookup "cc_num" (schema df) = Some t ->
  In t [IntegerType; LongType; DoubleType] ->
  exists msg, mask_cc df = AnalysisException msg.
Proof.
  intros Ht Hnum. unfold mask_cc, mask_cell. cbn [chain call].
  unfold withColumn, sha2, col.
  change (split_on (Ascii.eqb ".") "cc_num") with ["cc_num"].
  cbn [dataType field_type]. rewrite Ht.
  destruct (1 <? matches "cc_num" (schema df))%nat; cbn [bind]; [eauto|].
  cbn [In] in Hnum. destruct Hnum as [<-|[<-|[<-|[]]]]; cbn [bind]; eauto.
Qed.

(** C7.  For a row whose [cc_num] is a string, the masking stage stores in
    [cc_num_masked] the SHA-256 digest of the bytes of that string, written
    as 64 lowercase hexadecimal characters: the digest of
    [4111111111111111] starts with [9bbef194] and that of
    [5500000000000004] with [dd1ed74b].  A frame whose [cc_num] is a column
    of numbers has no [cc_num_masked]: the analyzer rejects the masking
    cell on it. *)
Theorem mask_is_sha256_hex (df : DataFrame) (i : nat) (r : Row) :
  nth_error (rows df) i = Some r ->
  (accepts mask_cell (schema df) = true ->
   forall s, lookup "cc_num" r = Some (Str s) ->
     exists out r',
       mask_cc df = Ok out
       /\ nth_error (rows out) i = Some r'
       /\ lookup "cc_num_masked" r' = Some (Str (Sha256.sha256_hex s))
       /\ String.length (Sha256.sha256_hex s) = 64%nat
       /\ forallb Sha256.lower_hex
            (list_ascii_of_string (Sha256.sha256_hex s)) = true
       /\ (s = "4111111111111111" ->
           lookup "cc_num_masked" r'
           = Some (Str "9bbef19476623ca56c17da75fd57734dbf82530686043a6e491c6d71befe8f6e"))
       /\ (s = "5500000000000004" ->
           lookup "cc_num_masked" r'
           = Some (Str "dd1ed74bd626c6fa86bdffd25029a46c9d585e0429cc9f00a8c94e90f837d993")))
  /\ (forall t, lookup "cc_num" (schema df) = Some t ->
                In t [IntegerType; LongType; DoubleType] ->
                exists msg, mask_cc df = AnalysisException msg).
Proof.
  intros Hr. split; [|apply mask_rejects_numbers].
  intros Ha s Hs.
  destruct (chain_row_of _ df i r Ha Hr) as (out & Hout & _ & Hnth).
  exists out, (chain_row mask_cell r).
  assert (Hmask : lookup "cc_num_masked" (chain_row mask_cell r)
                  = Some (Str (Sha256.sha256_hex s))).
  { rewrite (chain_row_written mask_cell 0 "cc_num_masked" _ r eq_refl eq_refl).
    f_equal. unfold sha2. cbn [eval firstn chain_row fold_left].
    rewrite (eval_col_top "cc_num" _ _ eq_refl Hs). reflexivity. }
  split; [exact Hout|]. split; [exact Hnth|]. split; [exact Hmask|].
  split; [apply sha256_hex_length|]. split; [apply sha256_hex_lower|].
  split; intros ->; rewrite Hmask; do 2 f_equal; vm_compute; reflexivity.
Qed.


Section TimestampFacts.
Context {E : Engine}.

(** The value [convert_epoch_microseconds] gives a long of microseconds:
    the seconds as a double, back to microseconds, moved by the offset of
    the zone at that instant. *)
Lemma convert_epoch_value (colname : string) (r : Row) (v : Z)
      (offset : Z -> Z) :
  eval (col colname) r = Long v ->
  zone_rules "Asia/Kuala_Lumpur" = Some offset ->
  eval (convert_epoch_microseconds colname) r
  = match double_to_timestamp
            (Numeric.double_div (Numeric.double_of_Z v)
                                (Numeric.double_of_Z 1000000)) with
    | Timestamp micros => shift micros (offset (Numeric.epoch_second micros))
    | Raise e => Raise e
    | _ => Null
    end.
Proof.
  intros Hv Hzone.
  unfold convert_epoch_microseconds, from_utc_timestamp, cast, divide.
  cbn [eval]. rewrite Hv, Hzone. cbn [to_double].
  change (1000000 =? 0)%Z with false. cbn iota.
  change (type_of_name "timestamp") with (Some TimestampType). cbn iota.
  reflexivity.
Qed.

Lemma micros_2021 :
  double_to_timestamp
    (Numeric.double_div (Numeric.double_of_Z 1609459200000000)
                        (Numeric.double_of_Z 1000000))
  = Timestamp 1609459200000000.
Proof. unfold double_to_timestamp. destruct ansi_enabled; vm_compute; reflexivity. Qed.

Lemma shifted_2021 (offset : Z -> Z) :
  offset 1609459200%Z = 28800%Z ->
  match double_to_timestamp
          (Numeric.double_div (Numeric.double_of_Z 1609459200000000)
                              (Numeric.double_of_Z 1000000)) with
  | Timestamp micros => shift micros (offset (Numeric.epoch_second micros))
  | Raise e => Raise e
  | _ => Null
  end = Timestamp 1609488000000000.
Proof.
  intros Hoffset. rewrite micros_2021.
  change (Numeric.epoch_second 1609459200000000) with 1609459200%Z.
  rewrite Hoffset. reflexivity.
Qed.
End TimestampFacts.

(** C1.  For a row whose [merch_eff_time] (or [merch_last_update_time]) is
    1609459200000000, the normalizer gives the timestamp 1609488000000000,
    which a UTC clock reads as 2021-01-01 08:00:00: the reading
    2021-01-01 00:00:00 of the epoch value moved by the +08:00 offset of
    Asia/Kuala_Lumpur.  The value is a plain timestamp, without a zone. *)
Theorem epoch_moves_by_zone_offset {E : Engine} (colname : string)
        (df : DataFrame) (i : nat) (r : Row) (offset : Z -> Z) :
  colname = "merch_eff_time" \/ colname = "merch_last_update_time" ->
  accepts notebook_calls (schema df) = true ->
  nth_error (rows df) i = Some r ->
  lookup colname r = Some (Long 1609459200000000) ->
  zone_rules "Asia/Kuala_Lumpur" = Some offset ->
  offset 1609459200%Z = 28800%Z ->
  exists out r',
    pipeline df = Ok out
    /\ nth_error (rows out) i = Some r'
    /\ lookup colname r' = Some (Timestamp 1609488000000000)
    /\ Numeric.wall_clock 1609459200000000 = Numeric.mkLocalDateTime 2021 1 1 0 0 0 0
    /\ Numeric.wall_clock 1609488000000000 = Numeric.mkLocalDateTime 2021 1 1 8 0 0 0.
Proof.
  intros Hcol Ha Hr Hv Hzone Hoffset.
  destruct (chain_row_of _ df i r Ha Hr) as (out & Hout & _ & Hnth).
  exists out, (chain_row notebook_calls r).
  rewrite pipeline_chain.
  split; [exact Hout|]. split; [exact Hnth|].
  split; [|split; reflexivity].
  destruct Hcol as [-> | ->].
  - rewrite (chain_row_written notebook_calls 18 "merch_eff_time" _ r eq_refl eq_refl).
    f_equal. rewrite (convert_epoch_value _ _ 1609459200000000 offset); [| |exact Hzone].
    + apply (shifted_2021 offset Hoffset).
    + rewrite eval_col_chain by reflexivity.
      apply (eval_col_top "merch_eff_time" _ _ eq_refl Hv).
  - rewrite (chain_row_written notebook_calls 17 "merch_last_update_time" _ r
               eq_refl eq_refl).
    f_equal. rewrite (convert_epoch_value _ _ 1609459200000000 offset); [| |exact Hzone].
    + apply (shifted_2021 offset Hoffset).
    + rewrite eval_col_chain by reflexivity.
      apply (eval_col_top "merch_last_update_time" _ _ eq_refl Hv).
Qed.

Section AbsentFacts.
Implicit Types (calls : list Call) (df out : DataFrame) (n : string).

Lemma absent_removed calls k cols n df out :
  chain calls df = Ok out ->
  nth_error calls k = Some (Drop cols) ->
  mentions cols n = true ->
  mentions (touched (skipn (S k) calls)) n = false ->
  absent n out.
Proof.
  intros Hout Hk Hn Hpost. split.
  - apply lookup_None_fieldNames.
    apply (chain_schema_removed _ _ _ _ _ _ (chain_schema_of _ _ _ Hout) Hk Hn Hpost).
  - rewrite (chain_rows _ _ _ Hout). apply Forall_map, Forall_forall.
    intros r _. apply lookup_None_fieldNames.
    apply (chain_row_removed _ _ _ _ _ Hk Hn Hpost).
Qed.

Lemma with_field_names {A : Type} (m : string) (x : A) (fs : list (string * A)) n :
  In n (fieldNames (with_field m x fs)) -> n = m \/ In n (fieldNames fs).
Proof.
  unfold with_field, fieldNames. destruct (hasField m fs).
  - rewrite map_map. intros H. apply in_map_iff in H as ([k v] & Hk & Hin).
    cbn [fst] in Hk. destruct (name_eqb k m).
    + left. now rewrite <- Hk.
    + right. apply in_map_iff. exists (k, v). auto.
  - rewrite map_app. intros H. apply in_app_or in H as [H | [H | []]]; auto.
Qed.

Lemma without_names {A : Type} (cols : list string) (fs : list (string * A)) n :
  In n (fieldNames (without cols fs)) -> In n (fieldNames fs).
Proof.
  unfold without, fieldNames. intros H.
  apply in_map_iff in H as (f & Hf & Hin). apply filter_In in Hin as [Hin _].
  apply in_map_iff. eauto.
Qed.

(** A name of a row after a chain is a name of the row before it, or one
    the chain writes. *)
Lemma chain_row_names_In calls n (r : Row) :
  In n (fieldNames (chain_row calls r)) ->
  In n (fieldNames r) \/ In n (touched calls).
Proof.
  revert r. induction calls as [|m calls IH]; intros r H; [now left|].
  change (chain_row (m :: calls) r) with (chain_row calls (call_row m r)) in H.
  cbn [touched flat_map]. destruct (IH _ H) as [Hm | Hrest].
  - destruct m as [colName c | cols]; cbn [call_row] in Hm.
    + apply with_field_names in Hm as [-> | Hm]; [|now left].
      right. apply in_or_app. left. now left.
    + left. apply (without_names _ _ _ Hm).
  - right. apply in_or_app. now right.
Qed.

Lemma chain_schema_names_In calls n (sch sch' : Schema) :
  chain_schema calls sch = Ok sch' ->
  In n (fieldNames sch') ->
  In n (fieldNames sch) \/ In n (touched calls).
Proof.
  revert sch. induction calls as [|m calls IH]; intros sch Hs H.
  - simpl in Hs. inversion Hs. subst. now left.
  - simpl in Hs. apply bind_Ok in Hs as (sch1 & H1 & Hs).
    cbn [touched flat_map]. destruct (IH _ Hs H) as [Hm | Hrest].
    + destruct m as [colName c | cols]; cbn [call_schema] in H1.
      * apply bind_Ok in H1 as (t & _ & H1). injection H1 as <-.
        apply with_field_names in Hm as [-> | Hm]; [|now left].
        right. apply in_or_app. left. now left.
      * injection H1 as <-. left. apply (without_names _ _ _ Hm).
    + right. apply in_or_app. now right.
Qed.

Lemma absent_kept calls n df out :
  chain calls df = Ok out ->
  mentions (touched calls) n = false ->
  absent n df -> absent n out.
Proof.
  intros Hout Hn [Hs Hr].
  assert (Hfresh : ~ In n (touched calls)).
  { intros Hin. now rewrite (mentions_In _ _ Hin) in Hn. }
  split.
  - intros Hin.
    destruct (chain_schema_names_In _ _ _ _ (chain_schema_of _ _ _ Hout) Hin);
      contradiction.
  - rewrite (chain_rows _ _ _ Hout). apply Forall_map.
    apply (Forall_impl _ (P := fun r => ~ In n (fieldNames r))); [|exact Hr].
    intros r Hn' Hin. destruct (chain_row_names_In _ _ _ Hin); contradiction.
Qed.
End AbsentFacts.

(** C8.  The personal-detail parser removes [personal_detail], and the
    flattener removes [personal_detail_json] and [address_json]; from then
    on no frame of the notebook has the column, in its schema or in a row. *)
Theorem parsed_sources_are_removed {E : Engine}
        (df df1 df2 df3 df4 df5 : DataFrame) :
  parse_personal_detail df = Ok df1 ->
  parse_address df1 = Ok df2 ->
  flatten_fields df2 = Ok df3 ->
  timestamp_convert df3 = Ok df4 ->
  mask_cc df4 = Ok df5 ->
  Forall (absent "personal_detail") [df1; df2; df3; df4; df5]
  /\ Forall (absent "personal_detail_json") [df3; df4; df5]
  /\ Forall (absent "address_json") [df3; df4; df5].
Proof.
  intros H1 H2 H3 H4 H5.
  assert (A1 : absent "personal_detail" df1)
    by (apply (absent_removed _ 1 ["personal_detail"] _ _ _ H1); reflexivity).
  assert (A2 : absent "personal_detail" df2)
    by (apply (absent_kept _ _ _ _ H2); [reflexivity | exact A1]).
  assert (A3 : absent "personal_detail" df3)
    by (apply (absent_kept _ _ _ _ H3); [reflexivity | exact A2]).
  assert (A4 : absent "personal_detail" df4)
    by (apply (absent_kept _ _ _ _ H4); [reflexivity | exact A3]).
  assert (A5 : absent "personal_detail" df5)
    by (apply (absent_kept _ _ _ _ H5); [reflexivity | exact A4]).
  assert (P3 : absent "personal_detail_json" df3)
    by (apply (absent_removed _ 12 ["personal_detail_json"; "address_json"] _ _ _ H3);
        reflexivity).
  assert (P4 : absent "personal_detail_json" df4)
    by (apply (absent_kept _ _ _ _ H4); [reflexivity | exact P3]).
  assert (P5 : absent "personal_detail_json" df5)
    by (apply (absent_kept _ _ _ _ H5); [reflexivity | exact P4]).
  assert (J3 : absent "address_json" df3)
    by (apply (absent_removed _ 12 ["personal_detail_json"; "address_json"] _ _ _ H3);
        reflexivity).
  assert (J4 : absent "address_json" df4)
    by (apply (absent_kept _ _ _ _ H4); [reflexivity | exact J3]).
  assert (J5 : absent "address_json" df5)
    by (apply (absent_kept _ _ _ _ H5); [reflexivity | exact J4]).
  split; [|split]; repeat (apply Forall_cons; [assumption|]); apply Forall_nil.
Qed.

Section MaskFacts.
Context {E : Engine}.

(** The value of [cc_num_masked] in the final frame is decided by the raw
    [cc_num] alone. *)
Lemma masked_of_raw (r : Row) :
  lookup "cc_num_masked" (chain_row notebook_calls r)
  = Some (eval (sha2 (col "cc_num") 256) r).
Proof.
  rewrite (chain_row_written notebook_calls 19 "cc_num_masked" _ r eq_refl eq_refl).
  f_equal. unfold sha2. cbn [eval].
  rewrite eval_col_chain by reflexivity. reflexivity.
Qed.

Lemma eval_sha2_cc_num (r r' : Row) :
  lookup "cc_num" r = lookup "cc_num" r' ->
  eval (sha2 (col "cc_num") 256) r = eval (sha2 (col "cc_num") 256) r'.
Proof.
  intros H. unfold sha2. cbn [eval].
  now rewrite (eval_col_lookup "cc_num" r' r) by exact H.
Qed.
End MaskFacts.

(** ** Two sessions *)

Lemma same_chain (calls1 calls2 : list Call) (df : DataFrame) :
  Forall2 same_call calls1 calls2 -> chain calls1 df = chain calls2 df.
Proof.
  intros H. revert df. induction H as [|m1 m2 calls1 calls2 Hm _ IH]; intros df;
    [reflexivity|].
  cbn [chain]. destruct m1 as [n1 c1 | cols1], m2 as [n2 c2 | cols2];
    cbn [same_call] in Hm; try contradiction.
  - destruct Hm as [<- [Ht Hv]]. cbn [call]. unfold withColumn.
    rewrite Ht. destruct (dataType c2 (schema df)) as [t|]; cbn [bind];
      [|reflexivity].
    rewrite (map_ext _ (fun r => with_field n1 (eval c2 r) r))
      by (intros r; now rewrite Hv).
    apply IH.
  - subst cols2. cbn [call bind]. apply IH.
Qed.

Lemma same_chain_row (calls1 calls2 : list Call) (r : Row) :
  Forall2 same_call calls1 calls2 -> chain_row calls1 r = chain_row calls2 r.
Proof.
  intros H. revert r. unfold chain_row.
  induction H as [|m1 m2 calls1 calls2 Hm _ IH]; intros r; [reflexivity|].
  cbn [fold_left]. rewrite IH. f_equal.
  destruct m1 as [n1 c1 | cols1], m2 as [n2 c2 | cols2];
    cbn [same_call] in Hm; try contradiction.
  - destruct Hm as [<- [_ Hv]]. cbn [call_row]. now rewrite Hv.
  - now subst cols2.
Qed.

Section TwoSessions.
Variables E1 E2 : Engine.
Hypothesis Hsame : same_session E1 E2.

Lemma same_missing (e : SparkError) : @missing E1 e = @missing E2 e.
Proof. unfold missing. now rewrite (proj1 Hsame). Qed.

Lemma same_column_refl (c : Column) : same_column c c.
Proof. split; reflexivity. Qed.

Lemma same_from_json (c1 c2 : Column) (fields : Schema) :
  same_column c1 c2 ->
  same_column (@from_json E1 c1 fields) (@from_json E2 c2 fields).
Proof.
  intros [Ht Hv]. destruct Hsame as (_ & Hjson & _).
  split; intros x; unfold from_json; cbn [dataType eval].
  - now rewrite Ht.
  - rewrite Hv. destruct (eval c2 x); try reflexivity. now rewrite Hjson.
Qed.

Lemma same_split (c1 c2 : Column) (pattern : string) :
  same_column c1 c2 -> same_column (split c1 pattern) (split c2 pattern).
Proof.
  intros [Ht Hv]. split; intros x; unfold split; cbn [dataType eval].
  - now rewrite Ht.
  - now rewrite Hv.
Qed.

Lemma same_getItem (c1 c2 : Column) (i : Z) :
  same_column c1 c2 -> same_column (@getItem E1 c1 i) (@getItem E2 c2 i).
Proof.
  intros [Ht Hv]. split; intros x; unfold getItem; cbn [dataType eval].
  - now rewrite Ht.
  - rewrite Hv. destruct (eval c2 x); try reflexivity.
    unfold item. rewrite !same_missing. reflexivity.
Qed.

Lemma same_double_to_timestamp (d : spec_float) :
  @double_to_timestamp E1 d = @double_to_timestamp E2 d.
Proof.
  unfold double_to_timestamp. rewrite !same_missing.
  now rewrite (proj1 Hsame).
Qed.

Lemma same_cast (c1 c2 : Column) (typeName : string) :
  same_column c1 c2 ->
  same_column (@cast E1 c1 typeName) (@cast E2 c2 typeName).
Proof.
  intros [Ht Hv]. destruct Hsame as (Hansi & _ & Hdouble & _).
  split; intros x; unfold cast; cbn [dataType eval].
  - now rewrite Ht.
  - rewrite Hv. destruct (eval c2 x), (type_of_name typeName) as [[]|];
      try reflexivity.
    + unfold string_to_int_value, read_int. rewrite Hansi, !same_missing.
      reflexivity.
    + unfold string_to_double_value. rewrite Hdouble, !same_missing.
      reflexivity.
    + apply same_double_to_timestamp.
Qed.

Lemma same_divide (c1 c2 : Column) (n : Z) :
  same_column c1 c2 -> same_column (@divide E1 c1 n) (@divide E2 c2 n).
Proof.
  intros [Ht Hv]. split; intros x; unfold divide; cbn [dataType eval].
  - now rewrite Ht.
  - rewrite Hv, !same_missing. reflexivity.
Qed.

Lemma same_from_utc_timestamp (c1 c2 : Column) :
  same_column c1 c2 ->
  same_column (@from_utc_timestamp E1 c1 "Asia/Kuala_Lumpur")
              (@from_utc_timestamp E2 c2 "Asia/Kuala_Lumpur").
Proof.
  intros [Ht Hv]. destruct Hsame as (_ & _ & _ & _ & Hzone).
  unfold same_zone in Hzone.
  split; intros x; unfold from_utc_timestamp; cbn [dataType eval].
  - rewrite Ht.
    destruct (@zone_rules E1 "Asia/Kuala_Lumpur"),
             (@zone_rules E2 "Asia/Kuala_Lumpur"); try contradiction;
      reflexivity.
  - rewrite Hv.
    destruct (@zone_rules E1 "Asia/Kuala_Lumpur"),
             (@zone_rules E2 "Asia/Kuala_Lumpur"); try contradiction;
      [|reflexivity].
    destruct (eval c2 x); try reflexivity. now rewrite Hzone.
Qed.

Lemma same_to_timestamp (c1 c2 : Column) :
  same_column c1 c2 -> same_column (@to_timestamp E1 c1) (@to_timestamp E2 c2).
Proof.
  intros [Ht Hv]. destruct Hsame as (_ & _ & _ & Hstamp & _).
  split; intros x; unfold to_timestamp; cbn [dataType eval].
  - now rewrite Ht.
  - rewrite Hv. destruct (eval c2 x); try reflexivity.
    unfold string_to_timestamp_value. rewrite Hstamp, !same_missing.
    reflexivity.
Qed.

Lemma same_notebook : Forall2 same_call (@notebook_calls E1) (@notebook_calls E2).
Proof.
  unfold notebook_calls, personal_detail_cell, address_cell, flatten_cell,
    timestamp_cell, mask_cell, convert_epoch_microseconds.
  cbn [app].
  repeat (apply Forall2_cons;
          [ cbn [same_call];
            first [ reflexivity
                  | split; [reflexivity|];
                    repeat first
                      [ apply same_from_json | apply same_getItem
                      | apply same_split | apply same_cast | apply same_divide
                      | apply same_from_utc_timestamp | apply same_to_timestamp
                      | apply same_column_refl ] ]
          |]).
  apply Forall2_nil.
Qed.

(** The notebook reads nothing else of a session. *)
Lemma same_pipeline (df : DataFrame) : @pipeline E1 df = @pipeline E2 df.
Proof. rewrite !pipeline_chain. apply same_chain, same_notebook. Qed.
End TwoSessions.


(** ** The analyzer's side: types of the notebook's columns *)

Section Typing.
Context {E : Engine}.
Implicit Types (c : Column) (sch : Schema).

Lemma type_col_top (name : string) sch (t : DataType) :
  split_on (Ascii.eqb ".") name = [name] ->
  lookup name sch = Some t ->
  matches name sch <= 1 ->
  dataType (col name) sch = Ok t.
Proof.
  intros Hn Hs Hm. unfold col. rewrite Hn. cbn [dataType]. rewrite Hs.
  apply Nat.ltb_ge in Hm. rewrite Hm. reflexivity.
Qed.

Lemma type_col_field (name top field : string) sch
      (fields : Schema) (t : DataType) :
  split_on (Ascii.eqb ".") name = [top; field] ->
  lookup top sch = Some (StructType fields) ->
  matches top sch <= 1 ->
  lookup field fields = Some t ->
  dataType (col name) sch = Ok t.
Proof.
  intros Hn Hs Hm Hf. unfold col. rewrite Hn. cbn [dataType]. rewrite Hs.
  apply Nat.ltb_ge in Hm. rewrite Hm. cbn [field_type]. now rewrite Hf.
Qed.

Lemma type_from_json c sch (fields : Schema) :
  dataType c sch = Ok StringType ->
  forallb (fun f => is_string (snd f)) fields = true ->
  dataType (from_json c fields) sch = Ok (StructType fields).
Proof. intros Hc Hf. unfold from_json. simpl. rewrite Hc. simpl. now rewrite Hf. Qed.

Lemma type_name_piece c sch (k : Z) :
  dataType c sch = Ok StringType ->
  dataType (getItem (split c "[,@/]") k) sch = Ok StringType.
Proof. intros Hc. unfold getItem, split. simpl. rewrite Hc. reflexivity. Qed.

Lemma type_cast_double c sch :
  dataType c sch = Ok StringType ->
  dataType (cast c "double") sch = Ok DoubleType.
Proof. intros Hc. unfold cast. simpl. rewrite Hc. reflexivity. Qed.

Lemma type_cast_int c sch :
  dataType c sch = Ok StringType ->
  dataType (cast c "int") sch = Ok IntegerType.
Proof. intros Hc. unfold cast. simpl. rewrite Hc. reflexivity. Qed.

Lemma type_to_timestamp c sch :
  dataType c sch = Ok StringType ->
  dataType (to_timestamp c) sch = Ok TimestampType.
Proof. intros Hc. unfold to_timestamp. simpl. rewrite Hc. reflexivity. Qed.

Lemma type_convert_epoch (colname : string) sch :
  dataType (col colname) sch = Ok LongType ->
  zone_rules "Asia/Kuala_Lumpur" <> None ->
  dataType (convert_epoch_microseconds colname) sch = Ok TimestampType.
Proof.
  intros Hc Hz. unfold convert_epoch_microseconds, from_utc_timestamp, cast, divide.
  cbn [dataType]. rewrite Hc. cbn [bind].
  change (type_of_name "timestamp") with (Some TimestampType). cbn [bind].
  destruct (zone_rules "Asia/Kuala_Lumpur"); [reflexivity | contradiction].
Qed.

Lemma type_sha2 c sch :
  dataType c sch = Ok StringType ->
  dataType (sha2 c 256) sch = Ok StringType.
Proof. intros Hc. unfold sha2. simpl. rewrite Hc. reflexivity. Qed.

Lemma accepts_nil sch : accepts [] sch = true.
Proof. reflexivity. Qed.

Lemma accepts_with (n : string) c (t : DataType) (rest : list Call) sch :
  dataType c sch = Ok t ->
  accepts rest (with_field n t sch) = true ->
  accepts (WithColumn n c :: rest) sch = true.
Proof. unfold accepts. simpl. intros ->. simpl. auto. Qed.

Lemma accepts_drop (cols : list string) (rest : list Call) sch :
  accepts rest (without cols sch) = true ->
  accepts (Drop cols :: rest) sch = true.
Proof. unfold accepts. simpl. auto. Qed.
End Typing.

Ltac solve_lookup :=
  repeat first
    [ rewrite lookup_with_field_same
    | rewrite lookup_with_field_other by reflexivity
    | rewrite lookup_without_kept by reflexivity ];
  first [ reflexivity | eassumption ].

Ltac solve_matches :=
  repeat first
    [ rewrite matches_with_field_same
    | rewrite matches_with_field_other by reflexivity
    | rewrite matches_without_kept by reflexivity ];
  lia.

Ltac type_column :=
  first
    [ eapply type_from_json; [type_column | reflexivity]
    | eapply type_name_piece; type_column
    | eapply type_cast_double; type_column
    | eapply type_cast_int; type_column
    | eapply type_to_timestamp; type_column
    | eapply type_convert_epoch; [type_column | eassumption]
    | eapply type_sha2; type_column
    | eapply type_col_field;
      [reflexivity | solve_lookup | solve_matches | reflexivity]
    | eapply type_col_top; [reflexivity | solve_lookup | solve_matches] ].

Ltac accept_chain :=
  repeat first
    [ apply accepts_nil
    | apply accepts_drop
    | eapply accepts_with; [type_column |] ].

Section Acceptance.
Context {E : Engine}.

(** The analyzer accepts the notebook on every frame that has the raw
    columns, with any other columns beside them. *)
Lemma raw_typed_accepted (sch : Schema) :
  raw_typed sch ->
  zone_rules "Asia/Kuala_Lumpur" <> None ->
  accepts notebook_calls sch = true.
Proof.
  intros (Hpd & Htt & Hlu & Hef & Hcc & Hone) Hzone.
  rewrite !Forall_cons_iff in Hone.
  destruct Hone as (M1 & M2 & M3 & M4 & M5 & M6 & M7 & _).
  unfold notebook_calls, personal_detail_cell, address_cell, flatten_cell,
    timestamp_cell, mask_cell.
  cbn [app].
  accept_chain.
Qed.
End Acceptance.

Section PipelineFacts.
Context {E : Engine}.

(** The frames between the cells of a run. *)
Lemma pipeline_stages (df out : DataFrame) :
  pipeline df = Ok out ->
  exists df1 df2 df3 df4,
    parse_personal_detail df = Ok df1
    /\ parse_address df1 = Ok df2
    /\ flatten_fields df2 = Ok df3
    /\ timestamp_convert df3 = Ok df4
    /\ mask_cc df4 = Ok out.
Proof.
  unfold pipeline. intros H.
  apply bind_Ok in H as (df1 & H1 & H).
  apply bind_Ok in H as (df2 & H2 & H).
  apply bind_Ok in H as (df3 & H3 & H).
  apply bind_Ok in H as (df4 & H4 & H).
  exists df1, df2, df3, df4. auto.
Qed.

Lemma pipeline_total (df : DataFrame) :
  accepts notebook_calls (schema df) = true ->
  exists out, pipeline df = Ok out
              /\ rows out = map (chain_row notebook_calls) (rows df).
Proof. intros Ha. rewrite pipeline_chain. now apply chain_total. Qed.

Lemma type_sha2_reads (c : Column) (sch : Schema) (t : DataType) :
  dataType (sha2 c 256) sch = Ok t -> exists t', dataType c sch = Ok t'.
Proof.
  unfold sha2. cbn [dataType]. destruct (dataType c sch) as [t'|]; [eauto|].
  discriminate.
Qed.

Lemma type_col_reads (name : string) (sch : Schema) (t : DataType) :
  split_on (Ascii.eqb ".") name = [name] ->
  dataType (col name) sch = Ok t -> lookup name sch = Some t.
Proof.
  intros Hn. unfold col. rewrite Hn. cbn [dataType field_type].
  destruct (lookup name sch); [|discriminate].
  destruct (1 <? matches name sch)%nat; [discriminate|]. intros H. now inversion H.
Qed.

(** The final frame still has [cc_num], with the type and the value of the
    raw frame, beside [cc_num_masked]. *)
Lemma pipeline_keeps_cc_num (df out : DataFrame) :
  pipeline df = Ok out ->
  (exists t, lookup "cc_num" (schema df) = Some t
             /\ lookup "cc_num" (schema out) = Some t)
  /\ In "cc_num_masked" (columns out)
  /\ forall i r, nth_error (rows df) i = Some r ->
       exists r', nth_error (rows out) i = Some r'
                  /\ lookup "cc_num" r' = lookup "cc_num" r.
Proof.
  intros H. pose proof H as Hchain. rewrite pipeline_chain in Hchain.
  destruct (pipeline_stages _ _ H) as (df1 & df2 & df3 & df4 & _ & _ & _ & _ & H5).
  unfold mask_cc, mask_cell in H5. cbn [chain call] in H5.
  apply bind_Ok in H5 as (out' & H5 & Hout). inversion Hout. subst out'.
  unfold withColumn in H5. apply bind_Ok in H5 as (t & Ht & H5).
  apply type_sha2_reads in Ht as (t' & Ht').
  apply (type_col_reads "cc_num" _ _ eq_refl) in Ht'.
  assert (Hs : schema out = with_field "cc_num_masked" t (schema df4))
    by (inversion H5; reflexivity).
  assert (Hkept : lookup "cc_num" (schema out) = Some t').
  { rewrite Hs, lookup_with_field_other by reflexivity. exact Ht'. }
  split; [|split].
  - exists t'. split; [|exact Hkept]. rewrite <- Hkept.
    symmetry. apply (chain_schema_frame notebook_calls "cc_num" _ _
                       (chain_schema_of _ _ _ Hchain)).
    reflexivity.
  - unfold columns. rewrite Hs. apply with_field_In.
  - intros i r Hr. exists (chain_row notebook_calls r).
    split; [apply (chain_nth _ _ _ _ _ Hchain Hr)|].
    now apply chain_row_frame.
Qed.
End PipelineFacts.

(** C4.  On every frame the analyzer accepts, the notebook returns a frame
    with as many rows: the row at each position of the output is the image
    of the row at that position of the input, and every cell keeps the
    count. *)
Theorem pipeline_preserves_count {E : Engine} (df : DataFrame) :
  accepts notebook_calls (schema df) = true ->
  exists out df1 df2 df3 df4,
    pipeline df = Ok out
    /\ count out = count df
    /\ (forall i, nth_error (rows out) i
                  = option_map (chain_row notebook_calls) (nth_error (rows df) i))
    /\ parse_personal_detail df = Ok df1 /\ count df1 = count df
    /\ parse_address df1 = Ok df2 /\ count df2 = count df1
    /\ flatten_fields df2 = Ok df3 /\ count df3 = count df2
    /\ timestamp_convert df3 = Ok df4 /\ count df4 = count df3
    /\ mask_cc df4 = Ok out /\ count out = count df4.
Proof.
  intros Ha. destruct (pipeline_total df Ha) as (out & Hout & Hrows).
  destruct (pipeline_stages _ _ Hout) as (df1 & df2 & df3 & df4 & H1 & H2 & H3 & H4 & H5).
  exists out, df1, df2, df3, df4.
  split; [exact Hout|].
  split; [unfold count; rewrite Hrows; apply length_map|].
  split; [intros i; rewrite Hrows; apply nth_error_map|].
  repeat split; try assumption; eapply chain_count; eassumption.
Qed.

(** ** The columns of the final frame *)

Section FateFacts.
Implicit Types (calls : list Call) (sch : Schema) (n : string).

(** The names of a frame after one call, as they are spelled. *)
Lemma with_field_names_other {A : Type} (m : string) (x : A)
      (fs : list (string * A)) n :
  name_eqb n m = false ->
  (In n (fieldNames (with_field m x fs)) <-> In n (fieldNames fs)).
Proof.
  intros Hnm. unfold with_field, fieldNames. destruct (hasField m fs).
  - rewrite map_map. split; intros H; apply in_map_iff in H as ([k v] & Hk & Hin);
      apply in_map_iff; cbn [fst] in *.
    + destruct (name_eqb k m) eqn:Hkm; cbn [fst] in Hk.
      * subst n. now rewrite name_eqb_refl in Hnm.
      * exists (k, v). auto.
    + exists (k, v). split; [|exact Hin]. cbn [fst]. subst k. now rewrite Hnm.
  - rewrite map_app. cbn [map fst]. split; intros H.
    + apply in_app_or in H as [H | [H | []]]; [exact H|].
      subst n. now rewrite name_eqb_refl in Hnm.
    + apply in_or_app. now left.
Qed.

Lemma with_field_names_renamed {A : Type} (m : string) (x : A)
      (fs : list (string * A)) n :
  name_eqb n m = true -> In n (fieldNames (with_field m x fs)) -> n = m.
Proof.
  intros Hnm. unfold with_field, fieldNames. destruct (hasField m fs) eqn:Hhas.
  - rewrite map_map. intros H. apply in_map_iff in H as ([k v] & Hk & Hin).
    cbn [fst] in Hk. destruct (name_eqb k m) eqn:Hkm; cbn [fst] in Hk.
    + now symmetry.
    + subst k. congruence.
  - rewrite map_app. cbn [map fst]. intros H.
    apply in_app_or in H as [H | [H | []]]; [|now symmetry].
    exfalso. destruct (fieldNames_lookup _ _ H) as (y & Hy).
    rewrite (lookup_resolved n m _ Hnm) in Hy.
    assert (Hnone : lookup m fs = None) by now apply hasField_lookup.
    congruence.
Qed.

Lemma without_names_kept {A : Type} (cols : list string)
      (fs : list (string * A)) n :
  mentions cols n = false ->
  (In n (fieldNames (without cols fs)) <-> In n (fieldNames fs)).
Proof.
  intros Hn. unfold without, fieldNames. split; intros H;
    apply in_map_iff in H as ([k v] & Hk & Hin); apply in_map_iff;
    exists (k, v); (split; [exact Hk|]).
  - now apply filter_In in Hin as [Hin _].
  - apply filter_In. split; [exact Hin|]. cbn [fst] in *. subst k.
    change (negb (mentions cols n) = true). now rewrite Hn.
Qed.

Lemma fate_holds_step n sch0 sch sch' (f : option bool) (m : Call) :
  fate_holds n sch0 sch f ->
  call_schema m sch = Ok sch' ->
  fate_holds n sch0 sch' (fate_step n f m).
Proof.
  intros Hf Hm. destruct m as [colName c | cols]; simpl in *.
  - apply bind_Ok in Hm as (t & _ & Hm). inversion Hm. subst sch'.
    destruct (name_eqb n colName) eqn:Hn.
    + simpl. rewrite (lookup_resolved n colName _ Hn), lookup_with_field_same.
      discriminate.
    + pose proof Hn as Hn'. rewrite name_eqb_sym in Hn'.
      destruct f as [[|]|]; simpl in *.
      * now rewrite lookup_with_field_other.
      * now rewrite lookup_with_field_other.
      * rewrite lookup_with_field_other by exact Hn'.
        rewrite (with_field_names_other _ _ _ _ Hn). exact Hf.
  - inversion Hm. subst sch'. destruct (mentions cols n) eqn:Hn; simpl.
    + now apply lookup_without_dropped.
    + destruct f as [[|]|]; simpl in *.
      * now rewrite lookup_without_kept.
      * now rewrite lookup_without_kept.
      * rewrite lookup_without_kept by exact Hn.
        rewrite (without_names_kept _ _ _ Hn). exact Hf.
Qed.

Lemma fate_holds_chain n sch0 calls sch sch' (f : option bool) :
  fate_holds n sch0 sch f ->
  chain_schema calls sch = Ok sch' ->
  fate_holds n sch0 sch' (fold_left (fate_step n) calls f).
Proof.
  revert sch f. induction calls as [|m calls IH]; intros sch f Hf Hs; simpl in *.
  - inversion Hs. now subst.
  - apply bind_Ok in Hs as (sch1 & H1 & Hs).
    apply (IH sch1); [|exact Hs]. now apply (fate_holds_step _ _ sch).
Qed.

(** The columns of the schema a chain returns: a name whose last call
    writes it resolves, one whose last call removes it does not, and one no
    call names up to case is a column after exactly when it was before. *)
Lemma chain_schema_fate calls sch sch' n :
  chain_schema calls sch = Ok sch' ->
  (written calls n = true -> lookup n sch' <> None)
  /\ (removed calls n = true -> lookup n sch' = None)
  /\ (fate calls n = None ->
      lookup n sch' = lookup n sch
      /\ (In n (fieldNames sch') <-> In n (fieldNames sch))).
Proof.
  intros Hs.
  assert (H : fate_holds n sch sch' (fate calls n))
    by (apply (fate_holds_chain _ _ _ sch); [split; reflexivity | exact Hs]).
  unfold written, removed. destruct (fate calls n) as [[|]|]; simpl in H.
  - repeat split; try discriminate; auto.
  - repeat split; try discriminate; auto.
  - split; [discriminate|]. split; [discriminate|]. intros _. exact H.
Qed.

Lemma fate_untouched calls n (f : option bool) :
  mentions (touched calls) n = false ->
  fold_left (fate_step n) calls f = f.
Proof.
  revert f. induction calls as [|m calls IH]; intros f H; [reflexivity|].
  simpl in H. rewrite mentions_app in H. apply orb_false_iff in H as [Hm H].
  simpl. rewrite (IH _ H). destruct m as [colName c | cols]; simpl in *.
  - rewrite orb_false_r in Hm. now rewrite Hm.
  - now rewrite Hm.
Qed.

(** A column no call names up to case keeps its spelling. *)
Lemma chain_schema_names_frame calls n sch sch' :
  chain_schema calls sch = Ok sch' ->
  mentions (touched calls) n = false ->
  (In n (fieldNames sch') <-> In n (fieldNames sch)).
Proof.
  intros Hs Hn.
  apply (proj2 (proj2 (chain_schema_fate _ _ _ n Hs))).
  apply (fate_untouched _ _ None Hn).
Qed.

(** The column a call writes is in the final schema under the name of the
    call, when no later call names it. *)
Lemma chain_schema_written_In calls k n c sch sch' :
  chain_schema calls sch = Ok sch' ->
  nth_error calls k = Some (WithColumn n c) ->
  mentions (touched (skipn (S k) calls)) n = false ->
  In n (fieldNames sch').
Proof.
  intros Hs Hk Hpost. rewrite (firstn_skipn_calls _ _ _ Hk) in Hs.
  rewrite chain_schema_app in Hs. apply bind_Ok in Hs as (sch1 & _ & Hs).
  simpl in Hs. apply bind_Ok in Hs as (sch2 & H2 & Hs).
  apply bind_Ok in H2 as (t & _ & H2). inversion H2. subst sch2.
  apply (chain_schema_names_frame _ _ _ _ Hs Hpost). apply with_field_In.
Qed.

(** A column of the final schema whose name a call names up to case has the
    spelling of a call. *)
Lemma chain_schema_renamed calls n sch sch' :
  chain_schema calls sch = Ok sch' ->
  mentions (touched calls) n = true ->
  In n (fieldNames sch') ->
  In n (touched calls).
Proof.
  revert sch. induction calls as [|m calls IH]; intros sch Hs Hn Hin;
    [discriminate|].
  simpl in Hs. apply bind_Ok in Hs as (sch1 & H1 & Hs).
  unfold touched in Hn |- *. cbn [flat_map] in Hn |- *.
  fold (touched calls) in Hn |- *.
  rewrite mentions_app in Hn. apply in_or_app.
  destruct (mentions (touched calls) n) eqn:Hrest.
  - right. apply (IH _ Hs eq_refl Hin).
  - rewrite orb_false_r in Hn.
    apply (chain_schema_names_frame _ _ _ _ Hs Hrest) in Hin.
    left. destruct m as [colName c | cols]; cbn [call_schema] in H1.
    + apply bind_Ok in H1 as (t & _ & H1). injection H1 as <-.
      simpl in Hn. rewrite orb_false_r in Hn.
      left. symmetry. apply (with_field_names_renamed _ _ _ _ Hn Hin).
    + injection H1 as <-. exfalso. simpl in Hn.
      apply (lookup_None_fieldNames n (without cols sch)); [|exact Hin].
      now apply lookup_without_dropped.
Qed.

Lemma mentions_incl (names names' : list string) n :
  incl names names' -> mentions names n = true -> mentions names' n = true.
Proof.
  intros Hincl H. unfold mentions in *. apply existsb_exists in H as (x & Hx & Hnx).
  apply existsb_exists. exists x. split; [now apply Hincl | exact Hnx].
Qed.
End FateFacts.

Section FinalColumns.
Context {E : Engine}.

Lemma notebook_touches :
  incl (touched notebook_calls)
       (derived_columns ++ normalized_columns ++ dropped_columns)
  /\ incl (derived_columns ++ normalized_columns ++ dropped_columns)
          (touched notebook_calls).
Proof.
  split; intros n Hn; vm_compute in Hn; vm_compute;
    repeat (destruct Hn as [<- | Hn]; [tauto|]); contradiction.
Qed.

Lemma notebook_untouched (n : string) :
  mentions (derived_columns ++ normalized_columns ++ dropped_columns) n = false ->
  mentions (touched notebook_calls) n = false.
Proof.
  intros Hn. destruct (mentions (touched notebook_calls) n) eqn:Hm; [|reflexivity].
  now rewrite (mentions_incl _ _ _ (proj1 notebook_touches) Hm) in Hn.
Qed.

Lemma notebook_writes (sch sch' : Schema) (n : string) :
  chain_schema notebook_calls sch = Ok sch' ->
  In n (derived_columns ++ normalized_columns) ->
  In n (fieldNames sch').
Proof.
  intros Hs Hn. cbn [derived_columns normalized_columns app In] in Hn.
  repeat (destruct Hn as [<- | Hn];
          [ first
              [ apply (chain_schema_written_In notebook_calls 3 _ _ _ _ Hs eq_refl eq_refl)
              | apply (chain_schema_written_In notebook_calls 4 _ _ _ _ Hs eq_refl eq_refl)
              | apply (chain_schema_written_In notebook_calls 5 _ _ _ _ Hs eq_refl eq_refl)
              | apply (chain_schema_written_In notebook_calls 6 _ _ _ _ Hs eq_refl eq_refl)
              | apply (chain_schema_written_In notebook_calls 7 _ _ _ _ Hs eq_refl eq_refl)
              | apply (chain_schema_written_In notebook_calls 8 _ _ _ _ Hs eq_refl eq_refl)
              | apply (chain_schema_written_In notebook_calls 9 _ _ _ _ Hs eq_refl eq_refl)
              | apply (chain_schema_written_In notebook_calls 10 _ _ _ _ Hs eq_refl eq_refl)
              | apply (chain_schema_written_In notebook_calls 11 _ _ _ _ Hs eq_refl eq_refl)
              | apply (chain_schema_written_In notebook_calls 12 _ _ _ _ Hs eq_refl eq_refl)
              | apply (chain_schema_written_In notebook_calls 13 _ _ _ _ Hs eq_refl eq_refl)
              | apply (chain_schema_written_In notebook_calls 14 _ _ _ _ Hs eq_refl eq_refl)
              | apply (chain_schema_written_In notebook_calls 16 _ _ _ _ Hs eq_refl eq_refl)
              | apply (chain_schema_written_In notebook_calls 17 _ _ _ _ Hs eq_refl eq_refl)
              | apply (chain_schema_written_In notebook_calls 18 _ _ _ _ Hs eq_refl eq_refl)
              | apply (chain_schema_written_In notebook_calls 19 _ _ _ _ Hs eq_refl eq_refl) ]
          |]).
  contradiction.
Qed.

Lemma notebook_removes (sch sch' : Schema) (n : string) :
  chain_schema notebook_calls sch = Ok sch' ->
  In n dropped_columns ->
  lookup n sch' = None.
Proof.
  intros Hs Hn. cbn [dropped_columns In] in Hn.
  destruct Hn as [<- | [<- | [<- | []]]].
  - apply (chain_schema_removed notebook_calls 1 ["personal_detail"]
             "personal_detail" _ _ Hs eq_refl eq_refl eq_refl).
  - apply (chain_schema_removed notebook_calls 15
             ["personal_detail_json"; "address_json"]
             "personal_detail_json" _ _ Hs eq_refl eq_refl eq_refl).
  - apply (chain_schema_removed notebook_calls 15
             ["personal_detail_json"; "address_json"]
             "address_json" _ _ Hs eq_refl eq_refl eq_refl).
Qed.
End FinalColumns.


(** ** The notebook on the sample frame *)

Example sample_accepted : accepts notebook_calls Sample.raw_schema = true.
Proof. vm_compute. reflexivity. Qed.

Example sample_run : pipeline Sample.df_raw = Ok Sample.df_final.
Proof. vm_compute. reflexivity. Qed.

(** The end-to-end scenario: the record of the scenario is the first row of
    the sample. *)
Example end_to_end :
  nth_error (rows Sample.df_final) 0
  = Some [ ("amt", Double (Numeric.double_of_Z 50)); ("category", Str "grocery");
           ("cc_num", Str "4111111111111111"); ("is_fraud", Long 0);
           ("merch_eff_time", Timestamp 1609488000000000);
           ("merch_last_update_time", Timestamp 1609488000000000);
           ("trans_date_trans_time", Timestamp 1609495200000000);
           ("first", Str "Doe"); ("last", Str "John"); ("gender", Str "M");
           ("dob", Str "1990-01-01"); ("street", Str "1 Main St");
           ("city", Str "KL"); ("state", Str "WP"); ("zip", Str "50000");
           ("lat", Double (S754_finite false 6980579422424269 (-51)));
           ("long", Double (S754_finite false 7149464408450662 (-46)));
           ("city_pop", Int 10000); ("job", Str "Engineer");
           ("cc_num_masked",
            Str "9bbef19476623ca56c17da75fd57734dbf82530686043a6e491c6d71befe8f6e") ].
Proof. vm_compute. reflexivity. Qed.

(** The record of the scenario against the relabel reading: the output
    reads 08:00:00 on the clock, not 00:00:00. *)
Lemma relabel_counterexample :
  exists out r',
    pipeline Sample.df_raw = Ok out
    /\ nth_error (rows Sample.df_raw) 0 = Some Sample.row0
    /\ lookup "merch_eff_time" Sample.row0 = Some (Long 1609459200000000)
    /\ nth_error (rows out) 0 = Some r'
    /\ lookup "merch_eff_time" r' = Some (Timestamp 1609488000000000)
    /\ Numeric.wall_clock 1609488000000000
       <> Numeric.mkLocalDateTime 2021 1 1 0 0 0 0.
Proof.
  exists Sample.df_final, (nth 0 (rows Sample.df_final) []).
  split; [exact sample_run|].
  repeat split; try reflexivity.
  vm_compute. discriminate.
Qed.

Lemma epoch_moves_by_zone_offset_witness :
  ("merch_eff_time" = "merch_eff_time" \/ "merch_eff_time" = "merch_last_update_time")
  /\ accepts notebook_calls (schema Sample.df_raw) = true
  /\ nth_error (rows Sample.df_raw) 0 = Some Sample.row0
  /\ lookup "merch_eff_time" Sample.row0 = Some (Long 1609459200000000)
  /\ zone_rules "Asia/Kuala_Lumpur" = Some Reference.kuala_lumpur
  /\ Reference.kuala_lumpur 1609459200%Z = 28800%Z
  /\ exists out r',
       pipeline Sample.df_raw = Ok out
       /\ nth_error (rows out) 0 = Some r'
       /\ lookup "merch_eff_time" r' = Some (Timestamp 1609488000000000)
       /\ Numeric.wall_clock 1609459200000000
          = Numeric.mkLocalDateTime 2021 1 1 0 0 0 0
       /\ Numeric.wall_clock 1609488000000000
          = Numeric.mkLocalDateTime 2021 1 1 8 0 0 0.
Proof.
  assert (H1 : "merch_eff_time" = "merch_eff_time"
               \/ "merch_eff_time" = "merch_last_update_time") by (left; reflexivity).
  assert (H2 : accepts notebook_calls (schema Sample.df_raw) = true)
    by (vm_compute; reflexivity).
  assert (H3 : nth_error (rows Sample.df_raw) 0 = Some Sample.row0) by reflexivity.
  assert (H4 : lookup "merch_eff_time" Sample.row0 = Some (Long 1609459200000000))
    by reflexivity.
  assert (H5 : zone_rules "Asia/Kuala_Lumpur" = Some Reference.kuala_lumpur)
    by reflexivity.
  assert (H6 : Reference.kuala_lumpur 1609459200%Z = 28800%Z) by reflexivity.
  repeat (split; [assumption|]).
  exact (epoch_moves_by_zone_offset "merch_eff_time" Sample.df_raw 0 Sample.row0
           Reference.kuala_lumpur H1 H2 H3 H4 H5 H6).
Defined.


Lemma flatten_splits_person_name_witness :
  accepts flatten_cell (schema Sample.df_address) = true
  /\ nth_error (rows Sample.df_address) 0 = Some (nth 0 (rows Sample.df_address) [])
  /\ eval (col "personal_detail_json.person_name") (nth 0 (rows Sample.df_address) [])
     = Str "Doe,John"
  /\ (exists out r',
        flatten_fields Sample.df_address = Ok out
        /\ nth_error (rows out) 0 = Some r'
        /\ lookup "first" r' = Some (Str "Doe")
        /\ lookup "last" r' = Some (Str "John"))
  /\ eval (col "personal_detail_json.person_name") (nth 1 (rows Sample.df_address) [])
     = Str "OnlyOneName"
  /\ (exists out r',
        flatten_fields Sample.df_address = Ok out
        /\ nth_error (rows out) 1 = Some r'
        /\ lookup "first" r' = Some (Str "OnlyOneName")
        /\ lookup "last" r' = Some Null).
Proof.
  assert (Ha : accepts flatten_cell (schema Sample.df_address) = true)
    by (vm_compute; reflexivity).
  assert (H0 : nth_error (rows Sample.df_address) 0
               = Some (nth 0 (rows Sample.df_address) [])) by reflexivity.
  assert (H1 : nth_error (rows Sample.df_address) 1
               = Some (nth 1 (rows Sample.df_address) [])) by reflexivity.
  assert (N0 : eval (col "personal_detail_json.person_name")
                 (nth 0 (rows Sample.df_address) []) = Str "Doe,John") by reflexivity.
  assert (N1 : eval (col "personal_detail_json.person_name")
                 (nth 1 (rows Sample.df_address) []) = Str "OnlyOneName") by reflexivity.
  split; [exact Ha|]. split; [exact H0|]. split; [exact N0|].
  split; [|split; [exact N1|]].
  - destruct (flatten_splits_person_name Sample.df_address 0 _ "Doe,John" Ha H0 N0)
      as (out & r' & Hout & Hr' & _ & _ & _ & Hdoe & _).
    exists out, r'. destruct (Hdoe eq_refl) as [Hf Hl]. auto.
  - destruct (flatten_splits_person_name Sample.df_address 1 _ "OnlyOneName" Ha H1 N1)
      as (out & r' & Hout & Hr' & _ & _ & _ & _ & Hone).
    exists out, r'. destruct (Hone eq_refl) as [Hf Hl].
    split; [exact Hout|]. split; [exact Hr'|]. split; [exact Hf | exact Hl].
Defined.

(** The record with the single-word name in a session with
    [spark.sql.ansi.enabled] on: [last] is not null, its cell raises
    INVALID_ARRAY_INDEX, and the job of cell [show-sample], which prints
    [last], fails with it. *)
Lemma missing_last_raises_under_ansi :
  @ansi_enabled ansi_engine = true
  /\ eval (col "personal_detail_json.person_name") (nth 1 (rows Sample.df_address) [])
     = Str "OnlyOneName"
  /\ exists flat out r' r'',
       @flatten_fields ansi_engine Sample.df_address = Ok flat
       /\ nth_error (rows flat) 1 = Some r'
       /\ lookup "first" r' = Some (Str "OnlyOneName")
       /\ lookup "last" r' = Some (Raise INVALID_ARRAY_INDEX)
       /\ lookup "last" r' <> Some Null
       /\ @pipeline ansi_engine Sample.df_raw = Ok out
       /\ nth_error (rows out) 1 = Some r''
       /\ lookup "last" r'' = Some (Raise INVALID_ARRAY_INDEX)
       /\ show_sample out = Ok (SparkException INVALID_ARRAY_INDEX).
Proof.
  split; [reflexivity|]. split; [reflexivity|].
  exists (Sample.force (@flatten_fields ansi_engine Sample.df_address)),
         (Sample.force (@pipeline ansi_engine Sample.df_raw)).
  eexists. eexists.
  split; [vm_compute; reflexivity|].
  split; [vm_compute; reflexivity|].
  split; [vm_compute; reflexivity|].
  split; [vm_compute; reflexivity|].
  split; [vm_compute; discriminate|].
  split; [vm_compute; reflexivity|].
  split; [vm_compute; reflexivity|].
  split; vm_compute; reflexivity.
Qed.

Lemma pipeline_preserves_count_witness :
  accepts notebook_calls (schema Sample.df_raw) = true
  /\ exists out, pipeline Sample.df_raw = Ok out /\ count out = 4%nat.
Proof.
  assert (Ha : accepts notebook_calls (schema Sample.df_raw) = true)
    by (vm_compute; reflexivity).
  split; [exact Ha|].
  destruct (pipeline_preserves_count Sample.df_raw Ha)
    as (out & _ & _ & _ & _ & Hout & Hcount & _).
  exists out. split; [exact Hout | exact Hcount].
Defined.

Example sample_raw_typed :
  raw_typed Sample.raw_schema
  /\ accepts notebook_calls Sample.raw_schema = true.
Proof.
  assert (H : raw_typed Sample.raw_schema)
    by (repeat split; try reflexivity; repeat constructor).
  split; [exact H|]. apply (raw_typed_accepted _ H). discriminate.
Qed.




Lemma mask_is_sha256_hex_witness :
  nth_error (rows Sample.df_time) 0 = Some (nth 0 (rows Sample.df_time) [])
  /\ accepts mask_cell (schema Sample.df_time) = true
  /\ lookup "cc_num" (nth 0 (rows Sample.df_time) []) = Some (Str "4111111111111111")
  /\ exists out r',
       mask_cc Sample.df_time = Ok out
       /\ nth_error (rows out) 0 = Some r'
       /\ lookup "cc_num_masked" r'
          = Some (Str "9bbef19476623ca56c17da75fd57734dbf82530686043a6e491c6d71befe8f6e").
Proof.
  assert (Hr : nth_error (rows Sample.df_time) 0
               = Some (nth 0 (rows Sample.df_time) [])) by reflexivity.
  assert (Ha : accepts mask_cell (schema Sample.df_time) = true)
    by (vm_compute; reflexivity).
  assert (Hs : lookup "cc_num" (nth 0 (rows Sample.df_time) [])
               = Some (Str "4111111111111111")) by reflexivity.
  repeat (split; [assumption|]).
  destruct (proj1 (mask_is_sha256_hex Sample.df_time 0 _ Hr) Ha _ Hs)
    as (out & r' & Hout & Hr' & _ & _ & _ & Hknown & _).
  exists out, r'. split; [exact Hout|]. split; [exact Hr'|].
  exact (Hknown eq_refl).
Defined.

(** A frame whose [cc_num] is a column of numbers, as the JSON loader
    infers for a record that writes the card number as a number: the row has
    a card number, and the masking cell is rejected, so that no
    [cc_num_masked] is stored. *)
Lemma mask_rejects_numeric_cc_num :
  let r := [("cc_num", Long 4111111111111111)] in
  let df := {| schema := [("cc_num", LongType)]; rows := [r] |} in
  nth_error (rows df) 0 = Some r
  /\ has_type LongType (Long 4111111111111111)
  /\ lookup "cc_num" r = Some (Long 4111111111111111)
  /\ lookup "cc_num" r <> Some Null
  /\ mask_cc df = AnalysisException "sha2"
  /\ ~ exists out, mask_cc df = Ok out.
Proof.
  cbv zeta. split; [reflexivity|]. split; [constructor; lia|].
  split; [reflexivity|]. split; [discriminate|].
  split; [vm_compute; reflexivity|].
  intros (out & Hout). vm_compute in Hout. discriminate.
Qed.


Lemma parsed_sources_are_removed_witness :
  parse_personal_detail Sample.df_raw = Ok Sample.df_personal
  /\ parse_address Sample.df_personal = Ok Sample.df_address
  /\ flatten_fields Sample.df_address = Ok Sample.df_flat
  /\ timestamp_convert Sample.df_flat = Ok Sample.df_time
  /\ mask_cc Sample.df_time = Ok Sample.df_final
  /\ Forall (absent "personal_detail")
       [Sample.df_personal; Sample.df_address; Sample.df_flat; Sample.df_time;
        Sample.df_final]
  /\ Forall (absent "personal_detail_json")
       [Sample.df_flat; Sample.df_time; Sample.df_final]
  /\ Forall (absent "address_json")
       [Sample.df_flat; Sample.df_time; Sample.df_final].
Proof.
  assert (H1 : parse_personal_detail Sample.df_raw = Ok Sample.df_personal)
    by (vm_compute; reflexivity).
  assert (H2 : parse_address Sample.df_personal = Ok Sample.df_address)
    by (vm_compute; reflexivity).
  assert (H3 : flatten_fields Sample.df_address = Ok Sample.df_flat)
    by (vm_compute; reflexivity).
  assert (H4 : timestamp_convert Sample.df_flat = Ok Sample.df_time)
    by (vm_compute; reflexivity).
  assert (H5 : mask_cc Sample.df_time = Ok Sample.df_final)
    by (vm_compute; reflexivity).
  repeat (split; [assumption|]).
  exact (parsed_sources_are_removed _ _ _ _ _ _ H1 H2 H3 H4 H5).
Defined.


(** The session matters: with [spark.sql.ansi.enabled] on, the notebook
    gives another frame for the sample. *)
Example session_matters :
  @pipeline reference_engine Sample.df_raw <> @pipeline ansi_engine Sample.df_raw.
Proof. vm_compute. discriminate. Qed.

(** Names up to case on the sample.  With [CC_NUM] in place of [cc_num] the
    notebook returns, and the digest is that of the card number. *)
Example upper_case_cc_num_resolves :
  let rename := fun (A : Type) (fs : list (string * A)) =>
    map (fun f => if String.eqb (fst f) "cc_num" then ("CC_NUM", snd f) else f)
        fs in
  let df := {| schema := rename _ Sample.raw_schema;
               rows := map (rename _) (rows Sample.df_raw) |} in
  exists out r',
    pipeline df = Ok out
    /\ In "CC_NUM" (columns out)
    /\ ~ In "cc_num" (columns out)
    /\ nth_error (rows out) 0 = Some r'
    /\ lookup "cc_num_masked" r'
       = Some (Str "9bbef19476623ca56c17da75fd57734dbf82530686043a6e491c6d71befe8f6e").
Proof.
  cbv zeta. eexists. eexists.
  split; [vm_compute; reflexivity|].
  split; [vm_compute; tauto|].
  split; [vm_compute; intuition discriminate|].
  split; vm_compute; reflexivity.
Qed.

(** A raw column [First] is the column [first] of the final frame: it is
    replaced where it stands and renamed, and the final frame has 20
    columns, not 21. *)
Example raw_column_first_is_replaced :
  let df := {| schema := ("First", LongType) :: Sample.raw_schema;
               rows := map (fun r => ("First", Long 7) :: r)
                           (rows Sample.df_raw) |} in
  exists out r',
    pipeline df = Ok out
    /\ List.length (columns df) = 9%nat
    /\ List.length (columns out) = 20%nat
    /\ hd EmptyString (columns out) = "first"
    /\ ~ In "First" (columns out)
    /\ nth_error (rows out) 0 = Some r'
    /\ lookup "First" r' = Some (Str "Doe").
Proof.
  cbv zeta. eexists. eexists.
  split; [vm_compute; reflexivity|].
  split; [reflexivity|].
  split; [vm_compute; reflexivity|].
  split; [vm_compute; reflexivity|].
  split; [vm_compute; intuition discriminate|].
  split; vm_compute; reflexivity.
Qed.


(** * The notebook from end to end *)

(** ** Values against types *)

Section IntRange.
Implicit Types (s : string) (c : ascii).

Lemma digit_of_range c (d : Z) : Numeric.digit_of c = Some d -> (0 <= d <= 9)%Z.
Proof.
  unfold Numeric.digit_of.
  destruct ((48 <=? N_of_ascii c)%N && (N_of_ascii c <=? 57)%N) eqn:H; [|discriminate].
  apply andb_true_iff in H as [H1 H2].
  apply N.leb_le in H1. apply N.leb_le in H2. intros Hd. inversion Hd. lia.
Qed.

Lemma integral_part_range s (acc m : Z) (fraction : string) :
  Numeric.integral_part acc s = Some (m, fraction) ->
  (0 <= acc <= 2 ^ 31)%Z -> (0 <= m <= 2 ^ 31)%Z.
Proof.
  revert acc. induction s as [|a s IH]; intros acc H Hacc;
    cbn [Numeric.integral_part] in H.
  - inversion H. now subst.
  - destruct (Ascii.eqb a "."); [inversion H; now subst|].
    destruct (Numeric.digit_of a) as [d|] eqn:Hd; [|discriminate].
    destruct (2 ^ 31 <? 10 * acc + d)%Z eqn:Hlt; [discriminate|].
    apply Z.ltb_ge in Hlt. apply digit_of_range in Hd.
    apply (IH _ H). lia.
Qed.

(** A string read as an [int] gives a number of 32 bits. *)
Lemma string_to_int_bounds s (n : Z) :
  Numeric.string_to_int s = Some n -> (- 2 ^ 31 <= n < 2 ^ 31)%Z.
Proof.
  unfold Numeric.string_to_int. destruct (Numeric.trim s) as [|a rest]; [discriminate|].
  cbv zeta.
  set (body := if (Ascii.eqb a "-" || Ascii.eqb a "+")%bool then rest else String a rest).
  destruct body as [|b body']; [discriminate|].
  destruct (Numeric.integral_part 0 (String b body')) as [[m fraction]|] eqn:Hi;
    [|discriminate].
  apply integral_part_range in Hi; [|lia].
  destruct (Numeric.all_digits fraction); [|discriminate].
  destruct (Ascii.eqb a "-").
  - intros H. inversion H. lia.
  - destruct (m <? 2 ^ 31)%Z eqn:Hm; [|discriminate].
    apply Z.ltb_lt in Hm. intros H. inversion H. lia.
Qed.
End IntRange.

Lemma read_int_bounds {E : Engine} (s : string) (n : Z) :
  read_int s = Some n -> (- 2 ^ 31 <= n < 2 ^ 31)%Z.
Proof.
  unfold read_int, Numeric.string_to_int_exact.
  destruct ansi_enabled; [destruct (Numeric.has_point s); [discriminate|]|];
    apply string_to_int_bounds.
Qed.

Section Soundness.
Context {E : Engine}.
Implicit Types (c : Column) (sch : Schema) (r : Row) (t : DataType).

Lemma has_type_struct (fields : Schema) (v : Value) :
  has_type (StructType fields) v ->
  v = Null
  \/ (exists e, v = Raise e)
  \/ exists values,
       v = Struct values
       /\ forall n t, lookup n fields = Some t ->
                      exists v', lookup n values = Some v' /\ has_type t v'.
Proof. intros H. inversion H; subst; eauto. Qed.

Lemma has_type_array (e : DataType) (v : Value) :
  has_type (ArrayType e) v ->
  v = Null
  \/ (exists error, v = Raise error)
  \/ exists items, v = Array items /\ Forall (has_type e) items.
Proof. intros H. inversion H; subst; eauto. Qed.

Lemma missing_typed t (e : SparkError) : has_type t (missing e).
Proof. unfold missing. destruct ansi_enabled; constructor. Qed.

Lemma double_to_long_range (d : spec_float) :
  (- 2 ^ 63 <= Numeric.double_to_long d < 2 ^ 63)%Z.
Proof.
  unfold Numeric.double_to_long, Numeric.Long_MIN_VALUE, Numeric.Long_MAX_VALUE.
  destruct d as [s| s | |s m e]; try destruct s; lia.
Qed.

Lemma fits_long_range (n : Z) :
  Numeric.fits_long n = true -> (- 2 ^ 63 <= n < 2 ^ 63)%Z.
Proof.
  unfold Numeric.fits_long, Numeric.Long_MIN_VALUE, Numeric.Long_MAX_VALUE.
  intros H. apply andb_true_iff in H as [H1 H2].
  apply Z.leb_le in H1. apply Z.leb_le in H2. lia.
Qed.

Lemma field_value_typed (path : list string) t t' (v : Value) :
  has_type t v -> field_type path t = Some t' -> has_type t' (field_value path v).
Proof.
  revert t v. induction path as [|f path IH]; intros t v Hv Ht; simpl in *.
  - inversion Ht. now subst.
  - destruct t; try discriminate.
    destruct (lookup f fields) as [tf|] eqn:Hf; [|discriminate].
    destruct (has_type_struct _ _ Hv)
      as [-> | [(e & ->) | (values & -> & Hfields)]];
      [apply type_null | apply type_raise |].
    destruct (Hfields _ _ Hf) as (v' & Hv' & Htyped). rewrite Hv'. now apply (IH tf).
Qed.

Lemma sound_col (name : string) : sound (col name).
Proof.
  intros sch t r Ht Hr. unfold col in *.
  destruct (split_on (Ascii.eqb ".") name) as [|top path]; [discriminate|].
  cbn [dataType eval] in *.
  destruct (lookup top sch) as [t0|] eqn:Htop; [|discriminate].
  destruct (1 <? matches top sch)%nat; [discriminate|].
  destruct (field_type path t0) as [t1|] eqn:Hpath; [|discriminate].
  inversion Ht. subst t1.
  destruct (Hr _ _ Htop) as (v & Hv & Htyped). rewrite Hv.
  now apply (field_value_typed path t0).
Qed.

Lemma lookup_string_fields (g : string * DataType -> Value) (fields : Schema)
      (n : string) t :
  (forall f, g f = Null \/ exists s, g f = Str s) ->
  forallb (fun f => is_string (snd f)) fields = true ->
  lookup n fields = Some t ->
  exists v, lookup n (map (fun f => (fst f, g f)) fields) = Some v /\ has_type t v.
Proof.
  intros Hg. induction fields as [|[k tk] fields IH]; simpl; [discriminate|].
  intros Hall Hn. apply andb_true_iff in Hall as [Hk Hall].
  destruct (name_eqb k n).
  - inversion Hn. subst tk. exists (g (k, t)). split; [reflexivity|].
    destruct t; try discriminate.
    destruct (Hg (k, StringType)) as [-> | (s & ->)]; constructor.
  - now apply IH.
Qed.

Lemma sound_from_json c (fields : Schema) : sound (from_json c fields).
Proof.
  intros sch t r Ht _. unfold from_json in *. cbn [dataType eval] in *.
  destruct (dataType c sch) as [tc|]; [|discriminate]. cbn [bind] in Ht.
  destruct (is_string tc && forallb (fun f => is_string (snd f)) fields) eqn:Hs;
    [|discriminate].
  apply andb_true_iff in Hs as [_ Hall]. inversion Ht. subst t.
  destruct (eval c r); try apply type_null; [|apply type_raise].
  destruct (read_json s) as [| |members]; [apply type_null| |].
  - apply type_struct. intros n t Hn. unfold all_null.
    apply (lookup_string_fields (fun _ => Null)); auto.
  - apply type_struct. intros n t Hn.
    apply (lookup_string_fields (fun f => snd (string_field members f))); auto.
    intros f. unfold string_field. simpl.
    destruct (member (fst f) (rev members)) as [[s'|]|]; eauto.
Qed.

Lemma sound_split c (pattern : string) : sound (split c pattern).
Proof.
  intros sch t r Ht _. unfold split in *. cbn [dataType eval] in *.
  destruct (dataType c sch) as [tc|]; [|discriminate]. cbn [bind] in Ht.
  destruct tc; try discriminate.
  destruct (char_class pattern) as [cls|]; [|discriminate].
  inversion Ht. destruct (eval c r); try apply type_null; [|apply type_raise].
  apply type_array. apply Forall_map, Forall_forall. intros x _. constructor.
Qed.

Lemma sound_getItem c (i : Z) : sound c -> sound (getItem c i).
Proof.
  intros Hc sch t r Ht Hr. unfold getItem in *. cbn [dataType eval] in *.
  destruct (dataType c sch) as [tc|] eqn:Htc; [|discriminate]. cbn [bind] in Ht.
  destruct tc; try discriminate. inversion Ht. subst t.
  destruct (has_type_array _ _ (Hc _ _ _ Htc Hr))
    as [-> | [(error & ->) | (items & -> & Hitems)]];
    [apply type_null | apply type_raise |].
  unfold item. destruct (i <? 0)%Z; [apply missing_typed|].
  destruct (nth_error items (Z.to_nat i)) as [v|] eqn:Hv; [|apply missing_typed].
  rewrite Forall_forall in Hitems. apply Hitems. apply (nth_error_In _ _ Hv).
Qed.

Lemma sound_cast c (typeName : string) : sound (cast c typeName).
Proof.
  intros sch t r Ht _. unfold cast in *. cbn [dataType eval] in *.
  destruct (dataType c sch) as [tc|]; [|discriminate]. cbn [bind] in Ht.
  destruct (type_of_name typeName) as [[]|];
    destruct tc; try discriminate; inversion Ht;
    destruct (eval c r); try apply type_null; try apply type_raise.
  - unfold string_to_int_value.
    destruct (read_int s) as [n|] eqn:Hn; [|apply missing_typed].
    apply type_int. apply (read_int_bounds s n Hn).
  - unfold string_to_double_value.
    destruct (string_to_double s); [constructor | apply missing_typed].
  - unfold double_to_timestamp.
    destruct d; try apply missing_typed;
      (destruct (ansi_enabled && negb (Numeric.double_in_long_range _));
       [apply type_raise | apply type_timestamp, double_to_long_range]).
Qed.

Lemma sound_divide c (n : Z) : sound (divide c n).
Proof.
  intros sch t r Ht _. unfold divide in *. cbn [dataType eval] in *.
  destruct (dataType c sch) as [tc|]; [|discriminate]. cbn [bind] in Ht.
  assert (t = DoubleType) by (destruct tc; try discriminate; now inversion Ht).
  subst t.
  assert (H : forall v,
             has_type DoubleType
               match to_double v with
               | Some d => if (n =? 0)%Z then missing DIVIDE_BY_ZERO
                           else Double (Numeric.double_div d (Numeric.double_of_Z n))
               | None => Null
               end).
  { intros v. destruct (to_double v); [|apply type_null].
    destruct (n =? 0)%Z; [apply missing_typed | constructor]. }
  destruct (eval c r); try apply H. apply type_raise.
Qed.

Lemma sound_from_utc_timestamp c (tz : string) : sound (from_utc_timestamp c tz).
Proof.
  intros sch t r Ht _. unfold from_utc_timestamp in *. cbn [dataType eval] in *.
  destruct (dataType c sch) as [tc|]; [|discriminate]. cbn [bind] in Ht.
  destruct tc; try discriminate.
  destruct (zone_rules tz) as [offset|]; [|discriminate]. inversion Ht.
  destruct (eval c r); try constructor.
  unfold shift.
  destruct (Numeric.fits_long _) eqn:Hfits; [|apply type_raise].
  apply type_timestamp, fits_long_range, Hfits.
Qed.

Lemma sound_to_timestamp c : sound (to_timestamp c).
Proof.
  intros sch t r Ht _. unfold to_timestamp in *. cbn [dataType eval] in *.
  destruct (dataType c sch) as [tc|]; [|discriminate]. cbn [bind] in Ht.
  destruct tc; try discriminate. inversion Ht.
  destruct (eval c r); try apply type_null; [|apply type_raise].
  unfold string_to_timestamp_value.
  destruct (string_to_timestamp s) as [micros|]; [|apply missing_typed].
  destruct (Numeric.fits_long micros) eqn:Hfits; [|apply missing_typed].
  apply type_timestamp, fits_long_range, Hfits.
Qed.

Lemma sound_sha2 c (numBits : Z) : sound (sha2 c numBits).
Proof.
  intros sch t r Ht _. unfold sha2 in *. cbn [dataType eval] in *.
  destruct (dataType c sch) as [tc|]; [|discriminate]. cbn [bind] in Ht.
  destruct tc; try discriminate.
  destruct ((numBits =? 256)%Z || (numBits =? 0)%Z); [|discriminate]. inversion Ht.
  destruct (eval c r); constructor.
Qed.

Lemma row_typed_call (m : Call) sch sch' r :
  call_sound m -> call_schema m sch = Ok sch' -> row_typed sch r ->
  row_typed sch' (call_row m r).
Proof.
  intros Hm Hs Hr. destruct m as [colName c | cols]; simpl in *.
  - apply bind_Ok in Hs as (tc & Htc & Hs). inversion Hs. subst sch'.
    intros n t Hn. destruct (name_eqb colName n) eqn:Heq.
    + rewrite name_eqb_sym in Heq.
      rewrite (lookup_resolved n colName _ Heq), lookup_with_field_same in Hn.
      inversion Hn. subst t.
      exists (eval c r).
      split; [rewrite (lookup_resolved n colName _ Heq);
              apply lookup_with_field_same|].
      now apply (Hm sch).
    + rewrite lookup_with_field_other in Hn by exact Heq.
      rewrite lookup_with_field_other by exact Heq. now apply Hr.
  - inversion Hs. subst sch'. intros n t Hn.
    destruct (mentions cols n) eqn:Heq.
    + rewrite lookup_without_dropped in Hn by exact Heq. discriminate.
    + rewrite lookup_without_kept in Hn by exact Heq.
      rewrite lookup_without_kept by exact Heq. now apply Hr.
Qed.

Lemma row_typed_chain (calls : list Call) sch sch' r :
  Forall call_sound calls -> chain_schema calls sch = Ok sch' ->
  row_typed sch r -> row_typed sch' (chain_row calls r).
Proof.
  revert sch r. induction calls as [|m calls IH]; intros sch r Hc Hs Hr; simpl in *.
  - inversion Hs. now subst.
  - inversion Hc as [|? ? Hm Hrest]; subst.
    apply bind_Ok in Hs as (sch1 & H1 & Hs).
    apply (IH sch1); [exact Hrest | exact Hs |].
    now apply (row_typed_call _ sch).
Qed.

Lemma frame_typed_chain (calls : list Call) (df out : DataFrame) :
  Forall call_sound calls -> chain calls df = Ok out ->
  frame_typed df -> frame_typed out.
Proof.
  intros Hc Hout Hdf. unfold frame_typed in *.
  rewrite (chain_rows _ _ _ Hout). apply Forall_map.
  apply (Forall_impl _ (P := row_typed (schema df))); [|exact Hdf].
  intros r Hr. apply (row_typed_chain _ (schema df)); auto.
  now apply chain_schema_of.
Qed.

Lemma notebook_sound : Forall call_sound notebook_calls.
Proof.
  unfold notebook_calls, personal_detail_cell, address_cell, flatten_cell,
    timestamp_cell, mask_cell, convert_epoch_microseconds.
  cbn [app].
  repeat (apply Forall_cons;
          [cbn [call_sound];
           repeat first [ exact I | apply sound_col | apply sound_from_json
                        | apply sound_split | apply sound_getItem | apply sound_cast
                        | apply sound_divide | apply sound_from_utc_timestamp
                        | apply sound_to_timestamp | apply sound_sha2 ] |]).
  apply Forall_nil.
Qed.
End Soundness.

Lemma row_typed_nil (r : Row) : row_typed [] r.
Proof. intros n t H. discriminate. Qed.

Lemma row_typed_cons (n : string) (t : DataType) (v : Value) (sch : Schema) (r : Row) :
  lookup n r = Some v -> has_type t v -> row_typed sch r ->
  row_typed ((n, t) :: sch) r.
Proof.
  intros Hv Ht Hr m tm Hm. simpl in Hm. destruct (name_eqb n m) eqn:Heq.
  - inversion Hm. subst tm. exists v. split; [|exact Ht].
    rewrite name_eqb_sym in Heq. now rewrite (lookup_resolved m n _ Heq).
  - now apply Hr.
Qed.

Lemma sample_typed : frame_typed Sample.df_raw.
Proof.
  unfold frame_typed.
  repeat (apply Forall_cons;
          [repeat (eapply row_typed_cons;
                   [reflexivity | constructor; try lia |]);
           apply row_typed_nil |]).
  apply Forall_nil.
Qed.

(** X1.  On a frame whose rows hold values of the types of its schema, the
    notebook returns a frame whose rows hold values of the types of its
    schema: what the analyzer announces is what execution stores, a long
    and the microseconds of a timestamp within 64 bits and an [int] within
    32.  A cell of a type is null, a value of the type, or the error of an
    expression that raises when a job computes the cell. *)
Theorem pipeline_keeps_types {E : Engine} (df out : DataFrame) :
  frame_typed df ->
  pipeline df = Ok out ->
  frame_typed out.
Proof.
  intros Hdf Hout. rewrite pipeline_chain in Hout.
  apply (frame_typed_chain notebook_calls df); [apply notebook_sound | exact Hout | exact Hdf].
Qed.

Lemma pipeline_keeps_types_witness :
  frame_typed Sample.df_raw
  /\ pipeline Sample.df_raw = Ok Sample.df_final
  /\ frame_typed Sample.df_final.
Proof.
  assert (H : pipeline Sample.df_raw = Ok Sample.df_final) by (vm_compute; reflexivity).
  split; [exact sample_typed|]. split; [exact H|].
  exact (pipeline_keeps_types Sample.df_raw Sample.df_final sample_typed H).
Defined.

(** ** The schema of the final frame *)

Section SchemaFacts.
Context {E : Engine}.
Implicit Types (c : Column) (sch : Schema) (t : DataType).

Lemma chain_schema_split (calls : list Call) (k : nat) (m : Call) sch sch' :
  chain_schema calls sch = Ok sch' ->
  nth_error calls k = Some m ->
  exists sch1 sch2,
    chain_schema (firstn k calls) sch = Ok sch1
    /\ call_schema m sch1 = Ok sch2
    /\ chain_schema (skipn (S k) calls) sch2 = Ok sch'.
Proof.
  intros Hs Hk. rewrite (firstn_skipn_calls _ _ _ Hk) in Hs.
  rewrite chain_schema_app in Hs. apply bind_Ok in Hs as (sch1 & H1 & Hs).
  simpl in Hs. apply bind_Ok in Hs as (sch2 & H2 & Hs). eauto.
Qed.

(** The type of a column after a chain: the type its last writer has on the
    schema the calls before it return. *)
Lemma written_type (calls : list Call) (k : nat) (n : string) c sch sch' :
  chain_schema calls sch = Ok sch' ->
  nth_error calls k = Some (WithColumn n c) ->
  mentions (touched (skipn (S k) calls)) n = false ->
  exists sch1 t,
    chain_schema (firstn k calls) sch = Ok sch1
    /\ dataType c sch1 = Ok t
    /\ lookup n sch' = Some t.
Proof.
  intros Hs Hk Hpost.
  destruct (chain_schema_split _ _ _ _ _ Hs Hk) as (sch1 & sch2 & H1 & H2 & H3).
  simpl in H2. apply bind_Ok in H2 as (t & Ht & H2). inversion H2. subst sch2.
  exists sch1, t. split; [exact H1|]. split; [exact Ht|].
  rewrite (chain_schema_frame _ _ _ _ H3 Hpost). apply lookup_with_field_same.
Qed.

Lemma type_from_json_inv c (fields : Schema) sch t :
  dataType (from_json c fields) sch = Ok t -> t = StructType fields.
Proof.
  unfold from_json. cbn [dataType]. destruct (dataType c sch) as [tc|]; [|discriminate].
  cbn [bind]. destruct (is_string tc && _); [|discriminate].
  intros H. now inversion H.
Qed.

Lemma type_name_piece_inv c (k : Z) sch t :
  dataType (getItem (split c "[,@/]") k) sch = Ok t -> t = StringType.
Proof.
  unfold getItem, split. cbn [dataType]. destruct (dataType c sch) as [tc|]; [|discriminate].
  cbn [bind]. destruct tc; try discriminate.
  change (char_class "[,@/]") with (Some [","; "@"; "/"]%char). cbn [bind].
  intros H. now inversion H.
Qed.

Lemma type_cast_inv c (typeName : string) sch t :
  dataType (cast c typeName) sch = Ok t -> type_of_name typeName = Some t.
Proof.
  unfold cast. cbn [dataType]. destruct (dataType c sch) as [tc|]; [|discriminate].
  cbn [bind]. destruct (type_of_name typeName) as [[]|]; destruct tc;
    try discriminate; intros H; now inversion H.
Qed.

Lemma type_from_utc_timestamp_inv c (tz : string) sch t :
  dataType (from_utc_timestamp c tz) sch = Ok t -> t = TimestampType.
Proof.
  unfold from_utc_timestamp. cbn [dataType].
  destruct (dataType c sch) as [tc|]; [|discriminate]. cbn [bind].
  destruct tc; try discriminate. destruct (zone_rules tz); [|discriminate].
  intros H. now inversion H.
Qed.

Lemma type_to_timestamp_inv c sch t :
  dataType (to_timestamp c) sch = Ok t -> t = TimestampType.
Proof.
  unfold to_timestamp. cbn [dataType].
  destruct (dataType c sch) as [tc|]; [|discriminate]. cbn [bind].
  destruct tc; try discriminate. intros H. now inversion H.
Qed.

Lemma type_sha2_inv c sch t :
  dataType (sha2 c 256) sch = Ok t -> t = StringType.
Proof.
  unfold sha2. cbn [dataType].
  destruct (dataType c sch) as [tc|]; [|discriminate]. cbn [bind].
  destruct tc; try discriminate. intros H. now inversion H.
Qed.

Lemma type_col_field_inv (name top field : string) sch (fields : Schema) t :
  split_on (Ascii.eqb ".") name = [top; field] ->
  lookup top sch = Some (StructType fields) ->
  dataType (col name) sch = Ok t ->
  lookup field fields = Some t.
Proof.
  intros Hn Htop. unfold col. rewrite Hn. cbn [dataType]. rewrite Htop.
  destruct (1 <? matches top sch)%nat; [discriminate|].
  cbn [field_type]. destruct (lookup field fields) as [t'|]; [|discriminate].
  intros H. now inversion H.
Qed.

(** Between the parser cells and the end of the flatten cell the two nested
    columns have the types of the two schemas. *)
Lemma nested_types (k : nat) sch sch1 :
  chain_schema (firstn k notebook_calls) sch = Ok sch1 ->
  3 <= k <= 14 ->
  lookup "personal_detail_json" sch1 = Some (StructType personal_schema)
  /\ lookup "address_json" sch1 = Some (StructType address_schema).
Proof.
  intros Hs Hk.
  do 3 (destruct k as [|k]; [lia|]).
  do 12 (destruct k as [|k];
    [ split;
      [ destruct (written_type _ 0 "personal_detail_json" _ _ _ Hs eq_refl eq_refl)
          as (s0 & t0 & _ & Ht0 & ->); f_equal; apply (type_from_json_inv _ _ _ _ Ht0)
      | destruct (written_type _ 2 "address_json" _ _ _ Hs eq_refl eq_refl)
          as (s0 & t0 & _ & Ht0 & ->); f_equal; apply (type_from_json_inv _ _ _ _ Ht0) ]
    | ]).
  lia.
Qed.
End SchemaFacts.

Lemma lookup_In {A : Type} (n : string) (x : A) (fs : list (string * A)) :
  lookup n fs = Some x -> exists m, name_eqb n m = true /\ In (m, x) fs.
Proof.
  induction fs as [|[m y] fs IH]; simpl; [discriminate|].
  destruct (name_eqb m n) eqn:Hm.
  - intros H. inversion H. subst. exists m.
    split; [now rewrite name_eqb_sym | now left].
  - intros H. destruct (IH H) as (m' & Hm' & Hin). exists m'. auto.
Qed.

Section FinalSchema.
Context {E : Engine}.

Ltac last_writer Hs k n :=
  let s1 := fresh "s1" in
  let t1 := fresh "t1" in
  let Hpre := fresh "Hpre" in
  let Ht := fresh "Ht" in
  let Hl := fresh "Hl" in
  destruct (written_type notebook_calls k n _ _ _ Hs eq_refl eq_refl)
    as (s1 & t1 & Hpre & Ht & Hl);
  cbn [fst snd]; rewrite Hl; f_equal;
  first
    [ exact (type_name_piece_inv _ _ _ _ Ht)
    | exact (type_to_timestamp_inv _ _ _ Ht)
    | exact (type_from_utc_timestamp_inv _ _ _ _ Ht)
    | exact (type_sha2_inv _ _ _ Ht)
    | apply type_cast_inv in Ht; change (Some DoubleType = Some t1) in Ht;
      now inversion Ht
    | apply type_cast_inv in Ht; change (Some IntegerType = Some t1) in Ht;
      now inversion Ht
    | let Hn := fresh "Hn" in
      destruct (nested_types k _ _ Hpre ltac:(lia)) as [Hn _];
      match type of Ht with
      | dataType (col ?name) _ = _ =>
          apply (type_col_field_inv name _ _ _ _ _ eq_refl Hn) in Ht
      end;
      vm_compute in Ht; now inversion Ht
    | let Hn := fresh "Hn" in
      destruct (nested_types k _ _ Hpre ltac:(lia)) as [_ Hn];
      match type of Ht with
      | dataType (col ?name) _ = _ =>
          apply (type_col_field_inv name _ _ _ _ _ eq_refl Hn) in Ht
      end;
      vm_compute in Ht; now inversion Ht ].

Lemma final_types (sch sch' : Schema) :
  chain_schema notebook_calls sch = Ok sch' ->
  Forall (fun f => lookup (fst f) sch' = Some (snd f)) written_schema.
Proof.
  intros Hs. unfold written_schema.
  repeat apply Forall_cons; [..|apply Forall_nil].
  - last_writer Hs 3 "first".
  - last_writer Hs 4 "last".
  - last_writer Hs 5 "gender".
  - last_writer Hs 6 "dob".
  - last_writer Hs 7 "street".
  - last_writer Hs 8 "city".
  - last_writer Hs 9 "state".
  - last_writer Hs 10 "zip".
  - last_writer Hs 11 "lat".
  - last_writer Hs 12 "long".
  - last_writer Hs 13 "city_pop".
  - last_writer Hs 14 "job".
  - last_writer Hs 19 "cc_num_masked".
  - last_writer Hs 16 "trans_date_trans_time".
  - last_writer Hs 17 "merch_last_update_time".
  - last_writer Hs 18 "merch_eff_time".
Qed.
End FinalSchema.

(** X2.  Whatever frame the notebook accepts, the final schema gives the
    columns the cells write these types: strings for the name pieces, the
    copied fields and the digest, doubles for [lat] and [long], an integer
    for [city_pop], timestamps for the three time columns. *)
Theorem final_schema_types {E : Engine} (df out : DataFrame) (n : string)
        (t : DataType) :
  pipeline df = Ok out ->
  lookup n written_schema = Some t ->
  lookup n (schema out) = Some t.
Proof.
  intros H Hn. rewrite pipeline_chain in H. apply chain_schema_of in H.
  pose proof (final_types _ _ H) as Hall.
  rewrite Forall_forall in Hall.
  destruct (lookup_In _ _ _ Hn) as (m & Hm & Hin).
  rewrite (lookup_resolved n m _ Hm). exact (Hall _ Hin).
Qed.

Lemma final_schema_types_witness :
  pipeline Sample.df_raw = Ok Sample.df_final
  /\ lookup "city_pop" written_schema = Some IntegerType
  /\ lookup "city_pop" (schema Sample.df_final) = Some IntegerType.
Proof.
  assert (H : pipeline Sample.df_raw = Ok Sample.df_final)
    by (vm_compute; reflexivity).
  assert (Hn : lookup "city_pop" written_schema = Some IntegerType)
    by reflexivity.
  split; [exact H|]. split; [exact Hn|].
  exact (final_schema_types Sample.df_raw Sample.df_final "city_pop"
           IntegerType H Hn).
Defined.

(** ** What the analyzer reads *)

Section Reads.
Context {E : Engine}.
Implicit Types (c : Column) (sch : Schema) (t : DataType).

Lemma type_from_json_reads c (fields : Schema) sch t :
  dataType (from_json c fields) sch = Ok t -> exists t', dataType c sch = Ok t'.
Proof.
  unfold from_json. cbn [dataType]. destruct (dataType c sch) as [t'|]; [eauto|].
  discriminate.
Qed.

Lemma type_to_timestamp_reads c sch t :
  dataType (to_timestamp c) sch = Ok t -> exists t', dataType c sch = Ok t'.
Proof.
  unfold to_timestamp. cbn [dataType]. destruct (dataType c sch) as [t'|]; [eauto|].
  discriminate.
Qed.

Lemma type_convert_epoch_reads (colname : string) sch t :
  dataType (convert_epoch_microseconds colname) sch = Ok t ->
  exists t', dataType (col colname) sch = Ok t'.
Proof.
  unfold convert_epoch_microseconds, from_utc_timestamp, cast, divide.
  cbn [dataType]. destruct (dataType (col colname) sch) as [t'|]; [eauto|].
  discriminate.
Qed.

Lemma type_col_unique (name : string) sch t :
  split_on (Ascii.eqb ".") name = [name] ->
  dataType (col name) sch = Ok t -> matches name sch = 1%nat.
Proof.
  intros Hn. unfold col. rewrite Hn. cbn [dataType field_type].
  destruct (lookup name sch) eqn:Hl; [|discriminate].
  destruct (1 <? matches name sch)%nat eqn:Hm; [discriminate|]. intros _.
  apply Nat.ltb_ge in Hm.
  destruct (hasField name sch) eqn:Hh.
  - pose proof (proj1 (matches_hasField name sch) Hh). lia.
  - apply hasField_lookup in Hh. congruence.
Qed.

(** The number of columns a name resolves to is kept by a chain that does
    not name it. *)
Lemma chain_schema_matches calls (n : string) sch sch' :
  chain_schema calls sch = Ok sch' ->
  mentions (touched calls) n = false -> matches n sch' = matches n sch.
Proof.
  revert sch. induction calls as [|m calls IH]; intros sch Hs H; simpl in *.
  - now inversion Hs.
  - rewrite mentions_app in H. apply orb_false_iff in H as [Hm H].
    apply bind_Ok in Hs as (sch1 & H1 & Hs). rewrite (IH _ Hs H).
    destruct m as [colName c | cols]; simpl in *.
    + apply bind_Ok in H1 as (t & _ & H1). inversion H1.
      apply matches_with_field_other. rewrite orb_false_r in Hm.
      now rewrite name_eqb_sym.
    + inversion H1. now apply matches_without_kept.
Qed.

(** The analyzer accepts the notebook only on a schema in which each of the
    five raw columns is the name, up to case, of one column. *)
Lemma raw_columns_read sch sch' (n : string) :
  chain_schema notebook_calls sch = Ok sch' ->
  In n raw_columns ->
  matches n sch = 1%nat.
Proof.
  intros Hs Hn. unfold raw_columns in Hn. cbn [In] in Hn.
  destruct Hn as [<-|[<-|[<-|[<-|[<-|[]]]]]].
  - destruct (chain_schema_split _ 0 _ _ _ Hs eq_refl) as (s1 & s2 & H1 & H2 & _).
    cbn [call_schema] in H2. apply bind_Ok in H2 as (t & Ht & _).
    apply type_from_json_reads in Ht as (t' & Ht').
    apply (type_col_unique "personal_detail" _ _ eq_refl) in Ht'.
    now rewrite <- (chain_schema_matches _ "personal_detail" _ _ H1 eq_refl).
  - destruct (chain_schema_split _ 16 _ _ _ Hs eq_refl) as (s1 & s2 & H1 & H2 & _).
    cbn [call_schema] in H2. apply bind_Ok in H2 as (t & Ht & _).
    apply type_to_timestamp_reads in Ht as (t' & Ht').
    apply (type_col_unique "trans_date_trans_time" _ _ eq_refl) in Ht'.
    now rewrite <- (chain_schema_matches _ "trans_date_trans_time" _ _ H1 eq_refl).
  - destruct (chain_schema_split _ 17 _ _ _ Hs eq_refl) as (s1 & s2 & H1 & H2 & _).
    cbn [call_schema] in H2. apply bind_Ok in H2 as (t & Ht & _).
    apply type_convert_epoch_reads in Ht as (t' & Ht').
    apply (type_col_unique "merch_last_update_time" _ _ eq_refl) in Ht'.
    now rewrite <- (chain_schema_matches _ "merch_last_update_time" _ _ H1 eq_refl).
  - destruct (chain_schema_split _ 18 _ _ _ Hs eq_refl) as (s1 & s2 & H1 & H2 & _).
    cbn [call_schema] in H2. apply bind_Ok in H2 as (t & Ht & _).
    apply type_convert_epoch_reads in Ht as (t' & Ht').
    apply (type_col_unique "merch_eff_time" _ _ eq_refl) in Ht'.
    now rewrite <- (chain_schema_matches _ "merch_eff_time" _ _ H1 eq_refl).
  - destruct (chain_schema_split _ 19 _ _ _ Hs eq_refl) as (s1 & s2 & H1 & H2 & _).
    cbn [call_schema] in H2. apply bind_Ok in H2 as (t & Ht & _).
    apply type_sha2_reads in Ht as (t' & Ht').
    apply (type_col_unique "cc_num" _ _ eq_refl) in Ht'.
    now rewrite <- (chain_schema_matches _ "cc_num" _ _ H1 eq_refl).
Qed.
End Reads.

(** X3.  The notebook needs the five raw columns it reads, each under a
    name that resolves, up to case, to one column: on a frame that has no
    column, or more than one, for [personal_detail], one of the three time
    columns or [cc_num], the analyzer raises and there is no final frame. *)
Theorem pipeline_needs_raw_columns {E : Engine} (df : DataFrame) (n : string) :
  In n raw_columns ->
  matches n (schema df) <> 1%nat ->
  exists msg, pipeline df = AnalysisException msg.
Proof.
  intros Hn Hnone. destruct (pipeline df) as [out|msg] eqn:H; [|eauto].
  exfalso. rewrite pipeline_chain in H. apply chain_schema_of in H.
  apply Hnone. apply (raw_columns_read _ _ _ H Hn).
Qed.

Lemma pipeline_needs_raw_columns_witness :
  In "cc_num" raw_columns
  /\ matches "cc_num" (without ["cc_num"] Sample.raw_schema) <> 1%nat
  /\ (exists msg,
        pipeline {| schema := without ["cc_num"] Sample.raw_schema;
                    rows := map (without ["cc_num"]) (rows Sample.df_raw) |}
        = AnalysisException msg)
  /\ matches "cc_num" (("CC_NUM", StringType) :: Sample.raw_schema) <> 1%nat
  /\ (exists msg,
        pipeline {| schema := ("CC_NUM", StringType) :: Sample.raw_schema;
                    rows := map (fun r => ("CC_NUM", Null) :: r)
                                (rows Sample.df_raw) |}
        = AnalysisException msg).
Proof.
  assert (Hn : In "cc_num" raw_columns) by (cbn; tauto).
  assert (Hnone : matches "cc_num" (without ["cc_num"] Sample.raw_schema) <> 1%nat)
    by (vm_compute; discriminate).
  assert (Htwo : matches "cc_num" (("CC_NUM", StringType) :: Sample.raw_schema)
                 <> 1%nat)
    by (vm_compute; discriminate).
  split; [exact Hn|]. split; [exact Hnone|]. split; [|split; [exact Htwo|]].
  - exact (pipeline_needs_raw_columns
             {| schema := without ["cc_num"] Sample.raw_schema;
                rows := map (without ["cc_num"]) (rows Sample.df_raw) |}
             "cc_num" Hn Hnone).
  - exact (pipeline_needs_raw_columns
             {| schema := ("CC_NUM", StringType) :: Sample.raw_schema;
                rows := map (fun r => ("CC_NUM", Null) :: r)
                            (rows Sample.df_raw) |}
             "cc_num" Hn Htwo).
Defined.



(** ** The order of the columns *)

Section Names.
Context {A : Type}.
Implicit Types (fs : list (string * A)) (n : string).

Lemma hasField_mentions n fs : hasField n fs = mentions (fieldNames fs) n.
Proof.
  unfold hasField, mentions, fieldNames.
  induction fs as [|[m x] fs IH]; [reflexivity|].
  cbn [existsb map fst]. now rewrite IH, name_eqb_sym.
Qed.

Lemma fieldNames_with_field n (x : A) fs :
  fieldNames (with_field n x fs)
  = if mentions (fieldNames fs) n then map (respell n) (fieldNames fs)
    else fieldNames fs ++ [n].
Proof.
  unfold with_field. rewrite hasField_mentions.
  destruct (mentions (fieldNames fs) n).
  - unfold fieldNames. rewrite !map_map. apply map_ext.
    intros [m y]. cbn [fst]. unfold respell. now destruct (name_eqb m n).
  - unfold fieldNames. now rewrite map_app.
Qed.

Lemma fieldNames_without (cols : list string) fs :
  fieldNames (without cols fs)
  = filter (fun n => negb (mentions cols n)) (fieldNames fs).
Proof.
  unfold without, fieldNames, mentions.
  induction fs as [|[m x] fs IH]; [reflexivity|].
  cbn [filter map fst]. destruct (existsb (name_eqb m) cols); cbn [negb map fst];
    now rewrite IH.
Qed.
End Names.

Lemma chain_schema_names (calls : list Call) (sch sch' : Schema) :
  chain_schema calls sch = Ok sch' ->
  fieldNames sch' = chain_names calls (fieldNames sch).
Proof.
  revert sch. induction calls as [|m calls IH]; intros sch Hs.
  - simpl in Hs. now inversion Hs.
  - simpl in Hs. apply bind_Ok in Hs as (sch1 & H1 & Hs).
    rewrite (IH _ Hs). unfold chain_names. cbn [fold_left]. f_equal.
    destruct m as [colName c | cols]; simpl in H1.
    + apply bind_Ok in H1 as (t & _ & H1). inversion H1.
      apply fieldNames_with_field.
    + inversion H1. apply fieldNames_without.
Qed.

Lemma chain_row_names (calls : list Call) (r : Row) :
  fieldNames (chain_row calls r) = chain_names calls (fieldNames r).
Proof.
  revert r. induction calls as [|m calls IH]; intros r; [reflexivity|].
  change (chain_row (m :: calls) r) with (chain_row calls (call_row m r)).
  rewrite IH. unfold chain_names. cbn [fold_left]. f_equal.
  destruct m as [colName c | cols]; simpl.
  - apply fieldNames_with_field.
  - apply fieldNames_without.
Qed.

Section Order.
Implicit Types (names fresh : list string) (n : string).

Lemma mentions_filter (cols : list string) names n :
  mentions (filter (fun m => negb (mentions cols m)) names) n
  = mentions names n && negb (mentions cols n).
Proof.
  unfold mentions at 1 3. induction names as [|m names IH]; [reflexivity|].
  cbn [filter existsb]. destruct (name_eqb n m) eqn:Hnm.
  - rewrite <- (mentions_resolved cols n m Hnm).
    destruct (mentions cols n); cbn [negb orb andb existsb].
    + rewrite IH. apply andb_false_r.
    + now rewrite Hnm.
  - destruct (mentions cols m); cbn [negb existsb]; rewrite ?Hnm; exact IH.
Qed.

Lemma mentions_respell (c : string) names n :
  mentions (map (respell c) names) n = mentions names n.
Proof.
  unfold mentions. induction names as [|m names IH]; [reflexivity|].
  cbn [map existsb]. rewrite IH. f_equal. unfold respell.
  destruct (name_eqb m c) eqn:Hm; [|reflexivity].
  now rewrite (name_eqb_sym n c), (name_eqb_sym n m), (name_eqb_trans m c n Hm).
Qed.

Lemma respell_unmentioned (c : string) names :
  mentions names c = false -> map (respell c) names = names.
Proof.
  unfold mentions. induction names as [|m names IH]; [reflexivity|].
  cbn [existsb map]. intros H. apply orb_false_iff in H as [Hm H].
  rewrite (IH H). unfold respell. now rewrite name_eqb_sym, Hm.
Qed.

Lemma filter_unmentioned (cols : list string) names :
  forallb (fun n => negb (mentions names n)) cols = true ->
  filter (fun m => negb (mentions cols m)) names = names.
Proof.
  intros H. rewrite forallb_forall in H.
  induction names as [|m names IH]; [reflexivity|].
  cbn [filter].
  assert (Hm : mentions cols m = false).
  { destruct (mentions cols m) eqn:Hc; [|reflexivity].
    unfold mentions in Hc. apply existsb_exists in Hc as (x & Hx & Hmx).
    specialize (H _ Hx). unfold mentions in H. cbn [existsb] in H.
    now rewrite name_eqb_sym, Hmx in H. }
  rewrite Hm. cbn [negb]. f_equal. apply IH.
  intros n Hn. specialize (H _ Hn). unfold mentions in *. cbn [existsb] in H.
  now destruct (name_eqb n m).
Qed.

(** A column that is new to the frame is appended. *)
Lemma call_names_fresh names fresh n (c : Column) :
  mentions names n = false ->
  mentions fresh n = false ->
  call_names (WithColumn n c) (names ++ fresh) = names ++ (fresh ++ [n]).
Proof.
  intros H1 H2. cbn [call_names]. rewrite mentions_app, H1, H2.
  cbn [orb]. now rewrite app_assoc.
Qed.

(** A column the frame has is replaced where it is, and takes the spelling
    of the call. *)
Lemma call_names_present names fresh n (c : Column) :
  mentions names n = true ->
  mentions fresh n = false ->
  call_names (WithColumn n c) (names ++ fresh) = map (respell n) names ++ fresh.
Proof.
  intros H1 H2. cbn [call_names]. rewrite mentions_app, H1. cbn [orb].
  now rewrite map_app, (respell_unmentioned n fresh H2).
Qed.

Lemma call_names_drop (cols : list string) names fresh :
  call_names (Drop cols) (names ++ fresh)
  = filter (fun m => negb (mentions cols m)) names
    ++ filter (fun m => negb (mentions cols m)) fresh.
Proof. cbn [call_names]. apply filter_app. Qed.

(** The three time columns, respelled one after the other. *)
Lemma respell_normalized n :
  respell "merch_eff_time"
    (respell "merch_last_update_time" (respell "trans_date_trans_time" n))
  = spelled normalized_columns n.
Proof.
  unfold spelled, normalized_columns, respell. cbn [find].
  destruct (name_eqb n "trans_date_trans_time") eqn:H1; [reflexivity|].
  destruct (name_eqb n "merch_last_update_time") eqn:H2; [reflexivity|].
  destruct (name_eqb n "merch_eff_time"); reflexivity.
Qed.
End Order.

Section FinalOrder.
Context {E : Engine}.

Lemma notebook_names (names : list string) :
  (forall n, In n (derived_columns ++ ["personal_detail_json"; "address_json"]) ->
             mentions names n = false) ->
  (forall n, In n normalized_columns -> mentions names n = true) ->
  chain_names notebook_calls names
  = map (spelled normalized_columns)
        (filter (fun n => negb (mentions ["personal_detail"] n)) names)
    ++ derived_columns.
Proof.
  intros Hnew Hhas.
  set (kept := filter (fun n => negb (mentions ["personal_detail"] n)) names).
  assert (Hkept : forall n,
             In n (derived_columns ++ ["personal_detail_json"; "address_json"]) ->
             mentions kept n = false).
  { intros n Hn. unfold kept. rewrite mentions_filter, (Hnew _ Hn). reflexivity. }
  assert (Hold : forall n, In n normalized_columns -> mentions kept n = true).
  { intros n Hn. unfold kept. rewrite mentions_filter.
    apply andb_true_iff. split; [apply Hhas, Hn|].
    revert Hn. cbn [normalized_columns In].
    intros [<-|[<-|[<-|[]]]]; reflexivity. }
  unfold chain_names, notebook_calls, personal_detail_cell, address_cell,
    flatten_cell, timestamp_cell, mask_cell.
  cbn [app fold_left].
  rewrite <- (app_nil_r names) at 1.
  rewrite (call_names_fresh names []) by (first [apply Hnew; cbn; tauto | reflexivity]).
  rewrite call_names_drop. fold kept.
  change (filter _ ([] ++ ["personal_detail_json"])) with ["personal_detail_json"].
  repeat (rewrite (call_names_fresh kept)
            by (first [apply Hkept; cbn; tauto | reflexivity]);
          cbn [app]).
  rewrite call_names_drop.
  rewrite (filter_unmentioned _ kept)
    by (cbn [forallb]; rewrite !Hkept by (cbn; tauto); reflexivity).
  match goal with
  | |- context [filter ?f (?x :: ?l)] =>
      change (filter f (x :: l))
        with ["first"; "last"; "gender"; "dob"; "street"; "city"; "state";
              "zip"; "lat"; "long"; "city_pop"; "job"]
  end.
  rewrite (call_names_present kept)
    by (first [apply Hold; cbn; tauto | reflexivity]).
  rewrite (call_names_present (map _ kept))
    by (first [rewrite mentions_respell; apply Hold; cbn; tauto | reflexivity]).
  rewrite (call_names_present (map _ (map _ kept)))
    by (first [rewrite !mentions_respell; apply Hold; cbn; tauto | reflexivity]).
  rewrite (call_names_fresh (map _ (map _ (map _ kept))))
    by (first [rewrite !mentions_respell; apply Hkept; cbn; tauto | reflexivity]).
  rewrite !map_map. f_equal. apply map_ext. intros n. apply respell_normalized.
Qed.
End FinalOrder.



(** ** From the raw text to the flat columns *)

Section EndToEnd.
Context {E : Engine}.

Lemma nested_values (r : Row) (k : nat) :
  3 <= k <= 14 ->
  lookup "personal_detail_json" (chain_row (firstn k notebook_calls) r)
  = Some (nested_personal r)
  /\ lookup "address_json" (chain_row (firstn k notebook_calls) r)
     = Some (nested_address r).
Proof.
  intros Hk.
  assert (Hp : forall j, 1 <= j <= 14 ->
             lookup "personal_detail_json" (chain_row (firstn j notebook_calls) r)
             = Some (nested_personal r)).
  { intros j Hj. destruct j as [|j]; [lia|].
    do 14 (destruct j as [|j];
      [ match goal with
        | |- lookup _ (chain_row ?calls r) = _ =>
            exact (chain_row_written calls 0 "personal_detail_json" _ r
                     eq_refl eq_refl)
        end |]).
    lia. }
  split; [apply Hp; lia|].
  do 3 (destruct k as [|k]; [lia|]).
  do 12 (destruct k as [|k];
    [ match goal with
      | |- lookup _ (chain_row ?calls r) = _ =>
          rewrite (chain_row_written calls 2 "address_json" _ r eq_refl eq_refl)
      end;
      f_equal; unfold nested_address, from_json; cbn [eval];
      rewrite (eval_col_lookup "personal_detail_json.address"
                 [("personal_detail_json", nested_personal r)]);
      [ reflexivity | exact (Hp 2 ltac:(lia)) ]
    |]).
  lia.
Qed.

Ltac reads_nested r H :=
  unfold getItem, split, cast; cbn [eval];
  match goal with
  | |- context [eval (col ?name) ?row] =>
      rewrite (eval_col_lookup name (nested_row r) row) by exact H
  end; reflexivity.

Ltac flat_case r Hk j :=
  unfold flatten_cell in Hk; cbn [nth_error] in Hk; injection Hk as <- <-;
  match goal with
  | |- lookup ?n _ = _ =>
      rewrite (chain_row_written notebook_calls j n _ r eq_refl eq_refl)
  end;
  let Hp := fresh "Hp" in
  let Ha := fresh "Ha" in
  destruct (nested_values r j ltac:(lia)) as [Hp Ha];
  f_equal; first [ reads_nested r Hp | reads_nested r Ha ].

(** The flat columns of the final row are the flattener's expressions on
    the nested records of the raw row. *)
Lemma flattened_value (r : Row) (k : nat) (n : string) (c : Column) :
  nth_error flatten_cell k = Some (WithColumn n c) ->
  lookup n (chain_row notebook_calls r) = Some (eval c (nested_row r)).
Proof.
  intros Hk.
  destruct k as [|k]; [flat_case r Hk 3|].
  destruct k as [|k]; [flat_case r Hk 4|].
  destruct k as [|k]; [flat_case r Hk 5|].
  destruct k as [|k]; [flat_case r Hk 6|].
  destruct k as [|k]; [flat_case r Hk 7|].
  destruct k as [|k]; [flat_case r Hk 8|].
  destruct k as [|k]; [flat_case r Hk 9|].
  destruct k as [|k]; [flat_case r Hk 10|].
  destruct k as [|k]; [flat_case r Hk 11|].
  destruct k as [|k]; [flat_case r Hk 12|].
  destruct k as [|k]; [flat_case r Hk 13|].
  destruct k as [|k]; [flat_case r Hk 14|].
  destruct k as [|k]; [discriminate Hk|].
  cbn in Hk. destruct k; discriminate Hk.
Qed.
End EndToEnd.

Section Members.
Context {E : Engine}.

Lemma eval_col_field (name top field : string) (r : Row) (v : Value) :
  split_on (Ascii.eqb ".") name = [top; field] ->
  lookup top r = Some v ->
  eval (col name) r = field_value [field] v.
Proof. intros Hn Hr. unfold col. rewrite Hn. cbn [eval]. now rewrite Hr. Qed.

(** A field of a decoded record, under the name the schema spells. *)
Lemma record_field (members : list (string * option string)) (fields : Schema)
      (f : string) (t : DataType) :
  find (fun k => name_eqb (fst k) f) fields = Some (f, t) ->
  field_value [f] (Struct (map (string_field members) fields))
  = member_value members f.
Proof.
  intros Hf. cbn [field_value].
  assert (H : lookup f (map (string_field members) fields)
              = Some (member_value members f)).
  { induction fields as [|[k tk] fields IH]; [discriminate|].
    cbn [map lookup find fst] in *. unfold string_field at 1. cbn [fst].
    destruct (name_eqb k f) eqn:Hk.
    - injection Hf as -> _. reflexivity.
    - now apply IH. }
  now rewrite H.
Qed.

Lemma nested_personal_object (r : Row) (s : string)
      (members : list (string * option string)) :
  lookup "personal_detail" r = Some (Str s) ->
  read_json s = JsonObject members ->
  nested_personal r = Struct (map (string_field members) personal_schema).
Proof.
  intros Hr Hs. unfold nested_personal, from_json. cbn [eval].
  rewrite (eval_col_top "personal_detail" _ _ eq_refl Hr). now rewrite Hs.
Qed.

Lemma personal_member (r : Row) (s : string)
      (members : list (string * option string)) (f : string) (t : DataType) :
  lookup "personal_detail" r = Some (Str s) ->
  read_json s = JsonObject members ->
  find (fun k => name_eqb (fst k) f) personal_schema = Some (f, t) ->
  field_value [f] (nested_personal r) = member_value members f.
Proof.
  intros Hr Hs Hf. rewrite (nested_personal_object _ _ _ Hr Hs).
  apply (record_field _ _ _ _ Hf).
Qed.

Lemma nested_field (r : Row) (name field : string) :
  split_on (Ascii.eqb ".") name = ["personal_detail_json"; field] ->
  eval (col name) (nested_row r) = field_value [field] (nested_personal r).
Proof. intros Hn. now apply (eval_col_field name "personal_detail_json"). Qed.

Lemma address_field (r : Row) (name field : string) :
  split_on (Ascii.eqb ".") name = ["address_json"; field] ->
  eval (col name) (nested_row r) = field_value [field] (nested_address r).
Proof. intros Hn. now apply (eval_col_field name "address_json"). Qed.

Lemma nested_address_of (r : Row) :
  nested_address r
  = match field_value ["address"] (nested_personal r) with
    | Str a =>
        match read_json a with
        | NoToken => Null
        | BadRecord => all_null address_schema
        | JsonObject members => Struct (map (string_field members) address_schema)
        end
    | Raise e => Raise e
    | _ => Null
    end.
Proof. reflexivity. Qed.

Lemma nested_address_object (r : Row) (s a : string)
      (members amembers : list (string * option string)) :
  lookup "personal_detail" r = Some (Str s) ->
  read_json s = JsonObject members ->
  member_value members "address" = Str a ->
  read_json a = JsonObject amembers ->
  nested_address r = Struct (map (string_field amembers) address_schema).
Proof.
  intros Hr Hs Ha Hra. rewrite nested_address_of.
  rewrite (personal_member r s members "address" StringType Hr Hs eq_refl).
  now rewrite Ha, Hra.
Qed.

Lemma final_row (df out : DataFrame) (i : nat) (r : Row) :
  pipeline df = Ok out ->
  nth_error (rows df) i = Some r ->
  nth_error (rows out) i = Some (chain_row notebook_calls r).
Proof.
  intros H Hr. rewrite pipeline_chain in H. apply (chain_nth _ _ _ _ _ H Hr).
Qed.
End Members.

(** X7.  From the raw text to the flat columns, for a row whose
    [personal_detail] is the text of a JSON object: [gender], [dob] and
    [job] hold the strings of the members of these names (the last one when
    a name repeats, null without one); [lat] and [long] hold the member's
    string read as a double and [city_pop] the member's string read as an
    int; [first] and [last] hold the pieces at positions 0 and 1 of the
    [person_name] member.  What cannot be read, and the piece that is not
    there, is null when [spark.sql.ansi.enabled] is off and an error when it
    is on. *)
Theorem final_row_of_json_object {E : Engine} (df out : DataFrame) (i : nat)
        (r : Row) (s : string) (members : list (string * option string)) :
  pipeline df = Ok out ->
  nth_error (rows df) i = Some r ->
  lookup "personal_detail" r = Some (Str s) ->
  read_json s = JsonObject members ->
  exists r',
    nth_error (rows out) i = Some r'
    /\ lookup "gender" r' = Some (member_value members "gender")
    /\ lookup "dob" r' = Some (member_value members "dob")
    /\ lookup "job" r' = Some (member_value members "job")
    /\ (forall t, member_value members "lat" = Str t ->
          lookup "lat" r' = Some (string_to_double_value t))
    /\ (forall t, member_value members "long" = Str t ->
          lookup "long" r' = Some (string_to_double_value t))
    /\ (forall t, member_value members "city_pop" = Str t ->
          lookup "city_pop" r' = Some (string_to_int_value t))
    /\ (forall name, member_value members "person_name" = Str name ->
          lookup "first" r'
          = Some (item 0 (map Str (split_on name_delimiter name)))
          /\ lookup "last" r'
             = Some (item 1 (map Str (split_on name_delimiter name)))).
Proof.
  intros H Hr Hs Hm. exists (chain_row notebook_calls r).
  split; [apply (final_row _ _ _ _ H Hr)|].
  assert (Hf : forall f,
            find (fun k => name_eqb (fst k) f) personal_schema
            = Some (f, StringType) ->
            field_value [f] (nested_personal r) = member_value members f)
    by (intros f; apply (personal_member r s members f StringType Hs Hm)).
  split; [|split; [|split; [|split; [|split; [|split]]]]].
  - rewrite (flattened_value r 2 "gender" _ eq_refl). f_equal.
    rewrite (nested_field r "personal_detail_json.gender" "gender" eq_refl). now apply Hf.
  - rewrite (flattened_value r 3 "dob" _ eq_refl). f_equal.
    rewrite (nested_field r "personal_detail_json.dob" "dob" eq_refl). now apply Hf.
  - rewrite (flattened_value r 11 "job" _ eq_refl). f_equal.
    rewrite (nested_field r "personal_detail_json.job" "job" eq_refl). now apply Hf.
  - intros t Ht. rewrite (flattened_value r 8 "lat" _ eq_refl). f_equal.
    unfold cast. cbn [eval].
    rewrite (nested_field r "personal_detail_json.lat" "lat" eq_refl), (Hf "lat" eq_refl), Ht.
    reflexivity.
  - intros t Ht. rewrite (flattened_value r 9 "long" _ eq_refl). f_equal.
    unfold cast. cbn [eval].
    rewrite (nested_field r "personal_detail_json.long" "long" eq_refl), (Hf "long" eq_refl), Ht.
    reflexivity.
  - intros t Ht. rewrite (flattened_value r 10 "city_pop" _ eq_refl). f_equal.
    unfold cast. cbn [eval].
    rewrite (nested_field r "personal_detail_json.city_pop" "city_pop" eq_refl), (Hf "city_pop" eq_refl), Ht.
    reflexivity.
  - intros name Hname.
    assert (Hn : eval (col "personal_detail_json.person_name") (nested_row r)
                 = Str name).
    { rewrite (nested_field r "personal_detail_json.person_name" "person_name" eq_refl).
      now rewrite (Hf "person_name" eq_refl). }
    split.
    + rewrite (flattened_value r 0 "first" _ eq_refl). f_equal.
      apply (eval_name_piece _ 0 _ _ Hn).
    + rewrite (flattened_value r 1 "last" _ eq_refl). f_equal.
      apply (eval_name_piece _ 1 _ _ Hn).
Qed.

(** X8.  The address is a JSON text inside the JSON text: when the
    [address] member of the personal detail is itself the text of a JSON
    object, [street], [city], [state] and [zip] of the final row hold the
    strings of its members. *)
Theorem final_address_of_nested_json {E : Engine} (df out : DataFrame)
        (i : nat) (r : Row) (s a : string)
        (members amembers : list (string * option string)) :
  pipeline df = Ok out ->
  nth_error (rows df) i = Some r ->
  lookup "personal_detail" r = Some (Str s) ->
  read_json s = JsonObject members ->
  member_value members "address" = Str a ->
  read_json a = JsonObject amembers ->
  exists r',
    nth_error (rows out) i = Some r'
    /\ forall f, In f (fieldNames address_schema) ->
         lookup f r' = Some (member_value amembers f).
Proof.
  intros H Hr Hs Hm Ha Hra. exists (chain_row notebook_calls r).
  split; [apply (final_row _ _ _ _ H Hr)|].
  pose proof (nested_address_object r s a members amembers Hs Hm Ha Hra) as Haddr.
  intros f Hf. cbn [fieldNames address_schema map fst StructField In] in Hf.
  destruct Hf as [<-|[<-|[<-|[<-|[]]]]].
  - rewrite (flattened_value r 4 "street" _ eq_refl). f_equal.
    rewrite (address_field r "address_json.street" "street" eq_refl).
    rewrite Haddr. now apply (record_field _ address_schema _ StringType).
  - rewrite (flattened_value r 5 "city" _ eq_refl). f_equal.
    rewrite (address_field r "address_json.city" "city" eq_refl).
    rewrite Haddr. now apply (record_field _ address_schema _ StringType).
  - rewrite (flattened_value r 6 "state" _ eq_refl). f_equal.
    rewrite (address_field r "address_json.state" "state" eq_refl).
    rewrite Haddr. now apply (record_field _ address_schema _ StringType).
  - rewrite (flattened_value r 7 "zip" _ eq_refl). f_equal.
    rewrite (address_field r "address_json.zip" "zip" eq_refl).
    rewrite Haddr. now apply (record_field _ address_schema _ StringType).
Qed.

(** X9.  Nulls go through: a flat column is null in the final row whenever
    the member it is filled from reads null in the parsed personal detail,
    be it that [personal_detail] is null, that its text is not a JSON
    object, or that the object has no string for the member.  No row is
    lost and nothing is raised for it. *)
Theorem null_member_gives_null_column {E : Engine} (df out : DataFrame)
        (i : nat) (r : Row) (n : string) :
  pipeline df = Ok out ->
  nth_error (rows df) i = Some r ->
  In n flattened_columns ->
  field_value [member_of n] (nested_personal r) = Null ->
  exists r', nth_error (rows out) i = Some r' /\ lookup n r' = Some Null.
Proof.
  intros H Hr Hn Hnull. exists (chain_row notebook_calls r).
  split; [apply (final_row _ _ _ _ H Hr)|].
  assert (Haddr : field_value ["address"] (nested_personal r) = Null ->
                  forall f, field_value [f] (nested_address r) = Null).
  { intros Ha f. rewrite nested_address_of, Ha. reflexivity. }
  unfold flattened_columns in Hn. cbn [In] in Hn.
  destruct Hn as [<-|[<-|[<-|[<-|[<-|[<-|[<-|[<-|[<-|[<-|[<-|[<-|[]]]]]]]]]]]]];
    match type of Hnull with
    | context [member_of ?column] =>
        let m := eval vm_compute in (member_of column) in
        change (member_of column) with m in Hnull
    end.
  - rewrite (flattened_value r 0 "first" _ eq_refl). f_equal.
    unfold getItem, split. cbn [eval].
    now rewrite (nested_field r "personal_detail_json.person_name" "person_name" eq_refl), Hnull.
  - rewrite (flattened_value r 1 "last" _ eq_refl). f_equal.
    unfold getItem, split. cbn [eval].
    now rewrite (nested_field r "personal_detail_json.person_name" "person_name" eq_refl), Hnull.
  - rewrite (flattened_value r 2 "gender" _ eq_refl). f_equal.
    now rewrite (nested_field r "personal_detail_json.gender" "gender" eq_refl).
  - rewrite (flattened_value r 3 "dob" _ eq_refl). f_equal.
    now rewrite (nested_field r "personal_detail_json.dob" "dob" eq_refl).
  - rewrite (flattened_value r 4 "street" _ eq_refl). f_equal.
    rewrite (address_field r "address_json.street" "street" eq_refl). now apply Haddr.
  - rewrite (flattened_value r 5 "city" _ eq_refl). f_equal.
    rewrite (address_field r "address_json.city" "city" eq_refl). now apply Haddr.
  - rewrite (flattened_value r 6 "state" _ eq_refl). f_equal.
    rewrite (address_field r "address_json.state" "state" eq_refl). now apply Haddr.
  - rewrite (flattened_value r 7 "zip" _ eq_refl). f_equal.
    rewrite (address_field r "address_json.zip" "zip" eq_refl). now apply Haddr.
  - rewrite (flattened_value r 8 "lat" _ eq_refl). f_equal.
    unfold cast. cbn [eval].
    now rewrite (nested_field r "personal_detail_json.lat" "lat" eq_refl), Hnull.
  - rewrite (flattened_value r 9 "long" _ eq_refl). f_equal.
    unfold cast. cbn [eval].
    now rewrite (nested_field r "personal_detail_json.long" "long" eq_refl), Hnull.
  - rewrite (flattened_value r 10 "city_pop" _ eq_refl). f_equal.
    unfold cast. cbn [eval].
    now rewrite (nested_field r "personal_detail_json.city_pop" "city_pop" eq_refl), Hnull.
  - rewrite (flattened_value r 11 "job" _ eq_refl). f_equal.
    now rewrite (nested_field r "personal_detail_json.job" "job" eq_refl).
Qed.

Lemma final_row_of_json_object_witness :
  pipeline Sample.df_raw = Ok Sample.df_final
  /\ nth_error (rows Sample.df_raw) 0 = Some Sample.row0
  /\ exists s members,
       lookup "personal_detail" Sample.row0 = Some (Str s)
       /\ read_json s = JsonObject members
       /\ member_value members "city_pop" = Str "10000"
       /\ member_value members "person_name" = Str "Doe,John"
       /\ exists r',
            nth_error (rows Sample.df_final) 0 = Some r'
            /\ lookup "gender" r' = Some (Str "M")
            /\ lookup "city_pop" r' = Some (Int 10000)
            /\ lookup "first" r' = Some (Str "Doe")
            /\ lookup "last" r' = Some (Str "John").
Proof.
  assert (H : pipeline Sample.df_raw = Ok Sample.df_final)
    by (vm_compute; reflexivity).
  assert (Hr : nth_error (rows Sample.df_raw) 0 = Some Sample.row0)
    by reflexivity.
  split; [exact H|]. split; [exact Hr|].
  eexists. eexists.
  split; [reflexivity|]. split; [vm_compute; reflexivity|].
  split; [vm_compute; reflexivity|]. split; [vm_compute; reflexivity|].
  destruct (final_row_of_json_object Sample.df_raw Sample.df_final 0 Sample.row0
              _ _ H Hr eq_refl eq_refl)
    as (r' & Hr' & Hgender & _ & _ & _ & _ & Hpop & Hname).
  exists r'. split; [exact Hr'|]. split; [exact Hgender|].
  split; [exact (Hpop "10000" eq_refl)|].
  exact (Hname "Doe,John" eq_refl).
Defined.

Lemma final_address_of_nested_json_witness :
  pipeline Sample.df_raw = Ok Sample.df_final
  /\ nth_error (rows Sample.df_raw) 0 = Some Sample.row0
  /\ exists s a members amembers,
       lookup "personal_detail" Sample.row0 = Some (Str s)
       /\ read_json s = JsonObject members
       /\ member_value members "address" = Str a
       /\ read_json a = JsonObject amembers
       /\ exists r',
            nth_error (rows Sample.df_final) 0 = Some r'
            /\ lookup "street" r' = Some (Str "1 Main St")
            /\ lookup "zip" r' = Some (Str "50000").
Proof.
  assert (H : pipeline Sample.df_raw = Ok Sample.df_final)
    by (vm_compute; reflexivity).
  assert (Hr : nth_error (rows Sample.df_raw) 0 = Some Sample.row0)
    by reflexivity.
  split; [exact H|]. split; [exact Hr|].
  eexists. eexists. eexists. eexists.
  split; [reflexivity|]. split; [vm_compute; reflexivity|].
  split; [vm_compute; reflexivity|]. split; [vm_compute; reflexivity|].
  destruct (final_address_of_nested_json Sample.df_raw Sample.df_final 0
              Sample.row0 _ _ _ _ H Hr eq_refl eq_refl eq_refl eq_refl)
    as (r' & Hr' & Hall).
  exists r'. split; [exact Hr'|]. split.
  - apply (Hall "street"). cbn. tauto.
  - apply (Hall "zip"). cbn. tauto.
Defined.

Lemma null_member_gives_null_column_witness :
  pipeline Sample.df_raw = Ok Sample.df_final
  /\ nth_error (rows Sample.df_raw) 2 = Some Sample.row2
  /\ In "street" flattened_columns
  /\ field_value [member_of "street"] (nested_personal Sample.row2) = Null
  /\ exists r',
       nth_error (rows Sample.df_final) 2 = Some r'
       /\ lookup "street" r' = Some Null.
Proof.
  assert (H : pipeline Sample.df_raw = Ok Sample.df_final)
    by (vm_compute; reflexivity).
  assert (Hr : nth_error (rows Sample.df_raw) 2 = Some Sample.row2)
    by reflexivity.
  assert (Hn : In "street" flattened_columns) by (cbn; tauto).
  assert (Hnull : field_value [member_of "street"] (nested_personal Sample.row2)
                  = Null) by (vm_compute; reflexivity).
  split; [exact H|]. split; [exact Hr|]. split; [exact Hn|].
  split; [exact Hnull|].
  exact (null_member_gives_null_column Sample.df_raw Sample.df_final 2
           Sample.row2 "street" H Hr Hn Hnull).
Defined.

(** ** The pieces of a name *)

Section SplitFacts.
Variable delim : ascii -> bool.

Lemma split_on_pieces (s : string) :
  Forall (fun p => forallb (fun c => negb (delim c)) (list_ascii_of_string p) = true)
         (split_on delim s).
Proof.
  induction s as [|c s IH]; cbn [split_on].
  - now repeat constructor.
  - destruct (delim c) eqn:Hc.
    + constructor; [reflexivity | exact IH].
    + destruct (split_on delim s) as [|piece pieces].
      * constructor; [|constructor]. cbn. now rewrite Hc.
      * inversion IH as [|? ? Hp Hps]. subst. constructor; [|exact Hps].
        cbn [list_ascii_of_string forallb]. now rewrite Hc, Hp.
Qed.

Lemma split_on_length (s : string) :
  List.length (split_on delim s) = S (delimiters delim s).
Proof.
  induction s as [|c s IH]; cbn [split_on delimiters]; [reflexivity|].
  destruct (delim c).
  - cbn [List.length]. now rewrite IH.
  - destruct (split_on delim s) as [|piece pieces]; [discriminate IH|].
    cbn [List.length] in *. exact IH.
Qed.

Lemma delimiters_none (s : string) :
  delimiters delim s = 0
  <-> forallb (fun c => negb (delim c)) (list_ascii_of_string s) = true.
Proof.
  induction s as [|c s IH]; cbn [delimiters list_ascii_of_string forallb];
    [tauto|].
  destruct (delim c); cbn [negb andb]; [split; [lia | discriminate]|].
  exact IH.
Qed.
End SplitFacts.

Lemma split_on_trailing (delim : ascii -> bool) (body : string) (c : ascii) :
  forallb (fun a => negb (delim a)) (list_ascii_of_string body) = true ->
  delim c = true ->
  split_on delim (body ++ String c EmptyString) = [body; EmptyString].
Proof.
  intros Hbody Hc. induction body as [|a body IH]; cbn [String.append split_on].
  - now rewrite Hc.
  - cbn [list_ascii_of_string forallb] in Hbody.
    apply andb_true_iff in Hbody as [Ha Hbody]. apply negb_true_iff in Ha.
    now rewrite Ha, (IH Hbody).
Qed.

Lemma at_rest_lookup (r : Row) (n : string) (v : Value) :
  at_rest r -> lookup n r = Some v -> raised v = None.
Proof.
  unfold at_rest. induction r as [|[k x] r IH]; cbn [lookup map snd first_error];
    [discriminate|].
  destruct (raised x) eqn:Hx; [discriminate|]. intros Hr.
  destruct (name_eqb k n); [intros H; injection H as <-; exact Hx | now apply IH].
Qed.

Section FinalRows.
Context {E : Engine}.

Lemma final_row_inv (df out : DataFrame) (i : nat) (r' : Row) :
  pipeline df = Ok out ->
  nth_error (rows out) i = Some r' ->
  exists r, nth_error (rows df) i = Some r /\ r' = chain_row notebook_calls r.
Proof.
  intros H Hr'. rewrite pipeline_chain in H. rewrite (chain_rows _ _ _ H) in Hr'.
  rewrite nth_error_map in Hr'.
  destruct (nth_error (rows df) i) as [r|]; [|discriminate].
  exists r. split; [reflexivity|]. cbn [option_map] in Hr'. congruence.
Qed.

Lemma name_piece_value (c : Column) (k : nat) (r : Row) :
  eval (getItem (split c "[,@/]") (Z.of_nat k)) r
  = match eval c r with
    | Str name =>
        match nth_error (split_on name_delimiter name) k with
        | Some p => Str p
        | None => missing INVALID_ARRAY_INDEX
        end
    | Raise e => Raise e
    | _ => Null
    end.
Proof.
  destruct (eval c r) as [|name| | | | | | | |] eqn:Hc;
    try (unfold getItem, split; cbn [eval]; rewrite Hc; reflexivity).
  rewrite (eval_name_piece c (Z.of_nat k) r name Hc). apply item_piece.
Qed.

(** A field of a decoded record is null or a string. *)
Lemma decoded_field (g : string * DataType -> Value) (fields : Schema)
      (f : string) :
  (forall k, g k = Null \/ exists s, g k = Str s) ->
  field_value [f] (Struct (map (fun k => (fst k, g k)) fields)) = Null
  \/ exists s,
       field_value [f] (Struct (map (fun k => (fst k, g k)) fields)) = Str s.
Proof.
  intros Hg. cbn [field_value].
  induction fields as [|k fields IH]; cbn [map lookup fst]; [now left|].
  destruct (name_eqb (fst k) f); [apply Hg | exact IH].
Qed.

Lemma decoded_member (c : Column) (fields : Schema) (r : Row) (f : string) :
  raised (eval c r) = None ->
  field_value [f] (eval (from_json c fields) r) = Null
  \/ exists s, field_value [f] (eval (from_json c fields) r) = Str s.
Proof.
  intros Hc. unfold from_json. cbn [eval].
  destruct (eval c r) as [|s| | | | | | | |]; try (now left); try discriminate.
  destruct (read_json s) as [| |members]; [now left| |].
  - apply (decoded_field (fun _ => Null)). now left.
  - apply (decoded_field (fun k => snd (string_field members k))).
    intros k. unfold string_field. cbn [snd].
    destruct (member (fst k) (rev members)) as [[s'|]|]; eauto.
Qed.

Lemma raw_personal_detail (r : Row) :
  at_rest r -> raised (eval (col "personal_detail") r) = None.
Proof.
  intros Hr.
  change (eval (col "personal_detail") r)
    with (match lookup "personal_detail" r with Some v => v | None => Null end).
  destruct (lookup "personal_detail" r) as [v|] eqn:Hv; [|reflexivity].
  apply (at_rest_lookup r _ _ Hr Hv).
Qed.

(** A member of the personal detail of a row of data is null or a string. *)
Lemma personal_member_cases (r : Row) (f : string) :
  at_rest r ->
  field_value [f] (nested_personal r) = Null
  \/ exists s, field_value [f] (nested_personal r) = Str s.
Proof.
  intros Hr. apply decoded_member. now apply raw_personal_detail.
Qed.

Lemma address_member_cases (r : Row) (f : string) :
  at_rest r ->
  field_value [f] (nested_address r) = Null
  \/ exists s, field_value [f] (nested_address r) = Str s.
Proof.
  intros Hr. apply decoded_member.
  change (eval (col "personal_detail_json.address")
            [("personal_detail_json", nested_personal r)])
    with (field_value ["address"] (nested_personal r)).
  destruct (personal_member_cases r "address" Hr) as [-> | (s & ->)]; reflexivity.
Qed.
End FinalRows.

(** X10.  In every row of the final frame of a frame of data, [first] and
    [last] are free of the three name delimiters: each is null or a string
    without [,], [@] and [/].  The one other outcome is that of a name with
    no second piece when [spark.sql.ansi.enabled] is on: the cell of [last]
    raises INVALID_ARRAY_INDEX. *)
Theorem name_pieces_hold_no_delimiter {E : Engine} (df out : DataFrame)
        (i : nat) (r' : Row) (n : string) :
  pipeline df = Ok out ->
  Forall at_rest (rows df) ->
  nth_error (rows out) i = Some r' ->
  In n ["first"; "last"] ->
  lookup n r' = Some Null
  \/ (ansi_enabled = true /\ n = "last"
      /\ lookup n r' = Some (Raise INVALID_ARRAY_INDEX))
  \/ exists p,
       lookup n r' = Some (Str p)
       /\ forallb (fun c => negb (name_delimiter c)) (list_ascii_of_string p) = true.
Proof.
  intros H Hdata Hr' Hn. destruct (final_row_inv _ _ _ _ H Hr') as (r & Hr & ->).
  assert (Hrest : at_rest r).
  { rewrite Forall_forall in Hdata. apply Hdata. apply (nth_error_In _ _ Hr). }
  assert (Hfree : forall k p,
            forall name, nth_error (split_on name_delimiter name) k = Some p ->
            forallb (fun c => negb (name_delimiter c)) (list_ascii_of_string p)
            = true).
  { intros k p name Hp.
    pose proof (split_on_pieces name_delimiter name) as Hall.
    rewrite Forall_forall in Hall. apply Hall. apply (nth_error_In _ _ Hp). }
  pose proof (nested_field r "personal_detail_json.person_name" "person_name"
                eq_refl) as Hname.
  cbn [In] in Hn. destruct Hn as [<-|[<-|[]]].
  - rewrite (flattened_value r 0 "first" _ eq_refl).
    change 0%Z with (Z.of_nat 0). rewrite name_piece_value, Hname.
    destruct (personal_member_cases r "person_name" Hrest) as [-> | (name & ->)];
      [now left|].
    pose proof (split_on_nonempty name_delimiter name) as Hne.
    destruct (split_on name_delimiter name) as [|p pieces] eqn:Hs;
      [contradiction|].
    right. right. exists p. split; [reflexivity|].
    apply (Hfree 0 p name). now rewrite Hs.
  - rewrite (flattened_value r 1 "last" _ eq_refl).
    change 1%Z with (Z.of_nat 1). rewrite name_piece_value, Hname.
    destruct (personal_member_cases r "person_name" Hrest) as [-> | (name & ->)];
      [now left|].
    destruct (nth_error (split_on name_delimiter name) 1) as [p|] eqn:Hp.
    + right. right. exists p. split; [reflexivity|]. apply (Hfree 1 p name Hp).
    + unfold missing. destruct ansi_enabled; [|now left].
      right. left. auto.
Qed.

Lemma name_pieces_hold_no_delimiter_witness :
  pipeline Sample.df_raw = Ok Sample.df_final
  /\ Forall at_rest (rows Sample.df_raw)
  /\ nth_error (rows Sample.df_final) 0 = Some (nth 0 (rows Sample.df_final) [])
  /\ In "last" ["first"; "last"]
  /\ (lookup "last" (nth 0 (rows Sample.df_final) []) = Some Null
      \/ (ansi_enabled = true /\ "last" = "last"
          /\ lookup "last" (nth 0 (rows Sample.df_final) [])
             = Some (Raise INVALID_ARRAY_INDEX))
      \/ exists p,
           lookup "last" (nth 0 (rows Sample.df_final) []) = Some (Str p)
           /\ forallb (fun c => negb (name_delimiter c))
                (list_ascii_of_string p) = true).
Proof.
  assert (H : pipeline Sample.df_raw = Ok Sample.df_final)
    by (vm_compute; reflexivity).
  assert (Hdata : Forall at_rest (rows Sample.df_raw))
    by (repeat constructor).
  assert (Hr : nth_error (rows Sample.df_final) 0
               = Some (nth 0 (rows Sample.df_final) [])) by reflexivity.
  assert (Hn : In "last" ["first"; "last"]) by (cbn; tauto).
  split; [exact H|]. split; [exact Hdata|]. split; [exact Hr|]. split; [exact Hn|].
  exact (name_pieces_hold_no_delimiter Sample.df_raw Sample.df_final 0 _ "last"
           H Hdata Hr Hn).
Defined.

(** X11.  When the parsed personal detail has a string for [person_name],
    [first] is a string, never null: the piece before the first delimiter,
    which is the empty string for a name that starts with a delimiter.  A
    name with a delimiter has a string for [last], the empty string when it
    ends in its only delimiter.  A name without a delimiter has no second
    piece: [last] is null when [spark.sql.ansi.enabled] is off, and its cell
    raises INVALID_ARRAY_INDEX when it is on; so [last] is null exactly
    when the name holds no delimiter and the flag is off. *)
Theorem last_is_null_without_delimiter {E : Engine} (df out : DataFrame)
        (i : nat) (r : Row) (name : string) :
  pipeline df = Ok out ->
  nth_error (rows df) i = Some r ->
  field_value ["person_name"] (nested_personal r) = Str name ->
  exists r',
    nth_error (rows out) i = Some r'
    /\ (exists p, lookup "first" r' = Some (Str p))
    /\ (forall c rest, name = String c rest -> name_delimiter c = true ->
          lookup "first" r' = Some (Str EmptyString))
    /\ (delimiters name_delimiter name = 0 ->
        lookup "last" r'
        = Some (if ansi_enabled then Raise INVALID_ARRAY_INDEX else Null))
    /\ (lookup "last" r' = Some Null
        <-> delimiters name_delimiter name = 0 /\ ansi_enabled = false)
    /\ (delimiters name_delimiter name <> 0 ->
        exists p, lookup "last" r' = Some (Str p))
    /\ (forall body c, name = (body ++ String c EmptyString)%string ->
          delimiters name_delimiter body = 0 -> name_delimiter c = true ->
          lookup "last" r' = Some (Str EmptyString)).
Proof.
  intros H Hr Hname. exists (chain_row notebook_calls r).
  split; [apply (final_row _ _ _ _ H Hr)|].
  assert (Hn : eval (col "personal_detail_json.person_name") (nested_row r)
               = Str name).
  { now rewrite (nested_field r "personal_detail_json.person_name" "person_name"
                   eq_refl). }
  rewrite (flattened_value r 0 "first" _ eq_refl).
  rewrite (flattened_value r 1 "last" _ eq_refl).
  change 0%Z with (Z.of_nat 0). change 1%Z with (Z.of_nat 1).
  rewrite (name_piece_value _ 0), (name_piece_value _ 1), Hn.
  pose proof (split_on_length name_delimiter name) as Hlen.
  destruct (split_on name_delimiter name) as [|p pieces] eqn:Hs;
    [discriminate Hlen|].
  cbn [nth_error List.length] in *.
  split; [eexists; reflexivity|].
  split.
  { intros c rest -> Hc. cbn [split_on] in Hs. rewrite Hc in Hs.
    injection Hs as <- _. reflexivity. }
  destruct pieces as [|q pieces]; cbn [nth_error List.length] in *.
  - assert (Hd : delimiters name_delimiter name = 0) by lia.
    split; [intros _; reflexivity|].
    split.
    { unfold missing. destruct ansi_enabled; split; intros H0;
        try discriminate H0; try (split; [exact Hd | reflexivity]);
        try reflexivity.
      destruct H0 as [_ H0]. discriminate H0. }
    split; [intros Hd'; contradiction|].
    intros body c -> Hbody Hc.
    rewrite (split_on_trailing name_delimiter body c) in Hs;
      [discriminate Hs | now apply delimiters_none | exact Hc].
  - assert (Hd : delimiters name_delimiter name <> 0) by lia.
    split; [intros Hd'; contradiction|].
    split; [split; [discriminate | intros [Hd' _]; contradiction]|].
    split; [intros _; eexists; reflexivity|].
    intros body c -> Hbody Hc.
    rewrite (split_on_trailing name_delimiter body c) in Hs;
      [| now apply delimiters_none | exact Hc].
    injection Hs as _ <- _. reflexivity.
Qed.

Lemma last_is_null_without_delimiter_witness :
  pipeline Sample.df_raw = Ok Sample.df_final
  /\ nth_error (rows Sample.df_raw) 1 = Some Sample.row1
  /\ field_value ["person_name"] (nested_personal Sample.row1) = Str "OnlyOneName"
  /\ delimiters name_delimiter "OnlyOneName" = 0
  /\ exists r',
       nth_error (rows Sample.df_final) 1 = Some r'
       /\ (exists p, lookup "first" r' = Some (Str p))
       /\ lookup "last" r' = Some Null.
Proof.
  assert (H : pipeline Sample.df_raw = Ok Sample.df_final)
    by (vm_compute; reflexivity).
  assert (Hr : nth_error (rows Sample.df_raw) 1 = Some Sample.row1)
    by reflexivity.
  assert (Hname : field_value ["person_name"] (nested_personal Sample.row1)
                  = Str "OnlyOneName") by (vm_compute; reflexivity).
  assert (Hd : delimiters name_delimiter "OnlyOneName" = 0) by reflexivity.
  split; [exact H|]. split; [exact Hr|]. split; [exact Hname|]. split; [exact Hd|].
  destruct (last_is_null_without_delimiter Sample.df_raw Sample.df_final 1
              Sample.row1 "OnlyOneName" H Hr Hname)
    as (r' & Hr' & Hfirst & _ & Hlast & _).
  exists r'. split; [exact Hr'|]. split; [exact Hfirst | exact (Hlast Hd)].
Defined.

(** ** What the written columns hold, whatever the raw values *)

Section Always.
Context {E : Engine}.
Implicit Types (c : Column) (r : Row).

Lemma always_from_json c (fields : Schema) r :
  forallb (fun f => is_string (snd f)) fields = true ->
  has_type (StructType fields) (eval (from_json c fields) r).
Proof.
  intros Hall. unfold from_json. cbn [eval].
  destruct (eval c r); try apply type_null; [|apply type_raise].
  destruct (read_json s) as [| |members]; [apply type_null| |].
  - apply type_struct. intros n t Hn. unfold all_null.
    apply (lookup_string_fields (fun _ => Null)); auto.
  - apply type_struct. intros n t Hn.
    apply (lookup_string_fields (fun f => snd (string_field members f))); auto.
    intros f. unfold string_field. simpl.
    destruct (member (fst f) (rev members)) as [[s'|]|]; eauto.
Qed.

Lemma always_name_piece c (k : nat) r :
  has_type StringType (eval (getItem (split c "[,@/]") (Z.of_nat k)) r).
Proof.
  rewrite name_piece_value.
  destruct (eval c r); try apply type_null; [|apply type_raise].
  destruct (nth_error _ _); [constructor | apply missing_typed].
Qed.

Lemma always_cast_double c r : has_type DoubleType (eval (cast c "double") r).
Proof.
  unfold cast. cbn [eval].
  destruct (eval c r); try apply type_null; [|apply type_raise].
  change (type_of_name "double") with (Some DoubleType). cbn iota.
  unfold string_to_double_value.
  destruct (string_to_double s); [constructor | apply missing_typed].
Qed.

Lemma always_cast_int c r : has_type IntegerType (eval (cast c "int") r).
Proof.
  unfold cast. cbn [eval].
  destruct (eval c r); try apply type_null; [|apply type_raise].
  change (type_of_name "int") with (Some IntegerType). cbn iota.
  unfold string_to_int_value.
  destruct (read_int s) as [n|] eqn:Hn; [|apply missing_typed].
  apply type_int. apply (read_int_bounds _ _ Hn).
Qed.

Lemma always_to_timestamp c r : has_type TimestampType (eval (to_timestamp c) r).
Proof.
  unfold to_timestamp. cbn [eval].
  destruct (eval c r); try apply type_null; [|apply type_raise].
  unfold string_to_timestamp_value.
  destruct (string_to_timestamp s) as [micros|]; [|apply missing_typed].
  destruct (Numeric.fits_long micros) eqn:Hfits; [|apply missing_typed].
  apply type_timestamp, fits_long_range, Hfits.
Qed.

Lemma shift_typed (micros offset : Z) : has_type TimestampType (shift micros offset).
Proof.
  unfold shift. destruct (Numeric.fits_long _) eqn:Hfits; [|apply type_raise].
  apply type_timestamp, fits_long_range, Hfits.
Qed.

Lemma always_from_utc_timestamp c (tz : string) r :
  has_type TimestampType (eval (from_utc_timestamp c tz) r).
Proof.
  unfold from_utc_timestamp. cbn [eval].
  destruct (eval c r); try apply type_null;
    destruct (zone_rules tz); try constructor.
  apply shift_typed.
Qed.

Lemma always_sha2 c r : has_type StringType (eval (sha2 c 256) r).
Proof.
  unfold sha2. cbn [eval]. destruct (eval c r); try apply type_null;
    cbn; constructor.
Qed.

Lemma nested_personal_typed r :
  has_type (StructType personal_schema) (nested_personal r).
Proof. now apply always_from_json. Qed.

Lemma nested_address_typed r :
  has_type (StructType address_schema) (nested_address r).
Proof. now apply always_from_json. Qed.

(** *** What raises

    With [spark.sql.ansi.enabled] off, an expression of the notebook raises
    only where its input raises or where an instant moved by the zone's
    offset leaves the 64-bit range. *)

Lemma missing_quiet (e : SparkError) :
  ansi_enabled = false -> raised (missing e) = None.
Proof. unfold missing. now intros ->. Qed.

Lemma quiet_name_piece c (k : nat) r :
  ansi_enabled = false -> raised (eval c r) = None ->
  raised (eval (getItem (split c "[,@/]") (Z.of_nat k)) r) = None.
Proof.
  intros Hansi Hc. rewrite name_piece_value.
  destruct (eval c r); try reflexivity; [|discriminate].
  destruct (nth_error _ _); [reflexivity | now apply missing_quiet].
Qed.

Lemma double_to_timestamp_quiet (d : spec_float) :
  ansi_enabled = false -> raised (double_to_timestamp d) = None.
Proof.
  intros Hansi. unfold double_to_timestamp. rewrite Hansi.
  destruct d; try reflexivity; now apply missing_quiet.
Qed.

Lemma quiet_cast c (typeName : string) r :
  ansi_enabled = false -> raised (eval c r) = None ->
  raised (eval (cast c typeName) r) = None.
Proof.
  intros Hansi Hc. unfold cast. cbn [eval].
  destruct (eval c r); try discriminate;
    destruct (type_of_name typeName) as [[]|]; try reflexivity.
  - unfold string_to_int_value.
    destruct (read_int s); [reflexivity | now apply missing_quiet].
  - unfold string_to_double_value.
    destruct (string_to_double s); [reflexivity | now apply missing_quiet].
  - now apply double_to_timestamp_quiet.
Qed.

Lemma quiet_divide c (n : Z) r :
  ansi_enabled = false -> raised (eval c r) = None ->
  raised (eval (divide c n) r) = None.
Proof.
  intros Hansi Hc. unfold divide. cbn [eval].
  assert (H : forall v,
             raised match to_double v with
                    | Some d => if (n =? 0)%Z then missing DIVIDE_BY_ZERO
                                else Double (Numeric.double_div d (Numeric.double_of_Z n))
                    | None => Null
                    end = None).
  { intros v. destruct (to_double v); [|reflexivity].
    destruct (n =? 0)%Z; [now apply missing_quiet | reflexivity]. }
  destruct (eval c r); try apply H. discriminate.
Qed.

Lemma quiet_to_timestamp c r :
  ansi_enabled = false -> raised (eval c r) = None ->
  raised (eval (to_timestamp c) r) = None.
Proof.
  intros Hansi Hc. unfold to_timestamp. cbn [eval].
  destruct (eval c r); try reflexivity; [|discriminate].
  unfold string_to_timestamp_value.
  destruct (string_to_timestamp s) as [micros|]; [|now apply missing_quiet].
  destruct (Numeric.fits_long micros); [reflexivity | now apply missing_quiet].
Qed.

Lemma quiet_sha2 c r :
  raised (eval c r) = None -> raised (eval (sha2 c 256) r) = None.
Proof.
  intros Hc. unfold sha2. cbn [eval].
  destruct (eval c r); try reflexivity. discriminate.
Qed.

Lemma overflow_from_utc_timestamp c (tz : string) r :
  raised (eval c r) = None ->
  raised (eval (from_utc_timestamp c tz) r) = None
  \/ raised (eval (from_utc_timestamp c tz) r) = Some ARITHMETIC_OVERFLOW.
Proof.
  intros Hc. unfold from_utc_timestamp. cbn [eval].
  destruct (eval c r); try discriminate;
    destruct (zone_rules tz); try (left; reflexivity).
  unfold shift. destruct (Numeric.fits_long _); [left | right]; reflexivity.
Qed.

Lemma raw_col_quiet (name : string) r :
  split_on (Ascii.eqb ".") name = [name] ->
  at_rest r -> raised (eval (col name) r) = None.
Proof.
  intros Hn Hr. unfold col. rewrite Hn. cbn [eval field_value].
  destruct (lookup name r) as [v|] eqn:Hv; [|reflexivity].
  apply (at_rest_lookup r _ _ Hr Hv).
Qed.

Lemma member_quiet (v : Value) :
  (v = Null \/ exists s, v = Str s) -> raised v = None.
Proof. intros [-> | (s & ->)]; reflexivity. Qed.

Lemma quiet_epoch (colname : string) (calls : list Call) r :
  split_on (Ascii.eqb ".") colname = [colname] ->
  mentions (touched calls) colname = false ->
  ansi_enabled = false -> at_rest r ->
  raised (eval (convert_epoch_microseconds colname) (chain_row calls r)) = None
  \/ raised (eval (convert_epoch_microseconds colname) (chain_row calls r))
     = Some ARITHMETIC_OVERFLOW.
Proof.
  intros Hn Hm Hansi Hr. unfold convert_epoch_microseconds.
  apply overflow_from_utc_timestamp.
  apply (quiet_cast _ _ _ Hansi), (quiet_divide _ _ _ Hansi).
  rewrite eval_col_chain by (rewrite Hn; exact Hm).
  now apply raw_col_quiet.
Qed.

(** The written columns of a final row: a value of the column's type, and,
    for a row of data with the flag off, no error but the overflow of the
    two epoch columns. *)
Lemma written_values (r : Row) :
  Forall (fun f =>
            exists v, lookup (fst f) (chain_row notebook_calls r) = Some v
                      /\ has_type (snd f) v
                      /\ (at_rest r -> ansi_enabled = false ->
                          raised v = None
                          \/ (In (fst f) ["merch_last_update_time"; "merch_eff_time"]
                              /\ raised v = Some ARITHMETIC_OVERFLOW)))
         written_schema.
Proof.
  pose proof (nested_personal_typed r) as Hp.
  pose proof (nested_address_typed r) as Ha.
  assert (Hpm : forall name field,
            split_on (Ascii.eqb ".") name = ["personal_detail_json"; field] ->
            at_rest r -> raised (eval (col name) (nested_row r)) = None).
  { intros name field Hn Hr. rewrite (nested_field r name field Hn).
    apply member_quiet, (personal_member_cases r field Hr). }
  assert (Ham : forall name field,
            split_on (Ascii.eqb ".") name = ["address_json"; field] ->
            at_rest r -> raised (eval (col name) (nested_row r)) = None).
  { intros name field Hn Hr. rewrite (address_field r name field Hn).
    apply member_quiet, (address_member_cases r field Hr). }
  unfold written_schema.
  repeat apply Forall_cons; [..|apply Forall_nil]; cbn [fst snd]; eexists.
  - split; [apply (flattened_value r 0 "first" _ eq_refl)|].
    split; [apply (always_name_piece _ 0)|]. intros Hr Hansi. left.
    apply (quiet_name_piece _ 0 _ Hansi), (Hpm "personal_detail_json.person_name" "person_name" eq_refl Hr).
  - split; [apply (flattened_value r 1 "last" _ eq_refl)|].
    split; [apply (always_name_piece _ 1)|]. intros Hr Hansi. left.
    apply (quiet_name_piece _ 1 _ Hansi), (Hpm "personal_detail_json.person_name" "person_name" eq_refl Hr).
  - split; [apply (flattened_value r 2 "gender" _ eq_refl)|].
    split; [|intros Hr _; left; apply (Hpm "personal_detail_json.gender" "gender" eq_refl Hr)].
    rewrite (nested_field r "personal_detail_json.gender" "gender" eq_refl).
    now apply (field_value_typed _ _ _ _ Hp).
  - split; [apply (flattened_value r 3 "dob" _ eq_refl)|].
    split; [|intros Hr _; left; apply (Hpm "personal_detail_json.dob" "dob" eq_refl Hr)].
    rewrite (nested_field r "personal_detail_json.dob" "dob" eq_refl).
    now apply (field_value_typed _ _ _ _ Hp).
  - split; [apply (flattened_value r 4 "street" _ eq_refl)|].
    split; [|intros Hr _; left; apply (Ham "address_json.street" "street" eq_refl Hr)].
    rewrite (address_field r "address_json.street" "street" eq_refl).
    now apply (field_value_typed _ _ _ _ Ha).
  - split; [apply (flattened_value r 5 "city" _ eq_refl)|].
    split; [|intros Hr _; left; apply (Ham "address_json.city" "city" eq_refl Hr)].
    rewrite (address_field r "address_json.city" "city" eq_refl).
    now apply (field_value_typed _ _ _ _ Ha).
  - split; [apply (flattened_value r 6 "state" _ eq_refl)|].
    split; [|intros Hr _; left; apply (Ham "address_json.state" "state" eq_refl Hr)].
    rewrite (address_field r "address_json.state" "state" eq_refl).
    now apply (field_value_typed _ _ _ _ Ha).
  - split; [apply (flattened_value r 7 "zip" _ eq_refl)|].
    split; [|intros Hr _; left; apply (Ham "address_json.zip" "zip" eq_refl Hr)].
    rewrite (address_field r "address_json.zip" "zip" eq_refl).
    now apply (field_value_typed _ _ _ _ Ha).
  - split; [apply (flattened_value r 8 "lat" _ eq_refl)|].
    split; [apply always_cast_double|]. intros Hr Hansi. left.
    apply (quiet_cast _ _ _ Hansi), (Hpm "personal_detail_json.lat" "lat" eq_refl Hr).
  - split; [apply (flattened_value r 9 "long" _ eq_refl)|].
    split; [apply always_cast_double|]. intros Hr Hansi. left.
    apply (quiet_cast _ _ _ Hansi), (Hpm "personal_detail_json.long" "long" eq_refl Hr).
  - split; [apply (flattened_value r 10 "city_pop" _ eq_refl)|].
    split; [apply always_cast_int|]. intros Hr Hansi. left.
    apply (quiet_cast _ _ _ Hansi), (Hpm "personal_detail_json.city_pop" "city_pop" eq_refl Hr).
  - split; [apply (flattened_value r 11 "job" _ eq_refl)|].
    split; [|intros Hr _; left; apply (Hpm "personal_detail_json.job" "job" eq_refl Hr)].
    rewrite (nested_field r "personal_detail_json.job" "job" eq_refl).
    now apply (field_value_typed _ _ _ _ Hp).
  - split; [apply (chain_row_written notebook_calls 19 "cc_num_masked" _ r
                     eq_refl eq_refl)|].
    split; [apply always_sha2|]. intros Hr _. left. apply quiet_sha2.
    rewrite (eval_col_chain "cc_num") by reflexivity.
    now apply raw_col_quiet.
  - split; [apply (chain_row_written notebook_calls 16 "trans_date_trans_time" _ r
                     eq_refl eq_refl)|].
    split; [apply always_to_timestamp|]. intros Hr Hansi. left.
    apply (quiet_to_timestamp _ _ Hansi).
    rewrite (eval_col_chain "trans_date_trans_time") by reflexivity.
    now apply raw_col_quiet.
  - split; [apply (chain_row_written notebook_calls 17 "merch_last_update_time" _ r
                     eq_refl eq_refl)|].
    split; [apply always_from_utc_timestamp|]. intros Hr Hansi.
    destruct (quiet_epoch "merch_last_update_time" (firstn 17 notebook_calls) r
                eq_refl eq_refl Hansi Hr) as [Hq | Hq];
      [left; exact Hq | right; split; [left; reflexivity | exact Hq]].
  - split; [apply (chain_row_written notebook_calls 18 "merch_eff_time" _ r
                     eq_refl eq_refl)|].
    split; [apply always_from_utc_timestamp|]. intros Hr Hansi.
    destruct (quiet_epoch "merch_eff_time" (firstn 18 notebook_calls) r
                eq_refl eq_refl Hansi Hr) as [Hq | Hq];
      [left; exact Hq | right; split; [right; left; reflexivity | exact Hq]].
Qed.
End Always.

(** X12.  Whatever the raw rows hold, every row of the final frame has, in
    each column the notebook writes, null, a value of the column's type or
    the error of an expression that raises: strings in the flat text
    columns and the digest, doubles in [lat] and [long], an integer of 32
    bits in [city_pop], timestamps of 64 bits in the three time columns.
    On a frame of data with [spark.sql.ansi.enabled] off, the one error a
    written column can hold is the overflow of an epoch column moved past
    the 64-bit range. *)
Theorem written_columns_hold_their_types {E : Engine} (df out : DataFrame)
        (i : nat) (r' : Row) (n : string) (t : DataType) :
  pipeline df = Ok out ->
  nth_error (rows out) i = Some r' ->
  In (n, t) written_schema ->
  exists v,
    lookup n r' = Some v
    /\ has_type t v
    /\ (Forall at_rest (rows df) -> ansi_enabled = false ->
        raised v = None
        \/ (In n ["merch_last_update_time"; "merch_eff_time"]
            /\ raised v = Some ARITHMETIC_OVERFLOW)).
Proof.
  intros H Hr' Hn. destruct (final_row_inv _ _ _ _ H Hr') as (r & Hr & ->).
  pose proof (written_values r) as Hall. rewrite Forall_forall in Hall.
  destruct (Hall _ Hn) as (v & Hv & Ht & Hq). cbn [fst snd] in *.
  exists v. split; [exact Hv|]. split; [exact Ht|].
  intros Hdata. apply Hq.
  rewrite Forall_forall in Hdata. apply Hdata, (nth_error_In _ _ Hr).
Qed.

Lemma written_columns_hold_their_types_witness :
  pipeline Sample.df_raw = Ok Sample.df_final
  /\ nth_error (rows Sample.df_final) 1 = Some (nth 1 (rows Sample.df_final) [])
  /\ In ("city_pop", IntegerType) written_schema
  /\ Forall at_rest (rows Sample.df_raw)
  /\ ansi_enabled = false
  /\ exists v, lookup "city_pop" (nth 1 (rows Sample.df_final) []) = Some v
               /\ has_type IntegerType v
               /\ raised v = None.
Proof.
  assert (H : pipeline Sample.df_raw = Ok Sample.df_final)
    by (vm_compute; reflexivity).
  assert (Hr : nth_error (rows Sample.df_final) 1
               = Some (nth 1 (rows Sample.df_final) [])) by reflexivity.
  assert (Hn : In ("city_pop", IntegerType) written_schema)
    by (do 10 right; left; reflexivity).
  assert (Hdata : Forall at_rest (rows Sample.df_raw)) by (repeat constructor).
  assert (Hansi : ansi_enabled = false) by reflexivity.
  split; [exact H|]. split; [exact Hr|]. split; [exact Hn|].
  split; [exact Hdata|]. split; [exact Hansi|].
  destruct (written_columns_hold_their_types Sample.df_raw Sample.df_final 1 _
              "city_pop" IntegerType H Hr Hn) as (v & Hv & Ht & Hq).
  exists v. split; [exact Hv|]. split; [exact Ht|].
  destruct (Hq Hdata Hansi) as [Hnone | [Hin _]]; [exact Hnone|].
  exfalso. cbn [In] in Hin. destruct Hin as [Hin|[Hin|[]]]; discriminate Hin.
Defined.

(** ** The time columns *)

Lemma micros_of_largest_long {E : Engine} :
  double_to_timestamp
    (Numeric.double_div (Numeric.double_of_Z 9223372036854775807)
                        (Numeric.double_of_Z 1000000))
  = Timestamp 9223372036854775807.
Proof. unfold double_to_timestamp. destruct ansi_enabled; vm_compute; reflexivity. Qed.

(** At the largest long both sessions raise: the sum with the offset of
    Asia/Kuala_Lumpur leaves the 64-bit range. *)
Example largest_long_overflows :
  @eval (@convert_epoch_microseconds reference_engine "merch_eff_time")
        [("merch_eff_time", Long 9223372036854775807)]
  = Raise ARITHMETIC_OVERFLOW
  /\ @eval (@convert_epoch_microseconds ansi_engine "merch_eff_time")
           [("merch_eff_time", Long 9223372036854775807)]
     = Raise ARITHMETIC_OVERFLOW.
Proof. split; vm_compute; reflexivity. Qed.



(** ** Cells run again *)

Section Rerun.
Context {A : Type}.
Implicit Types (fs : list (string * A)) (n : string).

Lemma hasField_with_field n (x : A) fs : hasField n (with_field n x fs) = true.
Proof.
  destruct (hasField n (with_field n x fs)) eqn:H; [reflexivity|].
  apply hasField_lookup in H. now rewrite lookup_with_field_same in H.
Qed.

Lemma with_field_present n (x : A) fs :
  hasField n fs = true ->
  with_field n x fs
  = map (fun f => if name_eqb (fst f) n then (n, x) else f) fs.
Proof. intros H. unfold with_field. now rewrite H. Qed.

(** Writing the same value twice is writing it once. *)
Lemma with_field_twice n (x : A) fs :
  with_field n x (with_field n x fs) = with_field n x fs.
Proof.
  rewrite (with_field_present n x (with_field n x fs))
    by apply hasField_with_field.
  unfold with_field. destruct (hasField n fs) eqn:H.
  - rewrite map_map. apply map_ext. intros [m y]. cbn [fst].
    destruct (name_eqb m n) eqn:Hm; cbn [fst];
      [now rewrite name_eqb_refl | now rewrite Hm].
  - rewrite map_app. cbn [map fst]. rewrite name_eqb_refl. f_equal.
    rewrite <- (map_id fs) at 2. apply map_ext_in. intros [m y] Hin. cbn [fst].
    destruct (name_eqb m n) eqn:Hm; [|reflexivity].
    exfalso. unfold hasField in H.
    assert (Hex : existsb (fun f => name_eqb (fst f) n) fs = true)
      by (apply existsb_exists; exists (m, y); auto).
    congruence.
Qed.
End Rerun.

Section RerunCells.
Context {E : Engine}.

(** A cell of one [withColumn] whose expression does not read the column it
    writes gives its own output back. *)
Lemma rerun_with_column (n : string) (c : Column) (df df1 : DataFrame) :
  (forall sch t, dataType c (with_field n t sch) = dataType c sch) ->
  (forall r v, eval c (with_field n v r) = eval c r) ->
  chain [WithColumn n c] df = Ok df1 ->
  chain [WithColumn n c] df1 = Ok df1.
Proof.
  intros Htype Heval H. cbn [chain call] in *. unfold withColumn in *.
  destruct (dataType c (schema df)) as [t|] eqn:Ht; [|discriminate].
  cbn [bind] in H. injection H as <-. cbn [schema rows].
  rewrite Htype, Ht. cbn [bind]. f_equal.
  rewrite with_field_twice, map_map. f_equal.
  apply map_ext. intros r. now rewrite Heval, with_field_twice.
Qed.

Lemma mask_reads_cc_num :
  (forall sch t, dataType (sha2 (col "cc_num") 256)
                   (with_field "cc_num_masked" t sch)
                 = dataType (sha2 (col "cc_num") 256) sch)
  /\ (forall r v, eval (sha2 (col "cc_num") 256) (with_field "cc_num_masked" v r)
                  = eval (sha2 (col "cc_num") 256) r).
Proof.
  split.
  - intros sch t. unfold sha2. cbn [dataType]. f_equal.
    change (dataType (col "cc_num"))
      with (fun s : Schema =>
              match lookup "cc_num" s with
              | Some t0 => if (1 <? matches "cc_num" s)%nat
                           then AnalysisException "cc_num" else Ok t0
              | None => AnalysisException "cc_num"
              end).
    cbv beta.
    now rewrite lookup_with_field_other, matches_with_field_other by reflexivity.
  - intros r v. unfold sha2. cbn [eval].
    rewrite (eval_col_lookup "cc_num" r); [reflexivity|].
    apply lookup_with_field_other. reflexivity.
Qed.

Lemma address_reads_personal (fields : Schema) :
  (forall sch t, dataType (from_json (col "personal_detail_json.address") fields)
                   (with_field "address_json" t sch)
                 = dataType (from_json (col "personal_detail_json.address") fields)
                     sch)
  /\ (forall r v, eval (from_json (col "personal_detail_json.address") fields)
                    (with_field "address_json" v r)
                  = eval (from_json (col "personal_detail_json.address") fields) r).
Proof.
  split.
  - intros sch t. unfold from_json. cbn [dataType]. f_equal.
    change (dataType (col "personal_detail_json.address"))
      with (fun s : Schema =>
              match lookup "personal_detail_json" s with
              | Some t0 =>
                  if (1 <? matches "personal_detail_json" s)%nat
                  then AnalysisException "personal_detail_json.address"
                  else match field_type ["address"] t0 with
                       | Some t' => Ok t'
                       | None => AnalysisException "personal_detail_json.address"
                       end
              | None => AnalysisException "personal_detail_json.address"
              end).
    cbv beta.
    now rewrite lookup_with_field_other, matches_with_field_other by reflexivity.
  - intros r v. unfold from_json. cbn [eval].
    rewrite (eval_col_lookup "personal_detail_json.address" r); [reflexivity|].
    apply lookup_with_field_other. reflexivity.
Qed.

Lemma rejected_without (name : string) (c : Column) (rest : list Call)
      (df : DataFrame) :
  (forall sch, lookup name sch = None ->
               exists msg, dataType c sch = AnalysisException msg) ->
  lookup name (schema df) = None ->
  forall n, exists msg, chain (WithColumn n c :: rest) df = AnalysisException msg.
Proof.
  intros Hc Hn n. destruct (Hc _ Hn) as (msg & Hmsg). exists msg.
  cbn [chain call]. unfold withColumn. now rewrite Hmsg.
Qed.
End RerunCells.

(** X14.  The two cells that only add a column, the address parser and the
    masking cell, can be run again on their own output: the second run
    returns the frame it was given. *)
Theorem adding_cells_rerun {E : Engine} (cell : DataFrame -> Result DataFrame)
        (df df1 : DataFrame) :
  In cell [parse_address; mask_cc] ->
  cell df = Ok df1 ->
  cell df1 = Ok df1.
Proof.
  intros Hcell H. cbn [In] in Hcell. destruct Hcell as [<-|[<-|[]]].
  - destruct (address_reads_personal address_schema) as [Ht Hv].
    exact (rerun_with_column _ _ df df1 Ht Hv H).
  - destruct mask_reads_cc_num as [Ht Hv].
    exact (rerun_with_column _ _ df df1 Ht Hv H).
Qed.

Lemma adding_cells_rerun_witness :
  In mask_cc [parse_address; mask_cc]
  /\ mask_cc Sample.df_time = Ok Sample.df_final
  /\ mask_cc Sample.df_final = Ok Sample.df_final.
Proof.
  assert (Hcell : In mask_cc [parse_address; mask_cc]) by (cbn; tauto).
  assert (H : mask_cc Sample.df_time = Ok Sample.df_final)
    by (vm_compute; reflexivity).
  split; [exact Hcell|]. split; [exact H|].
  exact (adding_cells_rerun mask_cc Sample.df_time Sample.df_final Hcell H).
Defined.

(** X15.  A run consumes its input: the personal-detail parser, the
    flattener and the notebook as a whole drop a column they read, so that
    run again on their own output they raise and return no frame. *)
Theorem dropping_cells_do_not_rerun {E : Engine}
        (cell : DataFrame -> Result DataFrame) (df df1 : DataFrame) :
  In cell [parse_personal_detail; flatten_fields; pipeline] ->
  cell df = Ok df1 ->
  exists msg, cell df1 = AnalysisException msg.
Proof.
  intros Hcell H. cbn [In] in Hcell. destruct Hcell as [<-|[<-|[<-|[]]]].
  - assert (Hgone : lookup "personal_detail" (schema df1) = None).
    { apply chain_schema_of in H.
      apply (chain_schema_removed personal_detail_cell 1 ["personal_detail"]
               "personal_detail" _ _ H); reflexivity. }
    apply (rejected_without "personal_detail"); [|exact Hgone].
    intros sch Hsch. unfold from_json, col. cbn. rewrite Hsch. cbn. eauto.
  - assert (Hgone : lookup "personal_detail_json" (schema df1) = None).
    { apply chain_schema_of in H.
      apply (chain_schema_removed flatten_cell 12
               ["personal_detail_json"; "address_json"]
               "personal_detail_json" _ _ H); reflexivity. }
    apply (rejected_without "personal_detail_json"); [|exact Hgone].
    intros sch Hsch. unfold getItem, split, col. cbn. rewrite Hsch. cbn. eauto.
  - assert (Hgone : lookup "personal_detail" (schema df1) = None).
    { rewrite pipeline_chain in H. apply chain_schema_of in H.
      apply (chain_schema_removed notebook_calls 1 ["personal_detail"]
               "personal_detail" _ _ H); reflexivity. }
    destruct (pipeline df1) as [out|msg] eqn:Hagain; [|eauto].
    exfalso. rewrite pipeline_chain in Hagain. apply chain_schema_of in Hagain.
    assert (Hone : matches "personal_detail" (schema df1) = 1%nat)
      by (apply (raw_columns_read _ _ "personal_detail" Hagain); cbn; tauto).
    apply hasField_lookup in Hgone.
    rewrite (proj2 (matches_hasField _ _) Hgone) in Hone. discriminate.
Qed.

Lemma dropping_cells_do_not_rerun_witness :
  In pipeline [parse_personal_detail; flatten_fields; pipeline]
  /\ pipeline Sample.df_raw = Ok Sample.df_final
  /\ exists msg, pipeline Sample.df_final = AnalysisException msg.
Proof.
  assert (Hcell : In pipeline [parse_personal_detail; flatten_fields; pipeline])
    by (cbn; tauto).
  assert (H : pipeline Sample.df_raw = Ok Sample.df_final)
    by (vm_compute; reflexivity).
  split; [exact Hcell|]. split; [exact H|].
  exact (dropping_cells_do_not_rerun pipeline Sample.df_raw Sample.df_final
           Hcell H).
Defined.

(** ** The cells that only look at the frame *)

Section Looking.
Context {E : Engine}.

Lemma select_untouched (cols : list string) (df out : DataFrame) :
  pipeline df = Ok out ->
  (forall n, In n cols ->
     mentions (touched notebook_calls)
       (hd n (split_on (Ascii.eqb ".") n)) = false) ->
  select cols out = select cols df.
Proof.
  intros H Hcols. rewrite pipeline_chain in H.
  pose proof (chain_schema_of _ _ _ H) as Hs.
  unfold select. rewrite (chain_rows _ _ _ H), map_map.
  assert (Hsch : select_schema cols (schema out) = select_schema cols (schema df)).
  { induction cols as [|n cols IH]; [reflexivity|].
    cbn [select_schema]. rewrite IH by (intros m Hm; apply Hcols; now right).
    assert (Hn := Hcols n (or_introl eq_refl)).
    assert (Ht : dataType (col n) (schema out) = dataType (col n) (schema df)).
    { unfold col in *.
      destruct (split_on (Ascii.eqb ".") n) as [|top path]; [reflexivity|].
      cbn [dataType hd] in *.
      now rewrite (chain_schema_frame _ _ _ _ Hs Hn),
                  (chain_schema_matches _ _ _ _ Hs Hn). }
    now rewrite Ht. }
  rewrite Hsch. destruct (select_schema cols (schema df)); [|reflexivity].
  cbn [bind]. do 2 f_equal. apply map_ext. intros r.
  unfold select_row. apply map_ext_in. intros n Hn. f_equal.
  apply eval_col_chain. now apply Hcols.
Qed.

(** A name selects a column when it resolves to one column of the frame. *)
Lemma type_col_resolves (name : string) (sch : Schema) :
  split_on (Ascii.eqb ".") name = [name] ->
  (exists t, dataType (col name) sch = Ok t) <-> matches name sch = 1.
Proof.
  intros Hn. split.
  - intros (t & Ht). apply (type_col_unique name sch t Hn Ht).
  - intros Hm. destruct (lookup name sch) as [t|] eqn:Hl.
    + exists t. apply type_col_top; [exact Hn | exact Hl | lia].
    + apply hasField_lookup in Hl.
      rewrite (proj2 (matches_hasField _ _) Hl) in Hm. discriminate.
Qed.

Lemma select_schema_names (cols : list string) (sch s : Schema) :
  select_schema cols sch = Ok s -> fieldNames s = map column_name cols.
Proof.
  revert s. induction cols as [|n cols IH]; intros s H; cbn [select_schema] in H.
  - now inversion H.
  - apply bind_Ok in H as (t & _ & H). apply bind_Ok in H as (s' & Hs' & H).
    inversion H. cbn [fieldNames map fst]. f_equal. apply (IH _ Hs').
Qed.

Lemma select_schema_accepts (cols : list string) (sch : Schema) :
  (exists s, select_schema cols sch = Ok s)
  <-> Forall (fun n => exists t, dataType (col n) sch = Ok t) cols.
Proof.
  induction cols as [|n cols IH]; cbn [select_schema].
  - split; [constructor | eauto].
  - split.
    + intros (s & H). apply bind_Ok in H as (t & Ht & H).
      apply bind_Ok in H as (s' & Hs' & _).
      constructor; [eauto | apply IH; eauto].
    + intros H. inversion H as [|? ? (t & Ht) Hrest]. subst.
      apply IH in Hrest as (s' & Hs'). rewrite Ht, Hs'. cbn [bind]. eauto.
Qed.

Lemma first_error_none (vs : list Value) :
  first_error vs = None <-> Forall (fun v => raised v = None) vs.
Proof.
  induction vs as [|v vs IH]; cbn [first_error]; [split; [constructor | reflexivity]|].
  destruct (raised v) eqn:Hv.
  - split; [discriminate | intros H; inversion H; congruence].
  - rewrite IH. split; [now constructor | intros H; now inversion H].
Qed.

Lemma first_error_some (vs : list Value) (e : SparkError) :
  first_error vs = Some e -> exists v, In v vs /\ raised v = Some e.
Proof.
  induction vs as [|v vs IH]; cbn [first_error]; [discriminate|].
  destruct (raised v) eqn:Hv.
  - intros H. inversion H. subst. exists v. split; [now left | exact Hv].
  - intros H. destruct (IH H) as (v' & Hin & Hv'). exists v'. split; [now right | exact Hv'].
Qed.

(** The cells of raw columns selected from a row of data do not raise. *)
Lemma select_row_at_rest (cols : list string) (r : Row) :
  Forall (fun n => split_on (Ascii.eqb ".") n = [n]) cols ->
  at_rest r ->
  Forall (fun v => raised v = None) (map snd (select_row cols r)).
Proof.
  intros Hcols Hr. unfold select_row. rewrite map_map. cbn [snd].
  apply Forall_map. apply (Forall_impl _ (P := fun n => split_on (Ascii.eqb ".") n = [n]));
    [|exact Hcols].
  intros n Hn. now apply raw_col_quiet.
Qed.

(** The number of columns a written name resolves to. *)
Lemma written_matches (calls : list Call) (k : nat) (n : string) (c : Column)
      (sch sch' : Schema) :
  chain_schema calls sch = Ok sch' ->
  nth_error calls k = Some (WithColumn n c) ->
  mentions (touched (firstn k calls)) n = false ->
  mentions (touched (skipn (S k) calls)) n = false ->
  matches n sch' = Nat.max 1 (matches n sch).
Proof.
  intros Hs Hk Hpre Hpost.
  destruct (chain_schema_split _ _ _ _ _ Hs Hk) as (sch1 & sch2 & H1 & H2 & H3).
  cbn [call_schema] in H2. apply bind_Ok in H2 as (t & _ & H2). inversion H2.
  subst sch2.
  rewrite (chain_schema_matches _ _ _ _ H3 Hpost), matches_with_field_same.
  now rewrite (chain_schema_matches _ _ _ _ H1 Hpre).
Qed.
End Looking.

(** X16.  The chart does not depend on the transformation: what the
    [visualize] cell does on the final frame is what it would do on the raw
    frame.  When it returns, the table has the three selected columns and a
    row for every raw row.  The analyzer rejects it exactly when [category],
    [amt] or [is_fraud] is not the name, up to case, of one column of the
    raw frame (columns the transformation itself never needs); on a frame
    of data the job raises nothing. *)
Theorem visualize_ignores_pipeline {E : Engine} (df out : DataFrame) :
  pipeline df = Ok out ->
  visualize_table out = visualize_table df
  /\ (forall pdf, visualize_table out = Ok (Returned pdf) ->
        columns pdf = ["category"; "amt"; "is_fraud"] /\ count pdf = count df)
  /\ ((exists msg, visualize_table out = AnalysisException msg)
      <-> exists n, In n ["category"; "amt"; "is_fraud"]
                    /\ matches n (schema df) <> 1)
  /\ (Forall at_rest (rows df) ->
      forall job, visualize_table out = Ok job -> exists pdf, job = Returned pdf).
Proof.
  intros H.
  assert (Hsame : visualize_table out = visualize_table df).
  { unfold visualize_table. rewrite (select_untouched _ df out H); [reflexivity|].
    intros n Hn. cbn [In] in Hn. destruct Hn as [<-|[<-|[<-|[]]]]; reflexivity. }
  split; [exact Hsame|]. rewrite Hsame. clear Hsame H.
  set (cols := ["category"; "amt"; "is_fraud"]).
  assert (Hres : forall n, In n cols ->
            (exists t, dataType (col n) (schema df) = Ok t)
            <-> matches n (schema df) = 1).
  { intros n Hn. apply type_col_resolves.
    cbn [cols In] in Hn. destruct Hn as [<-|[<-|[<-|[]]]]; reflexivity. }
  unfold visualize_table, select. fold cols.
  destruct (select_schema cols (schema df)) as [s|msg] eqn:Hs; cbn [bind].
  - pose proof (select_schema_names _ _ _ Hs) as Hnames.
    assert (Hall : Forall (fun n => exists t, dataType (col n) (schema df) = Ok t)
                          cols)
      by (apply select_schema_accepts; eauto).
    rewrite Forall_forall in Hall.
    split; [|split].
    + intros pdf Hpdf. unfold toPandas in Hpdf. cbn [rows schema] in Hpdf.
      destruct (first_error _); [discriminate Hpdf|].
      injection Hpdf as <-. unfold columns, count. cbn [schema rows].
      split; [exact Hnames | apply length_map].
    + split; [intros (m & Hm); discriminate Hm|].
      intros (n & Hn & Hbad). exfalso. apply Hbad.
      apply (Hres n Hn), Hall, Hn.
    + intros Hdata job Hjob. injection Hjob as <-.
      unfold toPandas. cbn [rows schema].
      assert (Hquiet : first_error
                         (cells (map (select_row cols) (rows df))) = None).
      { apply first_error_none. unfold cells. apply Forall_flat_map.
        apply Forall_map.
        apply (Forall_impl _ (P := at_rest)); [|exact Hdata].
        intros r Hr. apply select_row_at_rest; [|exact Hr].
        repeat constructor. }
      rewrite Hquiet. eauto.
  - split; [intros pdf Hpdf; discriminate Hpdf|].
    split; [|intros _ job Hjob; discriminate Hjob].
    split; [intros _ | eauto].
    destruct (Nat.eq_dec (matches "category" (schema df)) 1) as [H1|H1];
      [|exists "category"; split; [cbn; tauto | exact H1]].
    destruct (Nat.eq_dec (matches "amt" (schema df)) 1) as [H2|H2];
      [|exists "amt"; split; [cbn; tauto | exact H2]].
    destruct (Nat.eq_dec (matches "is_fraud" (schema df)) 1) as [H3|H3];
      [|exists "is_fraud"; split; [cbn; tauto | exact H3]].
    exfalso.
    assert (Hok : exists s, select_schema cols (schema df) = Ok s).
    { apply select_schema_accepts.
      repeat constructor; apply Hres; cbn; tauto. }
    destruct Hok as (s & Hok). congruence.
Qed.

Lemma visualize_ignores_pipeline_witness :
  pipeline Sample.df_raw = Ok Sample.df_final
  /\ Forall at_rest (rows Sample.df_raw)
  /\ visualize_table Sample.df_final = visualize_table Sample.df_raw
  /\ exists pdf, visualize_table Sample.df_final = Ok (Returned pdf)
                 /\ columns pdf = ["category"; "amt"; "is_fraud"]
                 /\ count pdf = 4.
Proof.
  assert (H : pipeline Sample.df_raw = Ok Sample.df_final)
    by (vm_compute; reflexivity).
  assert (Hdata : Forall at_rest (rows Sample.df_raw)) by (repeat constructor).
  split; [exact H|]. split; [exact Hdata|].
  destruct (visualize_ignores_pipeline Sample.df_raw Sample.df_final H)
    as (Hsame & Hcols & _ & Hjob).
  split; [exact Hsame|].
  destruct (visualize_table Sample.df_final) as [job|msg] eqn:Hv;
    [|vm_compute in Hv; discriminate Hv].
  destruct (Hjob Hdata job eq_refl) as (pdf & ->).
  exists pdf. split; [reflexivity|]. exact (Hcols pdf eq_refl).
Defined.

Lemma nth_error_firstn_Some {A : Type} (n i : nat) (l : list A) (x : A) :
  nth_error (firstn n l) i = Some x -> i < n /\ nth_error l i = Some x.
Proof.
  revert i l. induction n as [|n IH]; intros i l H.
  - destruct i; discriminate H.
  - destruct l as [|y l]; [destruct i; discriminate H|].
    destruct i as [|i]; cbn in *; [split; [lia | exact H]|].
    destruct (IH _ _ H). split; [lia | assumption].
Qed.




